(** * The app manager of the OSP aoapps library (aoapps_mngr.cpp)

    A shallow embedding of the app registry and of the supervisor that
    starts, steps, stops and switches apps, with its "with topo" wrapper
    state machine, its repair broadcasts and its status reporting.

    The C module keeps its state in file-level statics and talks to the
    rest of the firmware (clock, signaling LEDs, OLED, serial port, OSP
    telegrams, topology builder, the handlers of the registered apps)
    through plain function calls.  The embedding threads one [machine]
    value through a small monad: the statics, the outside world, and a
    ghost trace recording every call that leaves the module.

    The handlers of an app act on the outside world only: none of the apps
    of the library calls back into the manager.  The [int] statics are
    integers; the count and the indices stay within the 8 slots, far from
    the limits of [int]. *)

From Stdlib Require Import ZArith Lia Bool String Ascii.
From stdpp Require Import base list.

Local Open Scope Z_scope.

(** ** Result codes (aoresult.h)

    The enum [aoresult_t] is declared by the aoresult library.  The manager
    only compares results with [aoresult_ok], the enumerator with value 0. *)

Definition aoresult_t := Z.
Definition aoresult_ok : aoresult_t := 0.

(** ** Constants of aoapps_mngr.h and aoapps_mngr.cpp *)

Definition AOAPPS_MNGR_REGISTRATION_SLOTS : Z := 8.

Definition AOAPPS_MNGR_FLAGS_NONE : Z := 0.
Definition AOAPPS_MNGR_FLAGS_WITHTOPO : Z := 1.
Definition AOAPPS_MNGR_FLAGS_WITHREPAIR : Z := 2.
Definition AOAPPS_MNGR_FLAGS_NEXTONERR : Z := 4.
Definition AOAPPS_MNGR_FLAGS_ALL : Z :=
  Z.lor (Z.lor AOAPPS_MNGR_FLAGS_WITHTOPO AOAPPS_MNGR_FLAGS_WITHREPAIR)
        AOAPPS_MNGR_FLAGS_NEXTONERR.

Definition AOAPPS_MNGR_HEARTBEAT_MS : Z := 500.
Definition AOAPPS_MNGR_REPAIR_MS : Z := 250.
Definition AOAPPS_MNGR_ERROR_MS : Z := 10000.

(** [uint32_t] values are integers in [0, 2^32); [u32] is the conversion
    to that type, so [u32 (a - b)] is the unsigned subtraction of C. *)
Definition u32 (z : Z) : Z := z mod 2 ^ 32.

(** C's [flags & FLAG] used as a condition. *)
Definition has_flag (flags flag : Z) : bool := negb (Z.land flags flag =? 0).

(** [isalnum] of <ctype.h> in the "C" locale. *)
Definition isalnum (c : ascii) : bool :=
  let n := Z.of_nat (nat_of_ascii c) in
  ((48 <=? n) && (n <=? 57)) || ((65 <=? n) && (n <=? 90))
  || ((97 <=? n) && (n <=? 122)).

(** A pointer is [None] when it is the null pointer. *)
Definition nonnull {A : Type} (p : option A) : bool :=
  match p with Some _ => true | None => false end.

(** ** The "with topo" state machine states *)

Inductive aoapps_mngr_state_t :=
| AOAPPS_MNGR_STATE_TOPOBUILD
| AOAPPS_MNGR_STATE_APPANIM
| AOAPPS_MNGR_STATE_ERROR.

(** ** Calls that leave the module *)

Inductive serial_msg :=
| MsgErrorInApp (name : option string) (r : aoresult_t)
| MsgSwitchesToNext
| MsgStartingOn (name : option string) (numtriplets : Z).

Inductive event :=
| EvMillis
| EvLedOn (mask : Z)
| EvLedOff (mask : Z)
| EvLedToggle (mask : Z)
| EvOledState (oled xlbl ylbl : option string)
| EvOledMsg (r : aoresult_t)
| EvSerial (msg : serial_msg)
| EvClrError (addr : Z)
| EvGoActive (addr : Z)
| EvTopoBuildStart
| EvTopoBuildDone
| EvTopoBuildStep
| EvTopoNumTriplets
| EvAppStart (appix : Z)
| EvAppStep (appix : Z)
| EvAppStop (appix : Z).

(** How a call into the manager can end: normally, in a failed
    [AORESULT_ASSERT] (the firmware reports it and halts), or in behaviour
    the C language leaves undefined. *)
Inductive undefined :=
| DivisionByZero
| OutOfBounds
| NullPointer.

Inductive outcome (A : Type) :=
| Ok (a : A)
| AssertFailed
| Undefined (u : undefined).
Arguments Ok {A} a.
Arguments AssertFailed {A}.
Arguments Undefined {A} u.

(** ** The collaborators of the manager

    [W] is everything outside the manager: the clock, the OSP chain, the
    topology builder, the UI board, the statics of the apps. *)
Class Collaborators (W : Type) := {
  (* Arduino *)
  millis : W -> Z * W;
  Serial_printf : serial_msg -> W -> W;
  (* aoui32 *)
  AOUI32_LED_GRN : Z;
  AOUI32_LED_RED : Z;
  aoui32_led_on : Z -> W -> W;
  aoui32_led_off : Z -> W -> W;
  aoui32_led_toggle : Z -> W -> W;
  aoui32_oled_state : option string -> option string -> option string -> W -> W;
  aoui32_oled_msg : aoresult_t -> W -> W;
  (* aoosp *)
  aoosp_send_clrerror : Z -> W -> aoresult_t * W;
  aoosp_send_goactive : Z -> W -> aoresult_t * W;
  (* aomw *)
  aomw_topo_build_start : W -> W;
  aomw_topo_build_done : W -> bool * W;
  aomw_topo_build_step : W -> aoresult_t * W;
  aomw_topo_numtriplets : W -> Z * W
}.

Section Manager.
Context {W : Type} `{X : Collaborators W}.

(** The handler signatures for an app. *)
Definition aoapps_mngr_start_t := W -> aoresult_t * W.
Definition aoapps_mngr_step_t := W -> aoresult_t * W.
Definition aoapps_mngr_stop_t := W -> W.
Definition aoapps_mngr_cmd_t := list string -> W -> W.

Record aoapps_mngr_app_t := App {
  name : option string;
  oled : option string;
  xlbl : option string;
  ylbl : option string;
  flags : Z;
  start : option aoapps_mngr_start_t;
  step : option aoapps_mngr_step_t;
  stop : option aoapps_mngr_stop_t;
  cmd : option aoapps_mngr_cmd_t;
  help : option string
}.

(** A descriptor of the zero-initialised static array. *)
Definition zero_app : aoapps_mngr_app_t :=
  App None None None None 0 None None None None None.

(** The statics of aoapps_mngr.cpp, the world and the ghost trace. *)
Record machine := Machine {
  aoapps_mngr_count : Z;
  aoapps_mngr_apps : list aoapps_mngr_app_t;
  aoapps_mngr_appix : Z;
  aoapps_mngr_moderun : Z;
  aoapps_mngr_result : aoresult_t;
  aoapps_mngr_lastgrn : Z;
  aoapps_mngr_lastrepair : Z;
  aoapps_mngr_lasterror : Z;
  aoapps_mngr_state : aoapps_mngr_state_t;
  aoapps_mngr_error : aoresult_t;
  world : W;
  trace : list event
}.

Definition with_count v m :=
  Machine v (aoapps_mngr_apps m) (aoapps_mngr_appix m) (aoapps_mngr_moderun m)
    (aoapps_mngr_result m) (aoapps_mngr_lastgrn m) (aoapps_mngr_lastrepair m)
    (aoapps_mngr_lasterror m) (aoapps_mngr_state m) (aoapps_mngr_error m)
    (world m) (trace m).
Definition with_apps v m :=
  Machine (aoapps_mngr_count m) v (aoapps_mngr_appix m) (aoapps_mngr_moderun m)
    (aoapps_mngr_result m) (aoapps_mngr_lastgrn m) (aoapps_mngr_lastrepair m)
    (aoapps_mngr_lasterror m) (aoapps_mngr_state m) (aoapps_mngr_error m)
    (world m) (trace m).
Definition with_appix v m :=
  Machine (aoapps_mngr_count m) (aoapps_mngr_apps m) v (aoapps_mngr_moderun m)
    (aoapps_mngr_result m) (aoapps_mngr_lastgrn m) (aoapps_mngr_lastrepair m)
    (aoapps_mngr_lasterror m) (aoapps_mngr_state m) (aoapps_mngr_error m)
    (world m) (trace m).
Definition with_moderun v m :=
  Machine (aoapps_mngr_count m) (aoapps_mngr_apps m) (aoapps_mngr_appix m) v
    (aoapps_mngr_result m) (aoapps_mngr_lastgrn m) (aoapps_mngr_lastrepair m)
    (aoapps_mngr_lasterror m) (aoapps_mngr_state m) (aoapps_mngr_error m)
    (world m) (trace m).
Definition with_result v m :=
  Machine (aoapps_mngr_count m) (aoapps_mngr_apps m) (aoapps_mngr_appix m)
    (aoapps_mngr_moderun m) v (aoapps_mngr_lastgrn m) (aoapps_mngr_lastrepair m)
    (aoapps_mngr_lasterror m) (aoapps_mngr_state m) (aoapps_mngr_error m)
    (world m) (trace m).
Definition with_lastgrn v m :=
  Machine (aoapps_mngr_count m) (aoapps_mngr_apps m) (aoapps_mngr_appix m)
    (aoapps_mngr_moderun m) (aoapps_mngr_result m) v (aoapps_mngr_lastrepair m)
    (aoapps_mngr_lasterror m) (aoapps_mngr_state m) (aoapps_mngr_error m)
    (world m) (trace m).
Definition with_lastrepair v m :=
  Machine (aoapps_mngr_count m) (aoapps_mngr_apps m) (aoapps_mngr_appix m)
    (aoapps_mngr_moderun m) (aoapps_mngr_result m) (aoapps_mngr_lastgrn m) v
    (aoapps_mngr_lasterror m) (aoapps_mngr_state m) (aoapps_mngr_error m)
    (world m) (trace m).
Definition with_lasterror v m :=
  Machine (aoapps_mngr_count m) (aoapps_mngr_apps m) (aoapps_mngr_appix m)
    (aoapps_mngr_moderun m) (aoapps_mngr_result m) (aoapps_mngr_lastgrn m)
    (aoapps_mngr_lastrepair m) v (aoapps_mngr_state m) (aoapps_mngr_error m)
    (world m) (trace m).
Definition with_state v m :=
  Machine (aoapps_mngr_count m) (aoapps_mngr_apps m) (aoapps_mngr_appix m)
    (aoapps_mngr_moderun m) (aoapps_mngr_result m) (aoapps_mngr_lastgrn m)
    (aoapps_mngr_lastrepair m) (aoapps_mngr_lasterror m) v (aoapps_mngr_error m)
    (world m) (trace m).
Definition with_error v m :=
  Machine (aoapps_mngr_count m) (aoapps_mngr_apps m) (aoapps_mngr_appix m)
    (aoapps_mngr_moderun m) (aoapps_mngr_result m) (aoapps_mngr_lastgrn m)
    (aoapps_mngr_lastrepair m) (aoapps_mngr_lasterror m) (aoapps_mngr_state m) v
    (world m) (trace m).
(** An external call: the world moves on and the call is recorded. *)
Definition with_call (e : event) (w : W) m :=
  Machine (aoapps_mngr_count m) (aoapps_mngr_apps m) (aoapps_mngr_appix m)
    (aoapps_mngr_moderun m) (aoapps_mngr_result m) (aoapps_mngr_lastgrn m)
    (aoapps_mngr_lastrepair m) (aoapps_mngr_lasterror m) (aoapps_mngr_state m)
    (aoapps_mngr_error m) w (trace m ++ [e]).

(** ** The monad of manager code *)

Definition M (A : Type) : Type := machine -> outcome (A * machine).

Definition ret {A} (a : A) : M A := fun m => Ok (a, m).

Definition bind {A B} (c : M A) (k : A -> M B) : M B :=
  fun m =>
    match c m with
    | Ok (a, m') => k a m'
    | AssertFailed => AssertFailed
    | Undefined u => Undefined u
    end.

Notation "'let*' x ':=' c 'in' k" := (bind c (fun x => k))
  (at level 10, x name, c at level 100, k at level 200).
Notation "c >> k" := (bind c (fun _ => k))
  (at level 100, k at level 200, right associativity).

Definition gets {A} (f : machine -> A) : M A := fun m => Ok (f m, m).
Definition modify (f : machine -> machine) : M unit := fun m => Ok (tt, f m).
Definition undefined_behaviour {A} (u : undefined) : M A := fun _ => Undefined u.

(** [AORESULT_ASSERT(c)]: a failed assertion is fatal. *)
Definition AORESULT_ASSERT (c : bool) : M unit :=
  fun m => if c then Ok (tt, m) else AssertFailed.

(** A call of a collaborator that returns a value, and one that does not. *)
Definition call {A} (e : event) (f : W -> A * W) : M A :=
  fun m => let '(a, w) := f (world m) in Ok (a, with_call e w m).
Definition call_void (e : event) (f : W -> W) : M unit :=
  fun m => Ok (tt, with_call e (f (world m)) m).

(** A call through a function pointer of a descriptor. *)
Definition call_ptr {A} (e : event) (f : option (W -> A * W)) : M A :=
  match f with
  | Some f => call e f
  | None => undefined_behaviour NullPointer
  end.
Definition call_ptr_void (e : event) (f : option (W -> W)) : M unit :=
  match f with
  | Some f => call_void e f
  | None => undefined_behaviour NullPointer
  end.

(** [aoapps_mngr_apps[ix]]: the array has [AOAPPS_MNGR_REGISTRATION_SLOTS]
    elements, an access outside of it is undefined. *)
Definition app_at (ix : Z) : M aoapps_mngr_app_t :=
  fun m =>
    if (0 <=? ix) && (ix <? AOAPPS_MNGR_REGISTRATION_SLOTS) then
      match aoapps_mngr_apps m !! Z.to_nat ix with
      | Some a => Ok (a, m)
      | None => Undefined OutOfBounds
      end
    else Undefined OutOfBounds.

Definition store_app (ix : Z) (a : aoapps_mngr_app_t) : M unit :=
  fun m =>
    if (0 <=? ix) && (ix <? AOAPPS_MNGR_REGISTRATION_SLOTS)
       && (Z.to_nat ix <? length (aoapps_mngr_apps m))%nat then
      Ok (tt, with_apps (<[Z.to_nat ix := a]> (aoapps_mngr_apps m)) m)
    else Undefined OutOfBounds.

(** [millis()] returns an [uint32_t]. *)
Definition call_millis : M Z :=
  let* t := call EvMillis millis in ret (u32 t).

(** ** App registration *)

(** The loop of [aoapps_mngr_register] over the characters of the name: an
    assertion per character.  A [string] stands for a NUL-terminated C
    string, the terminator not included. *)
Fixpoint assert_name_chars (s : string) : M unit :=
  match s with
  | EmptyString => ret tt
  | String c s' => AORESULT_ASSERT (isalnum c) >> assert_name_chars s'
  end.

Definition aoapps_mngr_register
    (name oled xlbl ylbl : option string) (flags : Z)
    (start : option aoapps_mngr_start_t) (step : option aoapps_mngr_step_t)
    (stop : option aoapps_mngr_stop_t) (cmd : option aoapps_mngr_cmd_t)
    (help : option string) : M unit :=
  let* count := gets aoapps_mngr_count in
  AORESULT_ASSERT (count <? AOAPPS_MNGR_REGISTRATION_SLOTS) >>
  AORESULT_ASSERT (nonnull name && nonnull oled && nonnull xlbl && nonnull ylbl
                   && nonnull start && nonnull step && nonnull stop) >>
  AORESULT_ASSERT (eqb (negb (nonnull cmd)) (negb (nonnull help))) >>
  AORESULT_ASSERT (0 =? Z.land flags (Z.lnot AOAPPS_MNGR_FLAGS_ALL)) >>
  match name with
  | Some n => assert_name_chars n
  | None => undefined_behaviour NullPointer
  end >>
  let slot := count in
  modify (with_count (count + 1)) >>
  store_app slot (App name oled xlbl ylbl flags start step stop cmd help).

(** The void app, doing nothing. *)
Definition aoapps_mngr_voidapp_start : aoapps_mngr_start_t :=
  fun w => (aoresult_ok, w).
Definition aoapps_mngr_voidapp_step : aoapps_mngr_step_t :=
  fun w => (aoresult_ok, w).
Definition aoapps_mngr_voidapp_stop : aoapps_mngr_stop_t := fun w => w.

Definition aoapps_mngr_voidapp_register : M unit :=
  aoapps_mngr_register (Some "voidapp"%string) (Some "USB command"%string)
    (Some "--"%string) (Some "--"%string) 0
    (Some aoapps_mngr_voidapp_start) (Some aoapps_mngr_voidapp_step)
    (Some aoapps_mngr_voidapp_stop) None None.

(** ** Managing *)

(** The descriptor of the current app, [aoapps_mngr_apps[aoapps_mngr_appix]]. *)
Definition current_app : M aoapps_mngr_app_t :=
  let* ix := gets aoapps_mngr_appix in app_at ix.

(** C's [a % b] on [int]: undefined for a zero divisor, truncating otherwise. *)
Definition c_rem (a b : Z) : M Z :=
  if b =? 0 then undefined_behaviour DivisionByZero else ret (Z.rem a b).

Definition aoapps_mngr_init : M unit :=
  modify (with_count 0) >>
  modify (with_appix 0) >>
  modify (with_moderun 0) >>
  modify (with_result aoresult_ok) >>
  aoapps_mngr_voidapp_register >>
  let* t := call_millis in
  modify (with_lastgrn t) >>
  let* t := call_millis in
  modify (with_lastrepair t) >>
  let* t := call_millis in
  modify (with_lasterror t).

(** Show app status to user: red error (and OLED) or green heartbeat. *)
Definition aoapps_mngr_showstatus : M unit :=
  let* res := gets aoapps_mngr_result in
  if negb (res =? aoresult_ok) then
    let* t := call_millis in
    modify (with_lasterror t) >>
    call_void (EvLedOff AOUI32_LED_GRN) (aoui32_led_off AOUI32_LED_GRN) >>
    call_void (EvLedOn AOUI32_LED_RED) (aoui32_led_on AOUI32_LED_RED) >>
    let* a := current_app in
    let* res := gets aoapps_mngr_result in
    call_void (EvSerial (MsgErrorInApp (name a) res))
              (Serial_printf (MsgErrorInApp (name a) res)) >>
    let* res := gets aoapps_mngr_result in
    call_void (EvOledMsg res) (aoui32_oled_msg res)
  else
    let* t := call_millis in
    let* lastgrn := gets aoapps_mngr_lastgrn in
    if AOAPPS_MNGR_HEARTBEAT_MS <? u32 (t - lastgrn) then
      call_void (EvLedToggle AOUI32_LED_GRN) (aoui32_led_toggle AOUI32_LED_GRN) >>
      let* t := call_millis in
      modify (with_lastgrn t)
    else ret tt.

(** Broadcast clrerror and goactive, when it is time for a repair step. *)
Definition aoapps_mngr_repair : M aoresult_t :=
  let* t := call_millis in
  let* lastrepair := gets aoapps_mngr_lastrepair in
  if AOAPPS_MNGR_REPAIR_MS <? u32 (t - lastrepair) then
    let* result := call (EvClrError 0) (aoosp_send_clrerror 0) in
    if negb (result =? aoresult_ok) then ret result else
    let* result := call (EvGoActive 0) (aoosp_send_goactive 0) in
    if negb (result =? aoresult_ok) then ret result else
    let* t := call_millis in
    modify (with_lastrepair t) >>
    ret aoresult_ok
  else ret aoresult_ok.

(** ** The "with topo" state machine *)

Definition aoapps_mngr_startwithtopo : M aoresult_t :=
  modify (with_error aoresult_ok) >>
  modify (with_state AOAPPS_MNGR_STATE_TOPOBUILD) >>
  call_void EvTopoBuildStart aomw_topo_build_start >>
  gets aoapps_mngr_error.

(** [if( aoapps_mngr_error!=aoresult_ok ) aoapps_mngr_state= AOAPPS_MNGR_STATE_ERROR;] *)
Definition error_to_state : M unit :=
  let* e := gets aoapps_mngr_error in
  if negb (e =? aoresult_ok) then modify (with_state AOAPPS_MNGR_STATE_ERROR)
  else ret tt.

Definition aoapps_mngr_stepwithtopo : M aoresult_t :=
  let* st := gets aoapps_mngr_state in
  match st with
  | AOAPPS_MNGR_STATE_TOPOBUILD =>
      let* done := call EvTopoBuildDone aomw_topo_build_done in
      if negb done then
        let* r := call EvTopoBuildStep aomw_topo_build_step in
        modify (with_error r) >>
        error_to_state >>
        ret aoresult_ok (* loop topo build *)
      else
        let* a := current_app in
        let* n := call EvTopoNumTriplets aomw_topo_numtriplets in
        call_void (EvSerial (MsgStartingOn (name a) n))
                  (Serial_printf (MsgStartingOn (name a) n)) >>
        let* ix := gets aoapps_mngr_appix in
        let* a := current_app in
        let* r := call_ptr (EvAppStart ix) (start a) in
        modify (with_error r) >>
        error_to_state >>
        modify (with_state AOAPPS_MNGR_STATE_APPANIM) >>
        gets aoapps_mngr_error
  | AOAPPS_MNGR_STATE_APPANIM =>
      let* ix := gets aoapps_mngr_appix in
      let* a := current_app in
      let* r := call_ptr (EvAppStep ix) (step a) in
      modify (with_error r) >>
      error_to_state >>
      gets aoapps_mngr_error
  | AOAPPS_MNGR_STATE_ERROR =>
      (* ERROR is a final state *)
      gets aoapps_mngr_error
  end.

(** ** Start, step, stop, switch *)

Definition aoapps_mngr_start (appix : Z) : M unit :=
  let* count := gets aoapps_mngr_count in
  AORESULT_ASSERT (0 <? count) >>
  let* moderun := gets aoapps_mngr_moderun in
  AORESULT_ASSERT (moderun =? 0) >>
  let* count := gets aoapps_mngr_count in
  AORESULT_ASSERT ((0 <=? appix) && (appix <? count)) >>
  modify (with_appix appix) >>
  let* a := current_app in
  call_void (EvOledState (oled a) (xlbl a) (ylbl a))
            (aoui32_oled_state (oled a) (xlbl a) (ylbl a)) >>
  modify (with_moderun 1) >>
  call_void (EvLedOff (Z.lor AOUI32_LED_GRN AOUI32_LED_RED))
            (aoui32_led_off (Z.lor AOUI32_LED_GRN AOUI32_LED_RED)) >>
  call_void (EvLedOn AOUI32_LED_GRN) (aoui32_led_on AOUI32_LED_GRN) >>
  let* t := call_millis in
  modify (with_lastgrn t) >>
  let* a := current_app in
  (if has_flag (flags a) AOAPPS_MNGR_FLAGS_WITHTOPO then
     let* r := aoapps_mngr_startwithtopo in
     modify (with_result r)
   else
     let* ix := gets aoapps_mngr_appix in
     let* a := current_app in
     let* r := call_ptr (EvAppStart ix) (start a) in
     modify (with_result r)) >>
  aoapps_mngr_showstatus.

Definition aoapps_mngr_stop : M unit :=
  let* moderun := gets aoapps_mngr_moderun in
  AORESULT_ASSERT (negb (moderun =? 0)) >>
  let* ix := gets aoapps_mngr_appix in
  let* a := current_app in
  call_ptr_void (EvAppStop ix) (stop a) >>
  modify (with_moderun 0).

Definition aoapps_mngr_switch (appix : Z) : M unit :=
  aoapps_mngr_stop >>
  aoapps_mngr_start appix.

Definition aoapps_mngr_switchnext : M unit :=
  let* appix := gets aoapps_mngr_appix in
  let* count := gets aoapps_mngr_count in
  let* r := c_rem appix (count - 1) in
  aoapps_mngr_switch (r + 1).

Definition aoapps_mngr_step : M unit :=
  let* moderun := gets aoapps_mngr_moderun in
  AORESULT_ASSERT (negb (moderun =? 0)) >>
  let* res := gets aoapps_mngr_result in
  if negb (res =? aoresult_ok) then
    let* a := current_app in
    if has_flag (flags a) AOAPPS_MNGR_FLAGS_NEXTONERR then
      let* t := call_millis in
      let* lasterror := gets aoapps_mngr_lasterror in
      if AOAPPS_MNGR_ERROR_MS <? u32 (t - lasterror) then
        call_void (EvSerial MsgSwitchesToNext) (Serial_printf MsgSwitchesToNext) >>
        aoapps_mngr_switchnext
      else ret tt
    else ret tt
  else
    let* a := current_app in
    (if has_flag (flags a) AOAPPS_MNGR_FLAGS_WITHTOPO then
       let* r := aoapps_mngr_stepwithtopo in
       modify (with_result r)
     else
       let* ix := gets aoapps_mngr_appix in
       let* a := current_app in
       let* r := call_ptr (EvAppStep ix) (step a) in
       modify (with_result r)) >>
    let* res := gets aoapps_mngr_result in
    (if res =? aoresult_ok then
       let* a := current_app in
       if has_flag (flags a) AOAPPS_MNGR_FLAGS_WITHREPAIR then
         let* r := aoapps_mngr_repair in
         modify (with_result r)
       else ret tt
     else ret tt) >>
    aoapps_mngr_showstatus.

(** ** Observers *)

Definition aoapps_mngr_app_appix (m : machine) : Z := aoapps_mngr_appix m.
Definition aoapps_mngr_app_running (m : machine) : Z := aoapps_mngr_moderun m.
Definition aoapps_mngr_app_count (m : machine) : Z := aoapps_mngr_count m.
Definition aoapps_mngr_app_name (appix : Z) : M (option string) :=
  let* a := app_at appix in ret (name a).
Definition aoapps_mngr_app_oled (appix : Z) : M (option string) :=
  let* a := app_at appix in ret (oled a).

(** The statics as the C runtime zero-initialises them, before [setup()]. *)
Definition boot (w : W) : machine :=
  Machine 0 (replicate (Z.to_nat AOAPPS_MNGR_REGISTRATION_SLOTS) zero_app)
          0 0 0 0 0 0 AOAPPS_MNGR_STATE_TOPOBUILD 0 w [].

End Manager.

Arguments aoapps_mngr_app_t W : clear implicits.
Arguments machine W : clear implicits.

Notation "'let*' x ':=' c 'in' k" := (bind c (fun x => k))
  (at level 10, x name, c at level 100, k at level 200).
Notation "c >> k" := (bind c (fun _ => k))
  (at level 100, k at level 200, right associativity).

(** ** Vocabulary of the statements *)

Section Vocabulary.
Context {W : Type} `{X : Collaborators W}.

(** The current app is readable and its descriptor is [a]. *)
Definition current_is (m : machine W) (a : aoapps_mngr_app_t W) : Prop :=
  0 <= aoapps_mngr_appix m < AOAPPS_MNGR_REGISTRATION_SLOTS /\
  aoapps_mngr_apps m !! Z.to_nat (aoapps_mngr_appix m) = Some a.

(** [c] run from [m] returns normally, in a machine that satisfies [Q]. *)
Definition wp {A} (c : M A) (Q : A -> machine W -> Prop) (m : machine W) : Prop :=
  exists a m', c m = Ok (a, m') /\ Q a m'.

(** [n] calls of [aoapps_mngr_step()] in a row, as [loop()] makes them. *)
Fixpoint steps (n : nat) : M unit :=
  match n with
  | O => ret tt
  | S n' => aoapps_mngr_step >> steps n'
  end.

(** Registering with the fields of a descriptor as the arguments. *)
Definition register_app (a : aoapps_mngr_app_t W) : M unit :=
  aoapps_mngr_register (name a) (oled a) (xlbl a) (ylbl a) (flags a)
    (start a) (step a) (stop a) (cmd a) (help a).

(** The preconditions of a registration, one field per precondition:
    capacity, the name, the mandatory arguments, the flags, and the
    command handler with its help text. *)
Record registration_ok (count : Z) (a : aoapps_mngr_app_t W) : Prop := {
  ok_capacity : count < AOAPPS_MNGR_REGISTRATION_SLOTS;
  ok_name : exists n, name a = Some n /\
              Forall (fun c => isalnum c = true) (list_ascii_of_string n);
  ok_oled : oled a <> None;
  ok_xlbl : xlbl a <> None;
  ok_ylbl : ylbl a <> None;
  ok_start : start a <> None;
  ok_step : step a <> None;
  ok_stop : stop a <> None;
  ok_flags : forall i, 0 <= i -> Z.testbit (flags a) i = true -> i = 0 \/ i = 1 \/ i = 2;
  ok_cmd_help : cmd a = None <-> help a = None
}.

(** The mandatory fields of a descriptor are there. *)
Definition valid_app (a : aoapps_mngr_app_t W) : bool :=
  nonnull (name a) && nonnull (oled a) && nonnull (xlbl a) && nonnull (ylbl a)
  && nonnull (start a) && nonnull (step a) && nonnull (stop a).

(** The boolean conditions of the five assertions, in the order of the code. *)
Definition register_checks (count : Z) (a : aoapps_mngr_app_t W) : bool :=
  (count <? AOAPPS_MNGR_REGISTRATION_SLOTS)
  && valid_app a
  && eqb (negb (nonnull (cmd a))) (negb (nonnull (help a)))
  && (0 =? Z.land (flags a) (Z.lnot AOAPPS_MNGR_FLAGS_ALL))
  && match name a with
     | Some n => forallb isalnum (list_ascii_of_string n)
     | None => false
     end.

(** The calls of the repair broadcasts, and the calls of the UI board, the
    serial port and the clock. *)
Definition is_repair_event (e : event) : bool :=
  match e with
  | EvClrError _ | EvGoActive _ => true
  | _ => false
  end.

Definition is_status_event (e : event) : bool :=
  match e with
  | EvMillis | EvLedOn _ | EvLedOff _ | EvLedToggle _
  | EvOledState _ _ _ | EvOledMsg _ | EvSerial _ => true
  | _ => false
  end.

Definition is_app_start (e : event) : bool :=
  match e with
  | EvAppStart _ => true
  | _ => false
  end.

(** The app-level operation of a step: the step() of the app, directly or
    through the "with topo" state machine. *)
Definition app_level_step (a : aoapps_mngr_app_t W) : M aoresult_t :=
  if has_flag (flags a) AOAPPS_MNGR_FLAGS_WITHTOPO then aoapps_mngr_stepwithtopo
  else
    let* ix := gets aoapps_mngr_appix in
    let* a := current_app in
    call_ptr (EvAppStep ix) (step a).

(** [c] keeps the relation [R] between the machine it starts from and the
    machine it returns in. *)
Definition preserves (R : machine W -> machine W -> Prop) {A} (c : M A) : Prop :=
  forall m x m', c m = Ok (x, m') -> R m m'.

(** What an app-level operation leaves alone: the statics of the
    supervisor (the "with topo" state and error are its own to change),
    and the repair broadcasts, none of which it sends. *)
Definition app_level_update (m m' : machine W) : Prop :=
  aoapps_mngr_count m' = aoapps_mngr_count m /\
  aoapps_mngr_apps m' = aoapps_mngr_apps m /\
  aoapps_mngr_appix m' = aoapps_mngr_appix m /\
  aoapps_mngr_moderun m' = aoapps_mngr_moderun m /\
  aoapps_mngr_result m' = aoapps_mngr_result m /\
  aoapps_mngr_lastgrn m' = aoapps_mngr_lastgrn m /\
  aoapps_mngr_lastrepair m' = aoapps_mngr_lastrepair m /\
  aoapps_mngr_lasterror m' = aoapps_mngr_lasterror m /\
  exists evs, trace m' = trace m ++ evs /\
              List.filter is_repair_event evs = [].

(** What showing the status leaves alone: everything but the heartbeat and
    error timestamps; the calls it makes go to the clock, the UI board and
    the serial port. *)
Definition status_update (m m' : machine W) : Prop :=
  aoapps_mngr_count m' = aoapps_mngr_count m /\
  aoapps_mngr_apps m' = aoapps_mngr_apps m /\
  aoapps_mngr_appix m' = aoapps_mngr_appix m /\
  aoapps_mngr_moderun m' = aoapps_mngr_moderun m /\
  aoapps_mngr_result m' = aoapps_mngr_result m /\
  aoapps_mngr_lastrepair m' = aoapps_mngr_lastrepair m /\
  aoapps_mngr_state m' = aoapps_mngr_state m /\
  aoapps_mngr_error m' = aoapps_mngr_error m /\
  exists evs, trace m' = trace m ++ evs /\
              forallb is_status_event evs = true.

(** What [aoapps_mngr_start] does before it comes to the app: it shows the
    app on the display, puts the LEDs in their initial state and reads the
    clock for the first heartbeat.  [start_prelude a] are these calls, and
    [world_at_start a w] is the world they leave, [w] being the world in
    which [aoapps_mngr_start] is entered: the world in which the start() of
    the app is called. *)
Definition start_prelude (a : aoapps_mngr_app_t W) : list event :=
  [EvOledState (oled a) (xlbl a) (ylbl a);
   EvLedOff (Z.lor AOUI32_LED_GRN AOUI32_LED_RED);
   EvLedOn AOUI32_LED_GRN;
   EvMillis].

Definition world_at_start (a : aoapps_mngr_app_t W) (w : W) : W :=
  snd (millis
         (aoui32_led_on AOUI32_LED_GRN
            (aoui32_led_off (Z.lor AOUI32_LED_GRN AOUI32_LED_RED)
               (aoui32_oled_state (oled a) (xlbl a) (ylbl a) w)))).

(** What starting the app [a] at index [ix] establishes, [evs0] being the
    calls made before [aoapps_mngr_start] is entered and [w0] the world in
    which it is entered: the app is current and running and the registry
    is as before.  For an app without topo build, the calls are those
    before, the prelude, one call of the start() of the app and then only
    calls that show the status; the latched result is what that call of
    start() returned.  For an app with topo build, the topology build is
    started in the place of the start() of the app, which is yet to come:
    the latched result is ok. *)
Definition started (m : machine W) (w0 : W) (ix : Z) (a : aoapps_mngr_app_t W)
    (evs0 : list event) (m' : machine W) : Prop :=
  aoapps_mngr_appix m' = ix /\
  aoapps_mngr_moderun m' = 1 /\
  aoapps_mngr_count m' = aoapps_mngr_count m /\
  aoapps_mngr_apps m' = aoapps_mngr_apps m /\
  (exists evs,
     trace m' = trace m ++ evs0 ++ EvOledState (oled a) (xlbl a) (ylbl a) :: evs) /\
  (has_flag (flags a) AOAPPS_MNGR_FLAGS_WITHTOPO = true ->
     aoapps_mngr_result m' = aoresult_ok /\
     aoapps_mngr_state m' = AOAPPS_MNGR_STATE_TOPOBUILD /\
     exists evs,
       trace m' = trace m ++ evs0 ++ start_prelude a ++ EvTopoBuildStart :: evs /\
       forallb is_status_event evs = true) /\
  (has_flag (flags a) AOAPPS_MNGR_FLAGS_WITHTOPO = false ->
     exists f,
       start a = Some f /\
       aoapps_mngr_result m' = fst (f (world_at_start a w0)) /\
       exists evs,
         trace m' = trace m ++ evs0 ++ start_prelude a ++ EvAppStart ix :: evs /\
         forallb is_status_event evs = true).

(** The registry is in order: between 1 and 8 apps in an array of 8, each
    registered one with its mandatory fields, and the current index names
    a registered app. *)
Definition wf (m : machine W) : Prop :=
  1 <= aoapps_mngr_count m <= AOAPPS_MNGR_REGISTRATION_SLOTS /\
  0 <= aoapps_mngr_appix m < aoapps_mngr_count m /\
  length (aoapps_mngr_apps m) = Z.to_nat AOAPPS_MNGR_REGISTRATION_SLOTS /\
  forallb valid_app (take (Z.to_nat (aoapps_mngr_count m)) (aoapps_mngr_apps m)) = true.

End Vocabulary.

(** ** Sequences of calls *)

Section Operations.
Context {W : Type} `{X : Collaborators W}.

(** If [c] run from [m] returns, it returns in a machine that satisfies [Q]. *)
Definition wlp {A} (c : M A) (Q : A -> machine W -> Prop) (m : machine W) : Prop :=
  forall x m', c m = Ok (x, m') -> Q x m'.

(** The calls a sketch makes into the manager after [aoapps_mngr_init()]. *)
Inductive operation :=
| OpRegister (a : aoapps_mngr_app_t W)
| OpStart (appix : Z)
| OpStep
| OpStop
| OpSwitch (appix : Z)
| OpSwitchNext.

Definition run_op (o : operation) : M unit :=
  match o with
  | OpRegister a => register_app a
  | OpStart appix => aoapps_mngr_start appix
  | OpStep => aoapps_mngr_step
  | OpStop => aoapps_mngr_stop
  | OpSwitch appix => aoapps_mngr_switch appix
  | OpSwitchNext => aoapps_mngr_switchnext
  end.

Fixpoint run_ops (os : list operation) : M unit :=
  match os with
  | [] => ret tt
  | o :: os' => run_op o >> run_ops os'
  end.

(** The registered descriptors of [m] are still those of [m']. *)
Definition registry_extends (m m' : machine W) : Prop :=
  aoapps_mngr_count m <= aoapps_mngr_count m' /\
  forall i, (i < Z.to_nat (aoapps_mngr_count m))%nat ->
            aoapps_mngr_apps m' !! i = aoapps_mngr_apps m !! i.

(** The count, the descriptors, the current index and the run mode are as
    in [m]. *)
Definition same_current (m m' : machine W) : Prop :=
  aoapps_mngr_count m' = aoapps_mngr_count m /\
  aoapps_mngr_apps m' = aoapps_mngr_apps m /\
  aoapps_mngr_appix m' = aoapps_mngr_appix m /\
  aoapps_mngr_moderun m' = aoapps_mngr_moderun m.

(** The calls made from [m] to [m'] hold at most [k] calls of an app's
    start(). *)
Definition starts_since (k : nat) (m m' : machine W) : Prop :=
  exists evs, trace m' = trace m ++ evs /\
              (length (List.filter is_app_start evs) <= k)%nat.

(** [n] steps of the "with topo" state machine in a row. *)
Fixpoint topo_steps (n : nat) : M aoresult_t :=
  match n with
  | O => gets aoapps_mngr_error
  | S n' => aoapps_mngr_stepwithtopo >> topo_steps n'
  end.

End Operations.

(** ** The "apps" command (command handler of aoapps_mngr.cpp)

    The handler is called by the command interpreter of the aocmd library
    with the words of the command line in [argv].  What it needs from that
    library, [aocmd_cint_isprefix] and [aocmd_cint_parse_dec], and the
    texts it prints are taken as collaborators; printing acts on the
    world. *)

Inductive apps_msg :=
| AppsConfigurableApps
| AppsConfigurableApp (name oled : option string)
| AppsNoneConfigurable
| AppsNotConfigurable (arg : string)
| AppsHelp (help : string)
| AppsNoMatch (arg : string)
| AppsListOne (appix : Z) (name : option string) (mode flags : string)
              (oled : option string)
| AppsListHeader
| AppsListFooter
| AppsTooManyArgs
| AppsAppMissing
| AppsOutOfBounds (appix : Z)
| AppsNoAppWithName (arg : string)
| AppsUnknownArgs.

Class CommandInterpreter (W : Type) := {
  (* [aocmd_cint_isprefix(str,prefix)] *)
  aocmd_cint_isprefix : string -> string -> bool;
  (* [aocmd_cint_parse_dec(str,&v)]: [Some v] when it returns true *)
  aocmd_cint_parse_dec : string -> option Z;
  Serial_printf_apps : apps_msg -> W -> W
}.

Section Commands.
Context {W : Type} `{X : Collaborators W} `{C : CommandInterpreter W}.

Definition with_world (w : W) (m : machine W) : machine W :=
  Machine (aoapps_mngr_count m) (aoapps_mngr_apps m) (aoapps_mngr_appix m)
    (aoapps_mngr_moderun m) (aoapps_mngr_result m) (aoapps_mngr_lastgrn m)
    (aoapps_mngr_lastrepair m) (aoapps_mngr_lasterror m) (aoapps_mngr_state m)
    (aoapps_mngr_error m) w (trace m).

(** [Serial.printf] of the command handler. *)
Definition print (msg : apps_msg) : @M W unit :=
  modify (fun m => with_world (Serial_printf_apps msg (world m)) m).

(** [argv[i]], for [i] below [argc]. *)
Definition argv_at (argv : list string) (i : nat) : @M W string :=
  match argv !! i with
  | Some s => ret s
  | None => undefined_behaviour OutOfBounds
  end.

(** [argv[0][0]!='@']: the command was not given with the @-prefix. *)
Definition not_silent (argv0 : string) : bool :=
  match argv0 with
  | String "@" _ => false
  | _ => true
  end.

(** [aocmd_cint_isprefix(aoapps_mngr_app_name(appix),arg)] *)
Definition name_matches (appix : Z) (arg : string) : @M W bool :=
  let* n := aoapps_mngr_app_name appix in
  match n with
  | Some n => ret (aocmd_cint_isprefix n arg)
  | None => undefined_behaviour NullPointer
  end.

(** Lists one app (with status). *)
Definition aoapps_mngr_cmd_listone (appix : Z) : @M W unit :=
  let* name := aoapps_mngr_app_name appix in
  let* cur := gets aoapps_mngr_app_appix in
  let* run := gets aoapps_mngr_app_running in
  let mode := if negb (appix =? cur) then "stop"%string
              else if negb (run =? 0) then "run"%string
              else "idle"%string in
  let* a := app_at appix in
  let flagstr :=
    String (if has_flag (flags a) AOAPPS_MNGR_FLAGS_WITHTOPO then "T" else "t")
      (String (if has_flag (flags a) AOAPPS_MNGR_FLAGS_WITHREPAIR then "R" else "r")
         (String (if has_flag (flags a) AOAPPS_MNGR_FLAGS_NEXTONERR then "E" else "e")
            EmptyString)) in
  let* oled := aoapps_mngr_app_oled appix in
  print (AppsListOne appix name mode flagstr oled).

(** The loop of [aoapps_mngr_cmd_listall]: [n] apps from index [appix] on. *)
Fixpoint listall_loop (n : nat) (appix : Z) : @M W unit :=
  match n with
  | O => ret tt
  | S n' => aoapps_mngr_cmd_listone appix >> listall_loop n' (appix + 1)
  end.

(** Lists all apps (with status). *)
Definition aoapps_mngr_cmd_listall (verbose : bool) : @M W unit :=
  (if verbose then print AppsListHeader else ret tt) >>
  let* count := gets aoapps_mngr_app_count in
  listall_loop (Z.to_nat count) 0 >>
  (if verbose then print AppsListFooter else ret tt).

(** The loop of the case [argc==2] of [aoapps_mngr_cmd_config]; it returns
    the local [count]. *)
Fixpoint config_list_loop (n : nat) (appix count : Z) : @M W Z :=
  match n with
  | O => ret count
  | S n' =>
      let* a := app_at appix in
      if nonnull (help a) then
        (if count =? 0 then print AppsConfigurableApps else ret tt) >>
        print (AppsConfigurableApp (name a) (oled a)) >>
        config_list_loop n' (appix + 1) (count + 1)
      else config_list_loop n' (appix + 1) count
  end.

(** The loop of the cases [argc==3] and [argc>3]: [None] when the function
    returned from inside the loop, the local [count] otherwise. *)
Fixpoint config_app_loop (argv : list string) (arg : string) (n : nat)
    (appix count : Z) : @M W (option Z) :=
  match n with
  | O => ret (Some count)
  | S n' =>
      let* hit := name_matches appix arg in
      if hit then
        let* a := app_at appix in
        match cmd a with
        | None => print (AppsNotConfigurable arg) >> ret None
        | Some handler =>
            (if (length argv =? 3)%nat then
               AORESULT_ASSERT (nonnull (help a)) >>
               match help a with
               | Some h => print (AppsHelp h)
               | None => undefined_behaviour NullPointer
               end
             else
               modify (fun m => with_world (handler argv (world m)) m)) >>
            config_app_loop argv arg n' (appix + 1) (count + 1)
        end
      else config_app_loop argv arg n' (appix + 1) count
  end.

(** Some apps have registered a configuration handler with help. *)
Definition aoapps_mngr_cmd_config (argv : list string) : @M W unit :=
  let argc := length argv in
  if (argc =? 2)%nat then
    let* n := gets aoapps_mngr_app_count in
    let* count := config_list_loop (Z.to_nat n) 0 0 in
    if count =? 0 then print AppsNoneConfigurable else ret tt
  else if (3 <=? argc)%nat then
    let* arg := argv_at argv 2 in
    let* n := gets aoapps_mngr_app_count in
    let* count := config_app_loop argv arg (Z.to_nat n) 0 0 in
    match count with
    | Some 0 => print (AppsNoMatch arg)
    | _ => ret tt
    end
  else ret tt.

(** The loop of the case "switch" over the names: the first index whose
    name matches, -1 when there is none. *)
Fixpoint find_by_name (arg : string) (n : nat) (ix : Z) : @M W Z :=
  match n with
  | O => ret (-1)
  | S n' =>
      let* hit := name_matches ix arg in
      if hit then ret ix else find_by_name arg n' (ix + 1)
  end.

(** The tail of both ways to switch: switch, and list the app unless silent. *)
Definition switch_and_list (argv : list string) (appix : Z) : @M W unit :=
  aoapps_mngr_switch appix >>
  let* argv0 := argv_at argv 0 in
  if not_silent argv0 then aoapps_mngr_cmd_listone appix else ret tt.

(** The handler for the "apps" command. *)
Definition aoapps_mngr_cmd (argv : list string) : @M W unit :=
  let argc := length argv in
  if (argc =? 1)%nat then
    let* cur := gets aoapps_mngr_app_appix in
    aoapps_mngr_cmd_listone cur
  else
    let* argv1 := argv_at argv 1 in
    if aocmd_cint_isprefix "list" argv1 then
      if negb (argc =? 2)%nat then print AppsTooManyArgs
      else
        let* argv0 := argv_at argv 0 in
        aoapps_mngr_cmd_listall (not_silent argv0)
    else if aocmd_cint_isprefix "switch" argv1 then
      if negb (argc =? 3)%nat then print AppsAppMissing
      else
        let* argv2 := argv_at argv 2 in
        match aocmd_cint_parse_dec argv2 with
        | Some appix =>
            let* count := gets aoapps_mngr_app_count in
            if (appix <? 0) || (count <=? appix) then print (AppsOutOfBounds appix)
            else switch_and_list argv appix
        | None =>
            let* count := gets aoapps_mngr_app_count in
            let* appix := find_by_name argv2 (Z.to_nat count) 0 in
            if appix =? -1 then print (AppsNoAppWithName argv2)
            else switch_and_list argv appix
        end
    else if aocmd_cint_isprefix "config" argv1 then aoapps_mngr_cmd_config argv
    else print AppsUnknownArgs.

(** The app at index [j] is registered under a name that [arg] matches. *)
Definition matches_at (m : machine W) (arg : string) (j : Z) : Prop :=
  exists a n, aoapps_mngr_apps m !! Z.to_nat j = Some a /\
              name a = Some n /\ aocmd_cint_isprefix n arg = true.

End Commands.

(** * The stock apps

    The apps keep their state in statics of their own and call the
    middleware (aomw), the UI board (aoui32) and the clock.  Their code is
    embedded in a state monad over the statics of the app and the world;
    an access outside of an array is undefined, as in the manager.  The
    [int] values (indices, dim levels, frame times) are integers: they stay
    far from the limits of [int]. *)

(** [aomw_topo_rgb_t] *)
Record aomw_topo_rgb_t := Rgb {
  rgb_r : Z;
  rgb_g : Z;
  rgb_b : Z;
  rgb_name : string
}.

(** What the apps use of aomw and aoui32, next to [Collaborators]. *)
Class Middleware (W : Type) := {
  aomw_topo_red : aomw_topo_rgb_t;
  aomw_topo_yellow : aomw_topo_rgb_t;
  aomw_topo_green : aomw_topo_rgb_t;
  aomw_topo_cyan : aomw_topo_rgb_t;
  aomw_topo_magenta : aomw_topo_rgb_t;
  aomw_topo_settriplet : Z -> aomw_topo_rgb_t -> W -> aoresult_t * W;
  aomw_topo_dim_get : W -> Z * W;
  aomw_topo_dim_set : Z -> W -> W;
  (* [aomw_topo_i2cfind(daddr7,&addr)]: the result and the new [addr] *)
  aomw_topo_i2cfind : Z -> Z -> W -> (aoresult_t * Z) * W;
  aomw_tscript_playframe : W -> aoresult_t * W;
  AOUI32_BUT_X : Z;
  AOUI32_BUT_Y : Z;
  aoui32_but_wentdown : Z -> W -> bool * W;
  aoui32_but_isdown : Z -> W -> bool * W;
  aoresult_dev_noi2cdev : aoresult_t;
  AOMW_EEPROM_DADDR7_STICK : Z;
  AOMW_EEPROM_DADDR7_SAIDBASIC : Z
}.

Section AppCode.
Context {W S : Type}.

Definition prog (A : Type) : Type := S * W -> outcome (A * (S * W)).

Definition pret {A} (a : A) : prog A := fun sw => Ok (a, sw).

Definition pbind {A B} (c : prog A) (k : A -> prog B) : prog B :=
  fun sw =>
    match c sw with
    | Ok (a, sw') => k a sw'
    | AssertFailed => AssertFailed
    | Undefined u => Undefined u
    end.

(** Reading and writing the statics of the app. *)
Definition static {A} (f : S -> A) : prog A := fun sw => Ok (f (fst sw), sw).
Definition assign (f : S -> S) : prog unit := fun sw => Ok (tt, (f (fst sw), snd sw)).

(** Calling a collaborator. *)
Definition ext {A} (f : W -> A * W) : prog A :=
  fun sw => let '(a, w) := f (snd sw) in Ok (a, (fst sw, w)).
Definition ext_void (f : W -> W) : prog unit :=
  fun sw => Ok (tt, (fst sw, f (snd sw))).

Definition undefined_access {A} : prog A := fun _ => Undefined OutOfBounds.

Definition passert (c : bool) : prog unit :=
  fun sw => if c then Ok (tt, sw) else AssertFailed.

(** [c] run from the statics [s] in the world [w] returns, with a result,
    statics and a world that satisfy [Q]. *)
Definition returns {A} (c : prog A) (Q : A -> S -> W -> Prop) (s : S) (w : W) : Prop :=
  exists a s' w', c (s, w) = Ok (a, (s', w')) /\ Q a s' w'.

End AppCode.

Notation "'let+' x ':=' c 'in' k" := (pbind c (fun x => k))
  (at level 10, x name, c at level 100, k at level 200).
Notation "c >>> k" := (pbind c (fun _ => k))
  (at level 100, k at level 200, right associativity).

(** ** runled (aoapps_runled.cpp) *)

Module Runled.
Section Runled.
Context {W : Type} `{X : Collaborators W} `{Y : Middleware W}.

Definition AOAPPS_RUNLED_ANIM_MS : Z := 25.

(** The largest [int].  The product [dim*AOAPPS_RUNLED_BUTTONS_PERKIBI] of
    the button handler is an integer here: the handler is the code as long
    as that product is at most [INT_MAX]. *)
Definition INT_MAX : Z := 2147483647.
Definition AOAPPS_RUNLED_BUTTONS_PERKIBI : Z := 256.
Definition AOAPPS_RUNLED_BUTTONS_MS : Z := 200.

(** The colors in the runled loop. *)
Definition aoapps_runled_anim_rgbs : list aomw_topo_rgb_t :=
  [aomw_topo_red; aomw_topo_yellow; aomw_topo_green; aomw_topo_cyan;
   aomw_topo_magenta].
Definition AOAPPS_RUNLED_RGBS_SIZE : Z := Z.of_nat (length aoapps_runled_anim_rgbs).

(** The statics of the app. *)
Record statics := Statics {
  aoapps_runled_anim_tix : Z;
  aoapps_runled_anim_colorix : Z;
  aoapps_runled_anim_dir : Z;
  aoapps_runled_anim_ms : Z;
  aoapps_runled_buttons_ms : Z;
  aoapps_runled_dimdft : Z
}.

Definition set_tix v s :=
  Statics v (aoapps_runled_anim_colorix s) (aoapps_runled_anim_dir s)
    (aoapps_runled_anim_ms s) (aoapps_runled_buttons_ms s) (aoapps_runled_dimdft s).
Definition set_colorix v s :=
  Statics (aoapps_runled_anim_tix s) v (aoapps_runled_anim_dir s)
    (aoapps_runled_anim_ms s) (aoapps_runled_buttons_ms s) (aoapps_runled_dimdft s).
Definition set_dir v s :=
  Statics (aoapps_runled_anim_tix s) (aoapps_runled_anim_colorix s) v
    (aoapps_runled_anim_ms s) (aoapps_runled_buttons_ms s) (aoapps_runled_dimdft s).
Definition set_anim_ms v s :=
  Statics (aoapps_runled_anim_tix s) (aoapps_runled_anim_colorix s)
    (aoapps_runled_anim_dir s) v (aoapps_runled_buttons_ms s) (aoapps_runled_dimdft s).
Definition set_buttons_ms v s :=
  Statics (aoapps_runled_anim_tix s) (aoapps_runled_anim_colorix s)
    (aoapps_runled_anim_dir s) (aoapps_runled_anim_ms s) v (aoapps_runled_dimdft s).
Definition set_dimdft v s :=
  Statics (aoapps_runled_anim_tix s) (aoapps_runled_anim_colorix s)
    (aoapps_runled_anim_dir s) (aoapps_runled_anim_ms s) (aoapps_runled_buttons_ms s) v.

Definition P := @prog W statics.

(** [millis()], an [uint32_t]. *)
Definition now : P Z := let+ t := ext millis in pret (u32 t).

(** [aoapps_runled_anim_rgbs[ix]] *)
Definition rgbs_at (ix : Z) : P aomw_topo_rgb_t :=
  if (0 <=? ix) && (ix <? AOAPPS_RUNLED_RGBS_SIZE) then
    match aoapps_runled_anim_rgbs !! Z.to_nat ix with
    | Some c => pret c
    | None => undefined_access
    end
  else undefined_access.

(** Step of the runled state machine. *)
Definition aoapps_runled_anim : P aoresult_t :=
  let+ t := now in
  let+ ms := static aoapps_runled_anim_ms in
  if u32 (t - ms) <? AOAPPS_RUNLED_ANIM_MS then pret aoresult_ok else
  let+ t := now in
  assign (set_anim_ms t) >>>
  let+ tix := static aoapps_runled_anim_tix in
  let+ colorix := static aoapps_runled_anim_colorix in
  let+ rgb := rgbs_at colorix in
  let+ result := ext (aomw_topo_settriplet tix rgb) in
  if negb (result =? aoresult_ok) then pret result else
  let+ tix := static aoapps_runled_anim_tix in
  let+ dir := static aoapps_runled_anim_dir in
  let new_tix := tix + dir in
  let+ inside :=
    (if 0 <=? new_tix then
       let+ n := ext aomw_topo_numtriplets in pret (new_tix <? n)
     else pret false) in
  (if inside then assign (set_tix new_tix)
   else
     let+ dir := static aoapps_runled_anim_dir in
     assign (set_dir (- dir)) >>>
     let+ colorix := static aoapps_runled_anim_colorix in
     assign (set_colorix (colorix + 1)) >>>
     let+ colorix := static aoapps_runled_anim_colorix in
     if colorix =? AOAPPS_RUNLED_RGBS_SIZE then assign (set_colorix 0)
     else pret tt) >>>
  pret aoresult_ok.

(** Handling button presses (to dim down/up).  The [int] arithmetic on the
    dim level is arithmetic on integers: this is the code for the levels
    whose product with [AOAPPS_RUNLED_BUTTONS_PERKIBI] is at most
    [INT_MAX]; beyond, the product overflows in C. *)
Definition aoapps_runled_buttons_check : P aoresult_t :=
  let+ went := ext (aoui32_but_wentdown (Z.lor AOUI32_BUT_X AOUI32_BUT_Y)) in
  (if went then
     let+ t := now in
     assign (set_buttons_ms (u32 (t - AOAPPS_RUNLED_BUTTONS_MS)))
   else pret tt) >>>
  let+ down := ext (aoui32_but_isdown (Z.lor AOUI32_BUT_X AOUI32_BUT_Y)) in
  let+ due :=
    (if down then
       let+ t := now in
       let+ ms := static aoapps_runled_buttons_ms in
       pret (AOAPPS_RUNLED_BUTTONS_MS <? u32 (t - ms))
     else pret false) in
  (if due then
     let+ t := now in
     assign (set_buttons_ms t) >>>
     let+ dim := ext aomw_topo_dim_get in
     let step := Z.quot (dim * AOAPPS_RUNLED_BUTTONS_PERKIBI) 1024 + 1 in
     let+ x := ext (aoui32_but_isdown AOUI32_BUT_X) in
     let dim := if x then dim - step else dim + step in
     ext_void (aomw_topo_dim_set dim)
   else pret tt) >>>
  pret aoresult_ok.

(** The application manager entry point (start). *)
Definition aoapps_runled_start : P aoresult_t :=
  assign (set_tix 0) >>>
  assign (set_colorix 0) >>>
  assign (set_dir 1) >>>
  let+ t := now in
  assign (set_anim_ms t) >>>
  let+ t := now in
  assign (set_buttons_ms t) >>>
  let+ dim := ext aomw_topo_dim_get in
  assign (set_dimdft dim) >>>
  pret aoresult_ok.

(** The application manager entry point (step). *)
Definition aoapps_runled_step : P aoresult_t :=
  let+ result := aoapps_runled_buttons_check in
  if negb (result =? aoresult_ok) then pret result else
  let+ result := aoapps_runled_anim in
  if negb (result =? aoresult_ok) then pret result else
  pret aoresult_ok.

(** The application manager entry point (stop). *)
Definition aoapps_runled_stop : P unit :=
  let+ dim := static aoapps_runled_dimdft in
  ext_void (aomw_topo_dim_set dim).

(** [n] steps in a row. *)
Fixpoint runled_steps (n : nat) : P aoresult_t :=
  match n with
  | O => pret aoresult_ok
  | S n' =>
      let+ result := aoapps_runled_step in
      if negb (result =? aoresult_ok) then pret result else runled_steps n'
  end.

(** The cursor is on the chain (as far as it is known to have triplets),
    the color index is in the palette and the direction is one step up or
    down. *)
Definition anim_ok (s : statics) : Prop :=
  0 <= aoapps_runled_anim_tix s /\
  0 <= aoapps_runled_anim_colorix s < AOAPPS_RUNLED_RGBS_SIZE /\
  (aoapps_runled_anim_dir s = 1 \/ aoapps_runled_anim_dir s = -1).

End Runled.
End Runled.

(** ** aniscript (aoapps_aniscript.cpp): the EEPROM search, the animation
    step and the buttons *)

Module Aniscript.
Section Aniscript.
Context {W : Type} `{X : Collaborators W} `{Y : Middleware W}.

Definition AOAPPS_ANISCRIPT_BUTTONS_PERKIBI : Z := 100.
Definition AOAPPS_ANISCRIPT_BUTTONS_MS : Z := 200.

(** The statics of the animation state machine and of the buttons. *)
Record statics := Statics {
  aoapps_aniscript_anim_frame_ms : Z;
  aoapps_aniscript_anim_ms : Z;
  aoapps_aniscript_buttons_ms : Z
}.

Definition set_frame_ms v s :=
  Statics v (aoapps_aniscript_anim_ms s) (aoapps_aniscript_buttons_ms s).
Definition set_anim_ms v s :=
  Statics (aoapps_aniscript_anim_frame_ms s) v (aoapps_aniscript_buttons_ms s).
Definition set_buttons_ms v s :=
  Statics (aoapps_aniscript_anim_frame_ms s) (aoapps_aniscript_anim_ms s) v.

Definition P := @prog W statics.

Definition now : P Z := let+ t := ext millis in pret (u32 t).

(** The EEPROM searching scheme: first a stick, then a built-in one.  The
    function returns its result and what it leaves in [*addr] and
    [*daddr7]. *)
Definition aoapps_aniscript_find : P (aoresult_t * Z * Z) :=
  let addr := 65535 in
  let daddr7 := 255 in
  let+ found := ext (aomw_topo_i2cfind AOMW_EEPROM_DADDR7_STICK addr) in
  let result := fst found in
  let addr := snd found in
  if result =? aoresult_ok then pret (aoresult_ok, addr, AOMW_EEPROM_DADDR7_STICK) else
  if negb (result =? aoresult_dev_noi2cdev) then pret (result, addr, daddr7) else
  let+ found := ext (aomw_topo_i2cfind AOMW_EEPROM_DADDR7_SAIDBASIC addr) in
  let result := fst found in
  let addr := snd found in
  if result =? aoresult_ok then pret (aoresult_ok, addr, AOMW_EEPROM_DADDR7_SAIDBASIC) else
  if negb (result =? aoresult_dev_noi2cdev) then pret (result, addr, daddr7) else
  pret (aoresult_dev_noi2cdev, addr, daddr7).

(** Step of the aniscript state machine.  The elapsed time is an
    [uint32_t], so the [int] frame time is converted to one for the
    comparison. *)
Definition aoapps_aniscript_anim : P aoresult_t :=
  let+ t := now in
  let+ ms := static aoapps_aniscript_anim_ms in
  let+ frame_ms := static aoapps_aniscript_anim_frame_ms in
  if u32 (t - ms) <? u32 frame_ms then pret aoresult_ok else
  let+ t := now in
  assign (set_anim_ms t) >>>
  let+ result := ext aomw_tscript_playframe in
  if negb (result =? aoresult_ok) then pret result else
  pret aoresult_ok.

(** Handling button presses (frame time down/up). *)
Definition aoapps_aniscript_buttons_check : P aoresult_t :=
  let+ went := ext (aoui32_but_wentdown (Z.lor AOUI32_BUT_X AOUI32_BUT_Y)) in
  (if went then
     let+ t := now in
     assign (set_buttons_ms (u32 (t - AOAPPS_ANISCRIPT_BUTTONS_MS)))
   else pret tt) >>>
  let+ down := ext (aoui32_but_isdown (Z.lor AOUI32_BUT_X AOUI32_BUT_Y)) in
  let+ due :=
    (if down then
       let+ t := now in
       let+ ms := static aoapps_aniscript_buttons_ms in
       pret (AOAPPS_ANISCRIPT_BUTTONS_MS <? u32 (t - ms))
     else pret false) in
  (if due then
     let+ t := now in
     assign (set_buttons_ms t) >>>
     let+ frame_ms := static aoapps_aniscript_anim_frame_ms in
     let step := Z.quot (frame_ms * AOAPPS_ANISCRIPT_BUTTONS_PERKIBI) 1024 + 1 in
     let+ y := ext (aoui32_but_isdown AOUI32_BUT_Y) in
     if y then
       let+ frame_ms := static aoapps_aniscript_anim_frame_ms in
       assign (set_frame_ms (frame_ms - step)) >>>
       let+ frame_ms := static aoapps_aniscript_anim_frame_ms in
       if frame_ms <? 1 then assign (set_frame_ms 1) else pret tt
     else
       let+ frame_ms := static aoapps_aniscript_anim_frame_ms in
       assign (set_frame_ms (frame_ms + step)) >>>
       let+ frame_ms := static aoapps_aniscript_anim_frame_ms in
       if 2000 <? frame_ms then assign (set_frame_ms 2000) else pret tt
   else pret tt) >>>
  pret aoresult_ok.

(** The application manager entry point (step). *)
Definition aoapps_aniscript_step : P aoresult_t :=
  let+ result := aoapps_aniscript_buttons_check in
  if negb (result =? aoresult_ok) then pret result else
  let+ result := aoapps_aniscript_anim in
  if negb (result =? aoresult_ok) then pret result else
  pret aoresult_ok.

(** [n] steps in a row. *)
Fixpoint aniscript_steps (n : nat) : P aoresult_t :=
  match n with
  | O => pret aoresult_ok
  | S n' =>
      let+ result := aoapps_aniscript_step in
      if negb (result =? aoresult_ok) then pret result else aniscript_steps n'
  end.

(** The frame time is between 1 ms and 2 s. *)
Definition frame_ok (s : statics) : Prop :=
  1 <= aoapps_aniscript_anim_frame_ms s <= 2000.

End Aniscript.
End Aniscript.

(** ** swflag (aoapps_swflag.cpp) *)

Inductive swflag_msg :=
| SwflagFlagName (name : string)
| SwflagShow (flagix : Z) (name : string)
| SwflagTooManyArgs
| SwflagExpectsFour
| SwflagExpectsFlagName (arg : string)
| SwflagUnknownArgument (arg : string)
| SwflagUsingIox (daddr7 addr : Z)
| SwflagNoIox.

(** The flags and the I/O-expander of aomw, as swflag uses them. *)
Class FlagMiddleware (W : Type) := {
  aomw_flag_count : Z;
  aomw_flag_name : Z -> string;
  (* [aomw_flag_painter(pix)()]: getting the painter and calling it *)
  aomw_flag_painter : Z -> W -> aoresult_t * W;
  AOMW_FLAG_PIX_DUTCH : Z;
  AOMW_FLAG_PIX_MALI : Z;
  AOMW_FLAG_PIX_EUROPE : Z;
  AOMW_FLAG_PIX_ITALY : Z;
  AOMW_IOX_DADDR7 : Z;
  AOMW_IOX_BUT0 : Z;
  AOMW_IOX_BUT1 : Z;
  AOMW_IOX_BUT2 : Z;
  AOMW_IOX_BUT3 : Z;
  AOMW_IOX_LED : Z -> Z;
  AOMW_IOX_LEDNONE : Z;
  aomw_iox_init : Z -> W -> aoresult_t * W;
  aomw_iox_but_scan : W -> aoresult_t * W;
  aomw_iox_but_wentdown : Z -> W -> bool * W;
  aomw_iox_led_set : Z -> W -> aoresult_t * W;
  Serial_printf_swflag : swflag_msg -> W -> W
}.

Module Swflag.
Section Swflag.
Context {W : Type} `{X : Collaborators W} `{Y : Middleware W}
        `{C : CommandInterpreter W} `{F : FlagMiddleware W}.

Definition AOAPPS_SWFLAG_ANIM_NUMFLAGS : Z := 4.
Definition AOAPPS_SWFLAG_ANIM_MS : Z := 2000.
Definition AOAPPS_SWFLAG_BUTTONS_PERKIBI : Z := 256.
Definition AOAPPS_SWFLAG_BUTTONS_MS : Z := 200.

(** The statics of the app. *)
Record statics := Statics {
  aomw_swflag_anim_pix : list Z;
  aoapps_swflag_anim_ioxpresent : Z;
  aoapps_swflag_anim_flagix : Z;
  aoapps_swflag_anim_lastms : Z;
  aoapps_swflag_buttons_ms : Z;
  aoapps_swflag_dimdft : Z
}.

(** The statics when the program starts. *)
Definition initial : statics :=
  Statics [AOMW_FLAG_PIX_DUTCH; AOMW_FLAG_PIX_MALI; AOMW_FLAG_PIX_EUROPE;
           AOMW_FLAG_PIX_ITALY] 0 0 0 0 0.

Definition set_pix v s :=
  Statics v (aoapps_swflag_anim_ioxpresent s) (aoapps_swflag_anim_flagix s)
    (aoapps_swflag_anim_lastms s) (aoapps_swflag_buttons_ms s) (aoapps_swflag_dimdft s).
Definition set_ioxpresent v s :=
  Statics (aomw_swflag_anim_pix s) v (aoapps_swflag_anim_flagix s)
    (aoapps_swflag_anim_lastms s) (aoapps_swflag_buttons_ms s) (aoapps_swflag_dimdft s).
Definition set_flagix v s :=
  Statics (aomw_swflag_anim_pix s) (aoapps_swflag_anim_ioxpresent s) v
    (aoapps_swflag_anim_lastms s) (aoapps_swflag_buttons_ms s) (aoapps_swflag_dimdft s).
Definition set_lastms v s :=
  Statics (aomw_swflag_anim_pix s) (aoapps_swflag_anim_ioxpresent s)
    (aoapps_swflag_anim_flagix s) v (aoapps_swflag_buttons_ms s) (aoapps_swflag_dimdft s).
Definition set_buttons_ms v s :=
  Statics (aomw_swflag_anim_pix s) (aoapps_swflag_anim_ioxpresent s)
    (aoapps_swflag_anim_flagix s) (aoapps_swflag_anim_lastms s) v (aoapps_swflag_dimdft s).
Definition set_dimdft v s :=
  Statics (aomw_swflag_anim_pix s) (aoapps_swflag_anim_ioxpresent s)
    (aoapps_swflag_anim_flagix s) (aoapps_swflag_anim_lastms s)
    (aoapps_swflag_buttons_ms s) v.

Definition P := @prog W statics.

Definition now : P Z := let+ t := ext millis in pret (u32 t).

(** [aomw_swflag_anim_pix[ix]], an array of [AOAPPS_SWFLAG_ANIM_NUMFLAGS]. *)
Definition pix_at (ix : Z) : P Z :=
  let+ pix := static aomw_swflag_anim_pix in
  if (0 <=? ix) && (ix <? AOAPPS_SWFLAG_ANIM_NUMFLAGS) then
    match pix !! Z.to_nat ix with
    | Some p => pret p
    | None => undefined_access
    end
  else undefined_access.

Definition pix_store (ix v : Z) : P unit :=
  let+ pix := static aomw_swflag_anim_pix in
  if (0 <=? ix) && (ix <? AOAPPS_SWFLAG_ANIM_NUMFLAGS)
     && (Z.to_nat ix <? length pix)%nat then
    assign (set_pix (<[Z.to_nat ix := v]> pix))
  else undefined_access.

(** Paints the flag that is being shown. *)
Definition paint_current : P aoresult_t :=
  let+ flagix := static aoapps_swflag_anim_flagix in
  let+ p := pix_at flagix in
  ext (aomw_flag_painter p).

(** Step of the swflag state machine. *)
Definition aoapps_swflag_anim : P aoresult_t :=
  let+ flagix0 := static aoapps_swflag_anim_flagix in
  let+ iox := static aoapps_swflag_anim_ioxpresent in
  let+ sel :=
    (if negb (iox =? 0) then
       let+ result := ext aomw_iox_but_scan in
       if negb (result =? aoresult_ok) then pret (inl result) else
       let+ b0 := ext (aomw_iox_but_wentdown AOMW_IOX_BUT0) in
       let flagix := if b0 then 0 else flagix0 in
       let+ b1 := ext (aomw_iox_but_wentdown AOMW_IOX_BUT1) in
       let flagix := if b1 then 1 else flagix in
       let+ b2 := ext (aomw_iox_but_wentdown AOMW_IOX_BUT2) in
       let flagix := if b2 then 2 else flagix in
       let+ b3 := ext (aomw_iox_but_wentdown AOMW_IOX_BUT3) in
       let flagix := if b3 then 3 else flagix in
       pret (inr flagix)
     else
       let+ t := now in
       let+ lastms := static aoapps_swflag_anim_lastms in
       if AOAPPS_SWFLAG_ANIM_MS <? u32 (t - lastms) then
         let+ t := now in
         assign (set_lastms t) >>>
         let+ cur := static aoapps_swflag_anim_flagix in
         pret (inr (Z.rem (cur + 1) AOAPPS_SWFLAG_ANIM_NUMFLAGS))
       else pret (inr flagix0)) in
  match sel with
  | inl result => pret result
  | inr flagix =>
      let+ cur := static aoapps_swflag_anim_flagix in
      if negb (cur =? flagix) then
        assign (set_flagix flagix) >>>
        let+ result := paint_current in
        if negb (result =? aoresult_ok) then pret result else
        let+ iox := static aoapps_swflag_anim_ioxpresent in
        if negb (iox =? 0) then
          let+ cur := static aoapps_swflag_anim_flagix in
          let+ result := ext (aomw_iox_led_set (AOMW_IOX_LED cur)) in
          if negb (result =? aoresult_ok) then pret result else pret aoresult_ok
        else pret aoresult_ok
      else pret aoresult_ok
  end.

(** Handling button presses (to dim down/up). *)
Definition aoapps_swflag_buttons_check : P aoresult_t :=
  let+ went := ext (aoui32_but_wentdown (Z.lor AOUI32_BUT_X AOUI32_BUT_Y)) in
  (if went then
     let+ t := now in
     assign (set_buttons_ms (u32 (t - AOAPPS_SWFLAG_BUTTONS_MS)))
   else pret tt) >>>
  let+ down := ext (aoui32_but_isdown (Z.lor AOUI32_BUT_X AOUI32_BUT_Y)) in
  let+ due :=
    (if down then
       let+ t := now in
       let+ ms := static aoapps_swflag_buttons_ms in
       pret (AOAPPS_SWFLAG_BUTTONS_MS <? u32 (t - ms))
     else pret false) in
  if due then
    let+ t := now in
    assign (set_buttons_ms t) >>>
    let+ dim := ext aomw_topo_dim_get in
    let step := Z.quot (dim * AOAPPS_SWFLAG_BUTTONS_PERKIBI) 1024 + 1 in
    let+ x := ext (aoui32_but_isdown AOUI32_BUT_X) in
    let dim := if x then dim - step else dim + step in
    ext_void (aomw_topo_dim_set dim) >>>
    let+ result := paint_current in
    if negb (result =? aoresult_ok) then pret result else pret aoresult_ok
  else pret aoresult_ok.

(** The loop of [aoapps_swflag_cmd_find]: [n] flags from [pix] on. *)
Fixpoint find_loop (flag : string) (n : nat) (pix : Z) : Z :=
  match n with
  | O => -1
  | S n' =>
      if aocmd_cint_isprefix (aomw_flag_name pix) flag then pix
      else find_loop flag n' (pix + 1)
  end.

(** Looks up the named flag in the list of flags: its index, or -1. *)
Definition aoapps_swflag_cmd_find (flag : string) : Z :=
  find_loop flag (Z.to_nat aomw_flag_count) 0.

Definition print (msg : swflag_msg) : P unit := ext_void (Serial_printf_swflag msg).

(** Show on Serial which are the four flags. *)
Fixpoint show_loop (n : nat) (flagix : Z) : P unit :=
  match n with
  | O => pret tt
  | S n' =>
      let+ p := pix_at flagix in
      print (SwflagShow flagix (aomw_flag_name p)) >>>
      show_loop n' (flagix + 1)
  end.
Definition aoapps_swflag_cmd_show : P unit :=
  show_loop (Z.to_nat AOAPPS_SWFLAG_ANIM_NUMFLAGS) 0.

Fixpoint list_loop (n : nat) (pix : Z) : P unit :=
  match n with
  | O => pret tt
  | S n' => print (SwflagFlagName (aomw_flag_name pix)) >>> list_loop n' (pix + 1)
  end.

Definition arg_at (argv : list string) (i : nat) : P string :=
  match argv !! i with
  | Some a => pret a
  | None => undefined_access
  end.

(** The first loop of "set": [None] when all of the [n] words from
    [argv[4+flagix]] on name a flag, the first word that does not
    otherwise. *)
Fixpoint check_loop (argv : list string) (n : nat) (flagix : nat) : P (option string) :=
  match n with
  | O => pret None
  | S n' =>
      let+ a := arg_at argv (4 + flagix) in
      if aoapps_swflag_cmd_find a =? -1 then pret (Some a)
      else check_loop argv n' (S flagix)
  end.

(** The second loop of "set". *)
Fixpoint copy_loop (argv : list string) (n : nat) (flagix : nat) : P unit :=
  match n with
  | O => pret tt
  | S n' =>
      let+ a := arg_at argv (4 + flagix) in
      pix_store (Z.of_nat flagix) (aoapps_swflag_cmd_find a) >>>
      copy_loop argv n' (S flagix)
  end.

Definition not_silent (argv0 : string) : bool :=
  match argv0 with
  | String "@" _ => false
  | _ => true
  end.

(** The handler for the "apps config swflag" command. *)
Definition aoapps_swflag_cmd_main (argv : list string) : P unit :=
  let argc := length argv in
  passert (3 <? argc)%nat >>>
  let+ argv3 := arg_at argv 3 in
  if aocmd_cint_isprefix "list" argv3 then
    if negb (argc =? 4)%nat then print SwflagTooManyArgs
    else list_loop (Z.to_nat aomw_flag_count) 0
  else if aocmd_cint_isprefix "get" argv3 then
    if negb (argc =? 4)%nat then print SwflagTooManyArgs
    else aoapps_swflag_cmd_show
  else if aocmd_cint_isprefix "set" argv3 then
    if negb (argc =? 8)%nat then print SwflagExpectsFour
    else
      passert (AOAPPS_SWFLAG_ANIM_NUMFLAGS =? 4) >>>
      let+ bad := check_loop argv 4 0 in
      match bad with
      | Some a => print (SwflagExpectsFlagName a)
      | None =>
          copy_loop argv 4 0 >>>
          let+ argv0 := arg_at argv 0 in
          if not_silent argv0 then aoapps_swflag_cmd_show else pret tt
      end
  else print (SwflagUnknownArgument argv3).

(** The application manager entry point (start); [addr0] is what the
    local [addr] holds before the search. *)
Definition aoapps_swflag_start (addr0 : Z) : P aoresult_t :=
  let+ found := ext (aomw_topo_i2cfind AOMW_IOX_DADDR7 addr0) in
  let result := fst found in
  let addr := snd found in
  if negb (result =? aoresult_ok) && negb (result =? aoresult_dev_noi2cdev)
  then pret result else
  assign (set_ioxpresent (if result =? aoresult_ok then 1 else 0)) >>>
  let+ iox := static aoapps_swflag_anim_ioxpresent in
  let+ inited :=
    (if negb (iox =? 0) then
       print (SwflagUsingIox AOMW_IOX_DADDR7 addr) >>>
       ext (aomw_iox_init addr)
     else print SwflagNoIox >>> pret aoresult_ok) in
  if negb (inited =? aoresult_ok) then pret inited else
  assign (set_flagix 0) >>>
  let+ result := paint_current in
  if negb (result =? aoresult_ok) then pret result else
  let+ iox := static aoapps_swflag_anim_ioxpresent in
  let+ lit :=
    (if negb (iox =? 0) then
       let+ cur := static aoapps_swflag_anim_flagix in
       ext (aomw_iox_led_set (AOMW_IOX_LED cur))
     else pret aoresult_ok) in
  if negb (lit =? aoresult_ok) then pret lit else
  let+ t := now in
  assign (set_lastms t) >>>
  let+ dim := ext aomw_topo_dim_get in
  assign (set_dimdft dim) >>>
  pret aoresult_ok.

(** The application manager entry point (step). *)
Definition aoapps_swflag_step : P aoresult_t :=
  let+ result := aoapps_swflag_buttons_check in
  if negb (result =? aoresult_ok) then pret result else
  let+ result := aoapps_swflag_anim in
  if negb (result =? aoresult_ok) then pret result else
  pret aoresult_ok.

(** The application manager entry point (stop). *)
Definition aoapps_swflag_stop : P unit :=
  let+ _ := ext (aomw_iox_led_set AOMW_IOX_LEDNONE) in
  let+ dim := static aoapps_swflag_dimdft in
  ext_void (aomw_topo_dim_set dim).

(** The four configured flags are flags of the list, and the flag shown is
    one of the four. *)
Definition pix_ok (s : statics) : Prop :=
  length (aomw_swflag_anim_pix s) = 4%nat /\
  Forall (fun p => 0 <= p < aomw_flag_count) (aomw_swflag_anim_pix s).
Definition flagix_ok (s : statics) : Prop :=
  0 <= aoapps_swflag_anim_flagix s < AOAPPS_SWFLAG_ANIM_NUMFLAGS.

(** What a step leaves of the statics: the configured flags, the saved
    dim level and whether there is an I/O-expander. *)
Definition kept (s s' : statics) : Prop :=
  aomw_swflag_anim_pix s' = aomw_swflag_anim_pix s /\
  aoapps_swflag_dimdft s' = aoapps_swflag_dimdft s /\
  aoapps_swflag_anim_ioxpresent s' = aoapps_swflag_anim_ioxpresent s.

(** [n] steps in a row. *)
Fixpoint swflag_steps (n : nat) : P aoresult_t :=
  match n with
  | O => pret aoresult_ok
  | S n' =>
      let+ result := aoapps_swflag_step in
      if negb (result =? aoresult_ok) then pret result else swflag_steps n'
  end.

(** The word [a] names the flag [p]: [p] is the first flag of the list
    whose name it matches. *)
Definition names_flag (a : string) (p : Z) : Prop :=
  0 <= p < aomw_flag_count /\
  aocmd_cint_isprefix (aomw_flag_name p) a = true /\
  forall q, 0 <= q < p -> aocmd_cint_isprefix (aomw_flag_name q) a = false.

End Swflag.
End Swflag.

(** ** A scripted world, to run the manager on concrete inputs

    The clock shows [now] and does not advance by itself; the topology
    builder needs [polls] more steps, each returning [build_result]; the
    broadcasts return [clr_result] and [act_result]; the UI calls are
    without effect. *)
Module Sim.

Record world_t := World {
  now : Z;
  polls : nat;
  build_result : aoresult_t;
  clr_result : aoresult_t;
  act_result : aoresult_t
}.

#[export] Instance sim : Collaborators world_t := {|
  millis w := (now w, w);
  Serial_printf _ w := w;
  AOUI32_LED_GRN := 1;
  AOUI32_LED_RED := 2;
  aoui32_led_on _ w := w;
  aoui32_led_off _ w := w;
  aoui32_led_toggle _ w := w;
  aoui32_oled_state _ _ _ w := w;
  aoui32_oled_msg _ w := w;
  aoosp_send_clrerror _ w := (clr_result w, w);
  aoosp_send_goactive _ w := (act_result w, w);
  aomw_topo_build_start w := w;
  aomw_topo_build_done w := (Nat.eqb (polls w) 0, w);
  aomw_topo_build_step w :=
    (build_result w,
     World (now w) (Nat.pred (polls w)) (build_result w) (clr_result w) (act_result w));
  aomw_topo_numtriplets w := (0, w)
|}.

(** An app whose [start] returns [rs] and whose [step] returns [rp]. *)
Definition app (nm : string) (fl : Z) (rs rp : aoresult_t) : aoapps_mngr_app_t world_t :=
  App (Some nm) (Some nm) (Some "x"%string) (Some "y"%string) fl
      (Some (fun w => (rs, w))) (Some (fun w => (rp, w))) (Some (fun w => w))
      None None.

(** The machine of an outcome that is known to be [Ok]. *)
Definition machine_of {A} (o : outcome (A * machine world_t)) : machine world_t :=
  match o with
  | Ok (_, m) => m
  | _ => boot (World 0 0 0 0 0)
  end.

(** The value returned, if the call returned. *)
Definition result_of {A} (o : outcome (A * machine world_t)) : option A :=
  match o with
  | Ok (x, _) => Some x
  | _ => None
  end.

(** The calls made since the machine [m0]. *)
Definition calls_since (m0 m : machine world_t) : list event :=
  drop (length (trace m0)) (trace m).

(** Time passes between two calls of the manager: the clock shows [t]. *)
Definition at_time (t : Z) (m : machine world_t) : machine world_t :=
  Machine (aoapps_mngr_count m) (aoapps_mngr_apps m) (aoapps_mngr_appix m)
    (aoapps_mngr_moderun m) (aoapps_mngr_result m) (aoapps_mngr_lastgrn m)
    (aoapps_mngr_lastrepair m) (aoapps_mngr_lasterror m) (aoapps_mngr_state m)
    (aoapps_mngr_error m)
    (World t (polls (world m)) (build_result (world m)) (clr_result (world m))
           (act_result (world m)))
    (trace m).

(** After [aoapps_mngr_init()] in the world [w]: only the void app is
    registered, nothing runs. *)
Definition m_init (w : world_t) : machine world_t :=
  machine_of (aoapps_mngr_init (boot w)).

(** Two apps registered after the void app, nothing running. *)
Definition m_two (w : world_t) (a1 a2 : aoapps_mngr_app_t world_t) : machine world_t :=
  machine_of ((register_app a1 >> register_app a2) (m_init w)).

(** [setup()] with two apps, then [aoapps_mngr_start(ix)]. *)
Definition m_started (w : world_t) (a1 a2 : aoapps_mngr_app_t world_t) (ix : Z)
    : machine world_t :=
  machine_of (aoapps_mngr_start ix (m_two w a1 a2)).

Definition quiet : world_t := World 0 0 0 0 0.

(** Only the void app, running. *)
Definition m_void_only : machine world_t :=
  machine_of (aoapps_mngr_start 0 (m_init quiet)).

(** An app with topo build whose start() fails with 9, the build being done
    at the first poll. *)
Definition m_topo_start_fails : machine world_t :=
  m_started quiet (app "a" AOAPPS_MNGR_FLAGS_WITHTOPO 9 0) (app "b" 0 0 0) 1.

(** An app with topo build, the builder needing two more steps and failing
    with 9. *)
Definition m_topo_build_fails : machine world_t :=
  m_started (World 0 2 9 0 0) (app "a" AOAPPS_MNGR_FLAGS_WITHTOPO 0 0)
            (app "b" 0 0 0) 1.

(** An app with flags [fl] whose step() fails with 7 at time 0, the error
    being latched by one step; then the machine at a later time [t]. *)
Definition m_latched (fl : Z) (t : Z) : machine world_t :=
  at_time t (machine_of (aoapps_mngr_step
    (m_started quiet (app "a" fl 0 7) (app "b" 0 0 0) 1))).


(** An app with repair, started at time 0, at a later time [t], the
    clear-error broadcast returning [rc]. *)
Definition m_repair (t : Z) (rc : aoresult_t) : machine world_t :=
  at_time t (m_started (World 0 0 0 rc 0)
                       (app "a" AOAPPS_MNGR_FLAGS_WITHREPAIR 0 0) (app "b" 0 0 0) 1).

(** A descriptor that is in order but for its empty name. *)
Definition nameless : aoapps_mngr_app_t world_t :=
  App (Some EmptyString) (Some "No name"%string) (Some "x"%string) (Some "y"%string)
      AOAPPS_MNGR_FLAGS_NONE
      (Some (fun w => (aoresult_ok, w))) (Some (fun w => (aoresult_ok, w)))
      (Some (fun w => w)) None None.

End Sim.

(** ** The command interpreter and a board, to run the command handlers and
    the stock apps on concrete inputs

    [isprefix] and [parse_dec] stand for the two functions of the aocmd
    library: a word matches every text it is a prefix of, and a number is a
    row of decimal digits.  On the board the clock advances by [board_tick]
    at each reading, the buttons are held as [board_down] tells, the chain
    has [board_triplets] triplets, the search for an EEPROM answers
    [board_stick] and [board_saidbasic], there is no I/O-expander, and the
    flags painted are kept in [board_painted], the latest first. *)
Module Bench.

Definition isprefix (str prefix : string) : bool := String.prefix prefix str.

Fixpoint parse_digits (s : string) (acc : Z) : option Z :=
  match s with
  | EmptyString => Some acc
  | String c s' =>
      let d := Z.of_N (N_of_ascii c) - 48 in
      if (0 <=? d) && (d <=? 9) then parse_digits s' (10 * acc + d) else None
  end.

Definition parse_dec (s : string) : option Z :=
  match s with
  | EmptyString => None
  | _ => parse_digits s 0
  end.

#[export] Instance cint : CommandInterpreter Sim.world_t := {|
  aocmd_cint_isprefix := isprefix;
  aocmd_cint_parse_dec := parse_dec;
  Serial_printf_apps _ w := w
|}.

Record board_t := Board {
  board_clock : Z;
  board_tick : Z;
  board_dim : Z;
  board_down : Z;
  board_went : Z;
  board_triplets : Z;
  board_stick : aoresult_t * Z;
  board_saidbasic : aoresult_t * Z;
  board_painted : list Z
}.

Definition with_clock (t : Z) (w : board_t) : board_t :=
  Board t (board_tick w) (board_dim w) (board_down w) (board_went w)
        (board_triplets w) (board_stick w) (board_saidbasic w) (board_painted w).
Definition with_dim (d : Z) (w : board_t) : board_t :=
  Board (board_clock w) (board_tick w) d (board_down w) (board_went w)
        (board_triplets w) (board_stick w) (board_saidbasic w) (board_painted w).
Definition with_painted (p : Z) (w : board_t) : board_t :=
  Board (board_clock w) (board_tick w) (board_dim w) (board_down w) (board_went w)
        (board_triplets w) (board_stick w) (board_saidbasic w) (p :: board_painted w).

#[export] Instance board : Collaborators board_t := {|
  millis w := (board_clock w, with_clock (board_clock w + board_tick w) w);
  Serial_printf _ w := w;
  AOUI32_LED_GRN := 1;
  AOUI32_LED_RED := 2;
  aoui32_led_on _ w := w;
  aoui32_led_off _ w := w;
  aoui32_led_toggle _ w := w;
  aoui32_oled_state _ _ _ w := w;
  aoui32_oled_msg _ w := w;
  aoosp_send_clrerror _ w := (aoresult_ok, w);
  aoosp_send_goactive _ w := (aoresult_ok, w);
  aomw_topo_build_start w := w;
  aomw_topo_build_done w := (true, w);
  aomw_topo_build_step w := (aoresult_ok, w);
  aomw_topo_numtriplets w := (board_triplets w, w)
|}.

Definition STICK : Z := 81.
Definition SAIDBASIC : Z := 80.
Definition BUT_X : Z := 2.
Definition BUT_Y : Z := 4.
Definition noi2cdev : aoresult_t := 36.
Definition outofrange : aoresult_t := 21.

#[export] Instance board_mw : Middleware board_t := {|
  aomw_topo_red := Rgb 32767 0 0 "red";
  aomw_topo_yellow := Rgb 32767 32767 0 "yellow";
  aomw_topo_green := Rgb 0 32767 0 "green";
  aomw_topo_cyan := Rgb 0 32767 32767 "cyan";
  aomw_topo_magenta := Rgb 32767 0 32767 "magenta";
  aomw_topo_settriplet tix _ w :=
    (if (0 <=? tix) && (tix <? board_triplets w) then aoresult_ok else outofrange, w);
  aomw_topo_dim_get w := (board_dim w, w);
  aomw_topo_dim_set d w := with_dim (Z.max 0 (Z.min 1024 d)) w;
  aomw_topo_i2cfind daddr7 _ w :=
    (if daddr7 =? STICK then board_stick w else board_saidbasic w, w);
  aomw_tscript_playframe w := (aoresult_ok, w);
  AOUI32_BUT_X := BUT_X;
  AOUI32_BUT_Y := BUT_Y;
  aoui32_but_wentdown mask w := (negb (Z.land (board_went w) mask =? 0), w);
  aoui32_but_isdown mask w := (negb (Z.land (board_down w) mask =? 0), w);
  aoresult_dev_noi2cdev := noi2cdev;
  AOMW_EEPROM_DADDR7_STICK := STICK;
  AOMW_EEPROM_DADDR7_SAIDBASIC := SAIDBASIC
|}.

#[export] Instance board_cint : CommandInterpreter board_t := {|
  aocmd_cint_isprefix := isprefix;
  aocmd_cint_parse_dec := parse_dec;
  Serial_printf_apps _ w := w
|}.

Definition flag_names : list string :=
  ["dutch"; "columbia"; "japan"; "mali"; "italy"; "europe"; "usa"; "china"; "france"]%string.

#[export] Instance board_flags : FlagMiddleware board_t := {|
  aomw_flag_count := Z.of_nat (length flag_names);
  aomw_flag_name p := nth (Z.to_nat p) flag_names EmptyString;
  aomw_flag_painter p w := (aoresult_ok, with_painted p w);
  AOMW_FLAG_PIX_DUTCH := 0;
  AOMW_FLAG_PIX_MALI := 3;
  AOMW_FLAG_PIX_EUROPE := 5;
  AOMW_FLAG_PIX_ITALY := 4;
  AOMW_IOX_DADDR7 := 32;
  AOMW_IOX_BUT0 := 1;
  AOMW_IOX_BUT1 := 2;
  AOMW_IOX_BUT2 := 4;
  AOMW_IOX_BUT3 := 8;
  AOMW_IOX_LED n := Z.shiftl 1 n;
  AOMW_IOX_LEDNONE := 0;
  aomw_iox_init _ w := (noi2cdev, w);
  aomw_iox_but_scan w := (aoresult_ok, w);
  aomw_iox_but_wentdown _ w := (false, w);
  aomw_iox_led_set _ w := (aoresult_ok, w);
  Serial_printf_swflag _ w := w
|}.

(** A chain of 3 triplets at dim level 100, the clock at [t] and
    advancing by [tick] at each reading, the buttons [down] held down (none
    of them since the last poll), a stick with an EEPROM at address 5. *)
Definition bench (t tick down : Z) : board_t :=
  Board t tick 100 down 0 3 (aoresult_ok, 5) (noi2cdev, 0) [].

(** The same with no stick, and the answer [r] at address [a] for a
    built-in EEPROM. *)
Definition bench_no_stick (r : aoresult_t) (a : Z) : board_t :=
  Board 0 0 100 0 0 3 (noi2cdev, 7) (r, a) [].

(** The statics of what ran from [s] on the board [w]. *)
Definition statics_of {A S} (s : S) (o : outcome (A * (S * board_t))) : S :=
  match o with
  | Ok (_, (s', _)) => s'
  | _ => s
  end.

(** The board it left. *)
Definition board_of {A S} (w : board_t) (o : outcome (A * (S * board_t))) : board_t :=
  match o with
  | Ok (_, (_, w')) => w'
  | _ => w
  end.

(** The statics of runled with the cursor on triplet [tix], going [dir]. *)
Definition runled_at (tix dir : Z) : Runled.statics :=
  Runled.Statics tix 0 dir 0 0 100.

(** The statics of aniscript with the frame time [f]. *)
Definition aniscript_at (f : Z) : Aniscript.statics :=
  Aniscript.Statics f 0 0.

(** The statics of swflag showing the flag [flagix] of the four it starts
    with, no I/O-expander found. *)
Definition swflag_at (flagix : Z) : Swflag.statics :=
  Swflag.set_flagix flagix Swflag.initial.

End Bench.

(** * Properties *)

Section Properties.
Context {W : Type} `{X : Collaborators W}.
Implicit Types (m : machine W) (a : aoapps_mngr_app_t W).

(** ** Rules for running monadic code *)

Lemma wp_ret {A} (x : A) (Q : A -> machine W -> Prop) m :
  Q x m -> wp (ret x) Q m.
Proof. intros HQ. exists x, m. split; [reflexivity | exact HQ]. Qed.

Lemma wp_bind {A B} (c : M A) (k : A -> M B) (Q : B -> machine W -> Prop) m :
  wp c (fun x m' => wp (k x) Q m') m -> wp (bind c k) Q m.
Proof.
  intros (x & m' & Hc & y & m'' & Hk & HQ).
  exists y, m''. split; [| exact HQ].
  unfold bind. rewrite Hc. exact Hk.
Qed.

Lemma wp_gets {A} (f : machine W -> A) (Q : A -> machine W -> Prop) m :
  Q (f m) m -> wp (gets f) Q m.
Proof. intros HQ. exists (f m), m. split; [reflexivity | exact HQ]. Qed.

Lemma wp_modify (f : machine W -> machine W) (Q : unit -> machine W -> Prop) m :
  Q tt (f m) -> wp (modify f) Q m.
Proof. intros HQ. exists tt, (f m). split; [reflexivity | exact HQ]. Qed.

Lemma wp_assert (b : bool) (Q : unit -> machine W -> Prop) m :
  b = true -> Q tt m -> wp (AORESULT_ASSERT b) Q m.
Proof.
  intros -> HQ. exists tt, m. split; [reflexivity | exact HQ].
Qed.

Lemma wp_call {A} e (f : W -> A * W) (Q : A -> machine W -> Prop) m :
  Q (fst (f (world m))) (with_call e (snd (f (world m))) m) -> wp (call e f) Q m.
Proof.
  intros HQ. unfold wp, call. destruct (f (world m)) as [x w].
  exists x, (with_call e w m). split; [reflexivity | exact HQ].
Qed.

Lemma wp_call_void e (f : W -> W) (Q : unit -> machine W -> Prop) m :
  Q tt (with_call e (f (world m)) m) -> wp (call_void e f) Q m.
Proof. intros HQ. eexists _, _. split; [reflexivity | exact HQ]. Qed.

Lemma wp_call_millis (Q : Z -> machine W -> Prop) m :
  Q (u32 (fst (millis (world m)))) (with_call EvMillis (snd (millis (world m))) m) ->
  wp call_millis Q m.
Proof.
  intros HQ. unfold call_millis. apply wp_bind, wp_call, wp_ret. exact HQ.
Qed.

Lemma wp_call_ptr {A} e (p : option (W -> A * W)) f (Q : A -> machine W -> Prop) m :
  p = Some f -> wp (call e f) Q m -> wp (call_ptr e p) Q m.
Proof. intros -> H. exact H. Qed.

Lemma wp_call_ptr_void e (p : option (W -> W)) f (Q : unit -> machine W -> Prop) m :
  p = Some f -> wp (call_void e f) Q m -> wp (call_ptr_void e p) Q m.
Proof. intros -> H. exact H. Qed.

Lemma app_at_ok ix m a :
  0 <= ix < AOAPPS_MNGR_REGISTRATION_SLOTS ->
  aoapps_mngr_apps m !! Z.to_nat ix = Some a ->
  app_at ix m = Ok (a, m).
Proof.
  intros [Hlo Hhi] Hl. unfold app_at.
  apply Z.leb_le in Hlo. apply Z.ltb_lt in Hhi.
  rewrite Hlo, Hhi, Hl. reflexivity.
Qed.

Lemma current_app_ok m a : current_is m a -> current_app m = Ok (a, m).
Proof.
  intros [Hr Hl]. unfold current_app, bind, gets. apply app_at_ok; assumption.
Qed.

Lemma wp_current_app a (Q : aoapps_mngr_app_t W -> machine W -> Prop) m :
  current_is m a -> Q a m -> wp current_app Q m.
Proof.
  intros Hc HQ. exists a, m. split; [apply current_app_ok, Hc | exact HQ].
Qed.

Lemma wp_mono {A} (c : M A) (Q Q' : A -> machine W -> Prop) m :
  (forall x m', Q x m' -> Q' x m') -> wp c Q m -> wp c Q' m.
Proof.
  intros HQQ (x & m' & Hc & HQ). exists x, m'. split; [exact Hc | auto].
Qed.

Ltac msimpl :=
  cbn [aoapps_mngr_count aoapps_mngr_apps aoapps_mngr_appix aoapps_mngr_moderun
       aoapps_mngr_result aoapps_mngr_lastgrn aoapps_mngr_lastrepair
       aoapps_mngr_lasterror aoapps_mngr_state aoapps_mngr_error world trace
       with_count with_apps with_appix with_moderun with_result with_lastgrn
       with_lastrepair with_lasterror with_state with_error with_call fst snd].

Tactic Notation "msimpl" "in" hyp(H) :=
  cbn [aoapps_mngr_count aoapps_mngr_apps aoapps_mngr_appix aoapps_mngr_moderun
       aoapps_mngr_result aoapps_mngr_lastgrn aoapps_mngr_lastrepair
       aoapps_mngr_lasterror aoapps_mngr_state aoapps_mngr_error world trace
       with_count with_apps with_appix with_moderun with_result with_lastgrn
       with_lastrepair with_lasterror with_state with_error with_call fst snd] in H.

Ltac wp_step :=
  lazymatch goal with
  | |- wp (bind _ _) _ _ => apply wp_bind
  | |- wp (ret _) _ _ => apply wp_ret
  | |- wp (gets _) _ _ => apply wp_gets
  | |- wp (modify _) _ _ => apply wp_modify
  | |- wp (call _ _) _ _ => apply wp_call
  | |- wp (call_void _ _) _ _ => apply wp_call_void
  | |- wp call_millis _ _ => apply wp_call_millis
  end; msimpl.

Ltac wp_auto := repeat wp_step.

(** ** A latched error without NEXTONERR *)

Lemma step_latched_once m a :
  aoapps_mngr_moderun m <> 0 ->
  aoapps_mngr_result m <> aoresult_ok ->
  current_is m a ->
  has_flag (flags a) AOAPPS_MNGR_FLAGS_NEXTONERR = false ->
  aoapps_mngr_step m = Ok (tt, m).
Proof.
  intros Hrun Herr Hcur Hflag.
  unfold aoapps_mngr_step, bind, gets, AORESULT_ASSERT.
  apply Z.eqb_neq in Hrun, Herr. rewrite Hrun. cbn [negb].
  rewrite Herr. cbn [negb].
  rewrite (current_app_ok m a Hcur), Hflag. reflexivity.
Qed.

(** C6: while the error latch is non-ok and the current app does not have
    the NEXTONERR flag, every call of [aoapps_mngr_step()] in a sequence of
    calls is a no-op.  The machine after [n] calls is the machine before
    them: the latched result, the current index and the run mode are
    unchanged, and so are the world and the trace, so neither the app's
    step(), nor the topology builder, nor the repair broadcasts (nor any
    other call that leaves the manager) were invoked. *)
Theorem step_latched_noop m a (n : nat) :
  aoapps_mngr_moderun m <> 0 ->
  aoapps_mngr_result m <> aoresult_ok ->
  current_is m a ->
  has_flag (flags a) AOAPPS_MNGR_FLAGS_NEXTONERR = false ->
  steps n m = Ok (tt, m).
Proof.
  intros Hrun Herr Hcur Hflag.
  induction n as [| n IH]; [reflexivity |].
  cbn [steps]. unfold bind.
  rewrite (step_latched_once m a Hrun Herr Hcur Hflag). exact IH.
Qed.

(** ** Stopping *)

Lemma stop_eq m a (f : aoapps_mngr_stop_t) :
  aoapps_mngr_moderun m <> 0 ->
  current_is m a ->
  stop a = Some f ->
  aoapps_mngr_stop m =
  Ok (tt, with_moderun 0 (with_call (EvAppStop (aoapps_mngr_appix m)) (f (world m)) m)).
Proof.
  intros Hrun Hcur Hstop.
  unfold aoapps_mngr_stop, bind, gets, AORESULT_ASSERT.
  apply Z.eqb_neq in Hrun. rewrite Hrun. cbn [negb].
  rewrite (current_app_ok m a Hcur), Hstop. reflexivity.
Qed.

(** C10: when an app is running, [aoapps_mngr_stop()] invokes the stop()
    handler of the current app (once, its effect on the world is all that
    is kept of it) and clears the run mode; the current index, the latched
    result, the count, the descriptors and the three timestamps are as
    before (and so is the "with topo" state machine). *)
Theorem stop_frame m a (f : aoapps_mngr_stop_t) :
  aoapps_mngr_moderun m <> 0 ->
  current_is m a ->
  stop a = Some f ->
  exists m',
    aoapps_mngr_stop m = Ok (tt, m') /\
    aoapps_mngr_moderun m' = 0 /\
    aoapps_mngr_appix m' = aoapps_mngr_appix m /\
    aoapps_mngr_result m' = aoapps_mngr_result m /\
    aoapps_mngr_count m' = aoapps_mngr_count m /\
    aoapps_mngr_apps m' = aoapps_mngr_apps m /\
    aoapps_mngr_lastgrn m' = aoapps_mngr_lastgrn m /\
    aoapps_mngr_lastrepair m' = aoapps_mngr_lastrepair m /\
    aoapps_mngr_lasterror m' = aoapps_mngr_lasterror m /\
    aoapps_mngr_state m' = aoapps_mngr_state m /\
    aoapps_mngr_error m' = aoapps_mngr_error m /\
    world m' = f (world m) /\
    trace m' = trace m ++ [EvAppStop (aoapps_mngr_appix m)].
Proof.
  intros Hrun Hcur Hstop.
  eexists. split; [apply (stop_eq m a f Hrun Hcur Hstop) |].
  msimpl. repeat split; reflexivity.
Qed.

(** ** Registration *)

Lemma assert_name_chars_eq (n : string) m :
  assert_name_chars n m =
  if forallb isalnum (list_ascii_of_string n) then Ok (tt, m) else AssertFailed.
Proof.
  induction n as [| c n IH]; [reflexivity |].
  cbn [assert_name_chars list_ascii_of_string forallb].
  unfold bind, AORESULT_ASSERT.
  destruct (isalnum c); [exact IH | reflexivity].
Qed.

Lemma flags_subset_bits (fl : Z) :
  (0 =? Z.land fl (Z.lnot AOAPPS_MNGR_FLAGS_ALL)) = true <->
  (forall i, 0 <= i -> Z.testbit fl i = true -> i = 0 \/ i = 1 \/ i = 2).
Proof.
  change AOAPPS_MNGR_FLAGS_ALL with (Z.ones 3).
  rewrite Z.eqb_eq. split.
  - intros H0 i Hi Hb.
    assert (Hl : Z.testbit (Z.land fl (Z.lnot (Z.ones 3))) i = false)
      by (rewrite <- H0; apply Z.bits_0).
    rewrite Z.land_spec, Z.lnot_spec, Hb in Hl by exact Hi.
    destruct (Z_lt_le_dec i 3) as [Hlt | Hge]; [lia |].
    rewrite Z.ones_spec_high in Hl by lia. discriminate.
  - intros Hbits. symmetry. apply Z.bits_inj'. intros i Hi.
    rewrite Z.bits_0, Z.land_spec, Z.lnot_spec by exact Hi.
    destruct (Z.testbit fl i) eqn:Hb; [| reflexivity].
    rewrite Z.ones_spec_low; [reflexivity |].
    destruct (Hbits i Hi Hb) as [-> | [-> | ->]]; lia.
Qed.

Lemma nonnull_true {A} (p : option A) : nonnull p = true <-> p <> None.
Proof. destruct p; cbn; split; congruence. Qed.

Lemma register_app_eq m a :
  register_app a m =
  if register_checks (aoapps_mngr_count m) a then
    store_app (aoapps_mngr_count m) a (with_count (aoapps_mngr_count m + 1) m)
  else AssertFailed.
Proof.
  unfold register_app, aoapps_mngr_register, register_checks, valid_app.
  unfold bind, gets, AORESULT_ASSERT, modify.
  destruct (aoapps_mngr_count m <? AOAPPS_MNGR_REGISTRATION_SLOTS); [| reflexivity].
  cbn [andb].
  destruct (nonnull (name a) && nonnull (oled a) && nonnull (xlbl a)
            && nonnull (ylbl a) && nonnull (start a) && nonnull (step a)
            && nonnull (stop a)) eqn:Hv; [| reflexivity].
  cbn [andb].
  destruct (eqb (negb (nonnull (cmd a))) (negb (nonnull (help a)))); [| reflexivity].
  cbn [andb].
  destruct (0 =? Z.land (flags a) (Z.lnot AOAPPS_MNGR_FLAGS_ALL)); [| reflexivity].
  cbn [andb].
  destruct (name a) as [n |] eqn:Hn; [| discriminate Hv].
  rewrite assert_name_chars_eq.
  destruct (forallb isalnum (list_ascii_of_string n)); [| reflexivity].
  rewrite <- Hn. destruct a; reflexivity.
Qed.

Lemma register_checks_ok (count : Z) a :
  register_checks count a = true <-> registration_ok count a.
Proof.
  unfold register_checks, valid_app. rewrite !andb_true_iff.
  rewrite Z.ltb_lt, !nonnull_true, flags_subset_bits, eqb_true_iff. split.
  - intros [[[[Hc [[[[[[Hn Ho] Hx] Hy] Hs] Hp] Ht]] Hch] Hf] Hal].
    split; try assumption.
    + destruct (name a) as [n |]; [| discriminate].
      exists n. split; [reflexivity |].
      apply Forall_forall. intros c Hin.
      rewrite forallb_forall in Hal. apply Hal.
      apply list_elem_of_In, Hin.
    + destruct (cmd a), (help a); cbn in Hch; split; congruence.
  - intros [Hc (n & Hn & Hal) Ho Hx Hy Hs Hp Ht Hf Hch].
    rewrite Hn. repeat split; try assumption; try congruence.
    + destruct (cmd a), (help a); cbn; try reflexivity; exfalso.
      * destruct Hch as [_ H]. specialize (H eq_refl). discriminate.
      * destruct Hch as [H _]. specialize (H eq_refl). discriminate.
    + apply forallb_forall. intros c Hin.
      rewrite Forall_forall in Hal. apply Hal.
      apply list_elem_of_In, Hin.
Qed.

(** C4, as the code has it: every precondition of a registration is
    checked, and a call ends in a failed assertion exactly when one of them
    is violated: capacity exceeded, name null or with a character that is
    not alphanumeric, one of oled/xlbl/ylbl/start/step/stop null, flags
    outside of the defined bits, or only one of cmd and help given.  The
    name is not required to be non-empty. *)
Theorem register_validation m a :
  register_app a m = AssertFailed <-> ~ registration_ok (aoapps_mngr_count m) a.
Proof.
  rewrite register_app_eq, <- register_checks_ok.
  destruct (register_checks (aoapps_mngr_count m) a).
  - split; [| intros H; exfalso; apply H; reflexivity].
    unfold store_app.
    destruct ((0 <=? aoapps_mngr_count m)
              && (aoapps_mngr_count m <? AOAPPS_MNGR_REGISTRATION_SLOTS)
              && (Z.to_nat (aoapps_mngr_count m) <?
                  length (aoapps_mngr_apps (with_count (aoapps_mngr_count m + 1) m)))%nat);
      discriminate.
  - split; [intros _; discriminate | reflexivity].
Qed.

(** C9, as the code has it: a successful registration increases the count
    by exactly one and the count does not exceed the 8 slots.  The call
    returns nothing ([aoapps_mngr_register] is a [void] function); the
    descriptor is stored in the slot whose index is the count before the
    call, the index by which the observers and start() address the app;
    the other slots are as before. *)
Theorem register_monotonic m m' a :
  register_app a m = Ok (tt, m') ->
  aoapps_mngr_app_count m' = aoapps_mngr_app_count m + 1 /\
  aoapps_mngr_app_count m' <= AOAPPS_MNGR_REGISTRATION_SLOTS /\
  aoapps_mngr_apps m' !! Z.to_nat (aoapps_mngr_app_count m) = Some a /\
  aoapps_mngr_app_name (aoapps_mngr_app_count m) m' = Ok (name a, m') /\
  (forall i, i <> Z.to_nat (aoapps_mngr_app_count m) ->
             aoapps_mngr_apps m' !! i = aoapps_mngr_apps m !! i).
Proof.
  unfold aoapps_mngr_app_count.
  rewrite register_app_eq.
  destruct (register_checks (aoapps_mngr_count m) a) eqn:Hchk; [| discriminate].
  apply register_checks_ok in Hchk. destruct Hchk as [Hcap _ _ _ _ _ _ _ _ _].
  unfold store_app.
  destruct (0 <=? aoapps_mngr_count m) eqn:Hlo; [| discriminate].
  destruct (aoapps_mngr_count m <? AOAPPS_MNGR_REGISTRATION_SLOTS); [| discriminate].
  cbn [andb with_count aoapps_mngr_apps].
  destruct (Z.to_nat (aoapps_mngr_count m) <? length (aoapps_mngr_apps m))%nat eqn:Hlen;
    [| discriminate].
  intros [= <-]. cbn.
  apply Z.leb_le in Hlo. apply Nat.ltb_lt in Hlen.
  assert (Hl : <[Z.to_nat (aoapps_mngr_count m) := a]> (aoapps_mngr_apps m)
               !! Z.to_nat (aoapps_mngr_count m) = Some a)
    by (apply list_lookup_insert_eq; exact Hlen).
  split; [reflexivity |]. split; [lia |]. split; [exact Hl |]. split.
  - unfold aoapps_mngr_app_name, bind.
    rewrite (app_at_ok _ _ a); [reflexivity | lia | exact Hl].
  - intros i Hi. apply list_lookup_insert_ne. congruence.
Qed.

(** ** Switching to the next app *)

(** C3, as the code has it: [aoapps_mngr_switchnext()] has no guard.  With
    only the void app registered the divisor of its wrap formula is 0 and
    the call is an integer division by zero, before anything is stopped or
    started. *)
Theorem switchnext_single_app_undefined m :
  aoapps_mngr_count m = 1 ->
  aoapps_mngr_switchnext m = Undefined DivisionByZero.
Proof.
  intros Hc. unfold aoapps_mngr_switchnext, bind, gets, c_rem.
  rewrite Hc. reflexivity.
Qed.

(** ** The "with topo" state machine *)

(** A step in TOPOBUILD while the build is not done. *)
Lemma stepwithtopo_pending m w1 r w2 :
  aoapps_mngr_state m = AOAPPS_MNGR_STATE_TOPOBUILD ->
  aomw_topo_build_done (world m) = (false, w1) ->
  aomw_topo_build_step w1 = (r, w2) ->
  aoapps_mngr_stepwithtopo m =
  Ok (aoresult_ok,
      (if r =? aoresult_ok then fun m => m else with_state AOAPPS_MNGR_STATE_ERROR)
        (with_error r (with_call EvTopoBuildStep w2 (with_call EvTopoBuildDone w1 m)))).
Proof.
  intros Hst Hdone Hstep.
  unfold aoapps_mngr_stepwithtopo, bind, gets. rewrite Hst.
  unfold call at 1. rewrite Hdone. cbn [negb].
  unfold call. msimpl. rewrite Hstep.
  unfold modify, error_to_state, bind, gets. msimpl.
  destruct (r =? aoresult_ok); reflexivity.
Qed.

(** The step in TOPOBUILD that finds the build done. *)
Lemma stepwithtopo_done m a w1 n w2 (f : aoapps_mngr_start_t) r w3 :
  aoapps_mngr_state m = AOAPPS_MNGR_STATE_TOPOBUILD ->
  aomw_topo_build_done (world m) = (true, w1) ->
  current_is m a ->
  aomw_topo_numtriplets w1 = (n, w2) ->
  start a = Some f ->
  f (Serial_printf (MsgStartingOn (name a) n) w2) = (r, w3) ->
  aoapps_mngr_stepwithtopo m =
  Ok (r, with_state AOAPPS_MNGR_STATE_APPANIM
           (with_error r
              (with_call (EvAppStart (aoapps_mngr_appix m)) w3
                 (with_call (EvSerial (MsgStartingOn (name a) n))
                    (Serial_printf (MsgStartingOn (name a) n) w2)
                    (with_call EvTopoNumTriplets w2
                       (with_call EvTopoBuildDone w1 m)))))).
Proof.
  intros Hst Hdone Hcur Hn Hstart Hf.
  unfold aoapps_mngr_stepwithtopo, bind, gets. rewrite Hst.
  unfold call at 1. rewrite Hdone. cbn [negb].
  rewrite (current_app_ok _ a) by exact Hcur.
  unfold call at 1. msimpl. rewrite Hn.
  unfold call_void. msimpl.
  rewrite (current_app_ok _ a) by exact Hcur.
  rewrite Hstart. unfold call_ptr, call. msimpl. rewrite Hf.
  unfold modify, error_to_state, bind, gets. msimpl.
  destruct (r =? aoresult_ok); reflexivity.
Qed.

(** C2, as the code has it: a step in TOPOBUILD while the build is not done
    calls the builder's step once and returns ok, whatever the builder
    returned.  The builder's result is recorded as the wrapper's error; the
    state machine stays in TOPOBUILD when it is ok and goes to ERROR when it
    is not, and from there the following step returns the recorded result. *)
Theorem stepwithtopo_build_pending m w1 r w2 :
  aoapps_mngr_state m = AOAPPS_MNGR_STATE_TOPOBUILD ->
  aomw_topo_build_done (world m) = (false, w1) ->
  aomw_topo_build_step w1 = (r, w2) ->
  exists m',
    aoapps_mngr_stepwithtopo m = Ok (aoresult_ok, m') /\
    aoapps_mngr_error m' = r /\
    (r = aoresult_ok -> aoapps_mngr_state m' = AOAPPS_MNGR_STATE_TOPOBUILD) /\
    (r <> aoresult_ok ->
       aoapps_mngr_state m' = AOAPPS_MNGR_STATE_ERROR /\
       aoapps_mngr_stepwithtopo m' = Ok (r, m')) /\
    world m' = w2 /\
    trace m' = trace m ++ [EvTopoBuildDone; EvTopoBuildStep].
Proof.
  intros Hst Hdone Hstep.
  eexists. split; [apply (stepwithtopo_pending m w1 r w2); assumption |].
  destruct (Z.eqb_spec r aoresult_ok) as [-> | Hne]; msimpl.
  - split; [reflexivity |]. split; [intros _; exact Hst |].
    split; [intros H; contradiction H; reflexivity |].
    split; [reflexivity |]. rewrite <- app_assoc. reflexivity.
  - split; [reflexivity |]. split; [intros H; contradiction |].
    split; [intros _; split; reflexivity |].
    split; [reflexivity |]. rewrite <- app_assoc. reflexivity.
Qed.

(** ** Frame rules *)

Section Preserves.
Variable R : machine W -> machine W -> Prop.
Hypothesis R_refl : forall m, R m m.
Hypothesis R_trans : forall m1 m2 m3, R m1 m2 -> R m2 m3 -> R m1 m3.

Lemma preserves_ret {A} (x : A) : preserves R (ret x).
Proof. intros m y m' [= _ <-]. apply R_refl. Qed.

Lemma preserves_gets {A} (f : machine W -> A) : preserves R (gets f).
Proof. intros m y m' [= _ <-]. apply R_refl. Qed.

Lemma preserves_bind {A B} (c : M A) (k : A -> M B) :
  preserves R c -> (forall x, preserves R (k x)) -> preserves R (bind c k).
Proof.
  intros Hc Hk m y m'. unfold bind.
  destruct (c m) as [[x m1] | |] eqn:Ec; try discriminate.
  intros Ek. apply (R_trans _ m1); [apply (Hc _ _ _ Ec) | apply (Hk _ _ _ _ Ek)].
Qed.

Lemma preserves_modify (f : machine W -> machine W) :
  (forall m, R m (f m)) -> preserves R (modify f).
Proof. intros Hf m y m' [= _ <-]. apply Hf. Qed.

Lemma preserves_call {A} e (f : W -> A * W) :
  (forall w m, R m (with_call e w m)) -> preserves R (call e f).
Proof.
  intros He m y m'. unfold call. destruct (f (world m)) as [x w].
  intros [= _ <-]. apply He.
Qed.

Lemma preserves_call_void e (f : W -> W) :
  (forall w m, R m (with_call e w m)) -> preserves R (call_void e f).
Proof. intros He m y m' [= _ <-]. apply He. Qed.

Lemma preserves_call_ptr {A} e (p : option (W -> A * W)) :
  (forall w m, R m (with_call e w m)) -> preserves R (call_ptr e p).
Proof.
  intros He. destruct p as [f |]; [apply preserves_call, He |].
  intros m y m'. discriminate.
Qed.

Lemma preserves_app_at ix : preserves R (app_at ix).
Proof.
  intros m y m'. unfold app_at.
  destruct ((0 <=? ix) && (ix <? AOAPPS_MNGR_REGISTRATION_SLOTS)); [| discriminate].
  destruct (aoapps_mngr_apps m !! Z.to_nat ix); [| discriminate].
  intros [= _ <-]. apply R_refl.
Qed.

Lemma preserves_current_app : preserves R current_app.
Proof.
  apply preserves_bind; [apply preserves_gets | intros ix; apply preserves_app_at].
Qed.

End Preserves.

Lemma app_level_update_refl m : app_level_update m m.
Proof.
  unfold app_level_update. repeat (split; [reflexivity |]).
  exists []. split; [symmetry; apply app_nil_r | reflexivity].
Qed.

Lemma app_level_update_trans m1 m2 m3 :
  app_level_update m1 m2 -> app_level_update m2 m3 -> app_level_update m1 m3.
Proof.
  intros (H1 & H2 & H3 & H4 & H5 & H6 & H7 & H8 & evs & Ht & Hf)
         (G1 & G2 & G3 & G4 & G5 & G6 & G7 & G8 & evs' & Gt & Gf).
  unfold app_level_update.
  rewrite G1, G2, G3, G4, G5, G6, G7, G8.
  repeat (split; [assumption |]).
  exists (evs ++ evs'). split.
  - rewrite Gt, Ht, app_assoc. reflexivity.
  - rewrite List.filter_app, Hf, Gf. reflexivity.
Qed.

Lemma app_level_update_call e w m :
  is_repair_event e = false -> app_level_update m (with_call e w m).
Proof.
  intros He. unfold app_level_update. msimpl.
  repeat (split; [reflexivity |]).
  exists [e]. split; [reflexivity |]. cbn. rewrite He. reflexivity.
Qed.

Lemma app_level_update_error r m : app_level_update m (with_error r m).
Proof. exact (app_level_update_refl m). Qed.

Lemma app_level_update_state st m : app_level_update m (with_state st m).
Proof. exact (app_level_update_refl m). Qed.

Ltac frame_step :=
  first
    [ apply preserves_current_app;
        [exact app_level_update_refl | exact app_level_update_trans]
    | apply preserves_app_at; exact app_level_update_refl
    | apply preserves_bind; [exact app_level_update_trans | | intros ?]
    | apply preserves_ret; exact app_level_update_refl
    | apply preserves_gets; exact app_level_update_refl
    | apply preserves_modify; intros ?;
        first [apply app_level_update_error | apply app_level_update_state]
    | apply preserves_call; intros ? ?; apply app_level_update_call; reflexivity
    | apply preserves_call_void; intros ? ?; apply app_level_update_call; reflexivity
    | apply preserves_call_ptr; intros ? ?; apply app_level_update_call; reflexivity
    | match goal with
      | |- @preserves _ _ _ (if ?b then _ else _) => destruct b
      | |- @preserves _ _ _ (match ?x with _ => _ end) => destruct x
      end ].

Lemma error_to_state_frame : preserves (W := W) app_level_update error_to_state.
Proof. unfold error_to_state. repeat frame_step. Qed.

Lemma stepwithtopo_frame : preserves (W := W) app_level_update aoapps_mngr_stepwithtopo.
Proof.
  unfold aoapps_mngr_stepwithtopo.
  repeat first [apply error_to_state_frame | frame_step].
Qed.

Lemma app_level_step_frame a : preserves app_level_update (app_level_step a).
Proof.
  unfold app_level_step.
  destruct (has_flag (flags a) AOAPPS_MNGR_FLAGS_WITHTOPO);
    [apply stepwithtopo_frame | repeat frame_step].
Qed.

(** ** Showing the status *)

Lemma current_is_frame m m' a :
  aoapps_mngr_appix m' = aoapps_mngr_appix m ->
  aoapps_mngr_apps m' = aoapps_mngr_apps m ->
  current_is m a -> current_is m' a.
Proof. unfold current_is. intros -> ->. trivial. Qed.

Lemma status_no_repair (evs : list event) :
  forallb is_status_event evs = true -> List.filter is_repair_event evs = [].
Proof.
  induction evs as [| e evs IH]; [reflexivity |].
  cbn [forallb List.filter]. intros [He Hevs]%andb_true_iff.
  destruct e; try discriminate He; cbn; exact (IH Hevs).
Qed.

Lemma showstatus_spec m a :
  current_is m a ->
  exists m', aoapps_mngr_showstatus m = Ok (tt, m') /\ status_update m m'.
Proof.
  intros Hcur.
  unfold aoapps_mngr_showstatus, bind, gets.
  destruct (aoapps_mngr_result m =? aoresult_ok); cbn [negb].
  - unfold call_millis, bind, call, ret.
    destruct (millis (world m)) as [t w1]. msimpl.
    destruct (AOAPPS_MNGR_HEARTBEAT_MS <? u32 (u32 t - aoapps_mngr_lastgrn m)).
    + unfold call_void, modify. msimpl.
      destruct (millis (aoui32_led_toggle AOUI32_LED_GRN w1)) as [t' w2].
      eexists. split; [reflexivity |].
      unfold status_update. msimpl. repeat (split; [reflexivity |]).
      eexists. split; [rewrite <- !app_assoc; reflexivity | reflexivity].
    + eexists. split; [reflexivity |].
      unfold status_update. msimpl. repeat (split; [reflexivity |]).
      eexists. split; reflexivity.
  - unfold call_millis, bind, call, ret, modify, call_void.
    destruct (millis (world m)) as [t w1]. msimpl.
    rewrite (current_app_ok _ a) by exact Hcur. msimpl.
    eexists. split; [reflexivity |].
    unfold status_update. msimpl. repeat (split; [reflexivity |]).
    eexists. split; [rewrite <- !app_assoc; reflexivity | reflexivity].
Qed.

(** ** Repair *)

Lemma repair_spec m t w2 :
  millis (world m) = (t, w2) ->
  let elapsed := u32 (u32 t - aoapps_mngr_lastrepair m) in
  let rc := fst (aoosp_send_clrerror 0 w2) in
  let w4 := snd (aoosp_send_goactive 0 (snd (aoosp_send_clrerror 0 w2))) in
  let ra := fst (aoosp_send_goactive 0 (snd (aoosp_send_clrerror 0 w2))) in
  exists r m2 evs,
    aoapps_mngr_repair m = Ok (r, m2) /\
    aoapps_mngr_appix m2 = aoapps_mngr_appix m /\
    aoapps_mngr_apps m2 = aoapps_mngr_apps m /\
    trace m2 = trace m ++ evs /\
    (elapsed <= AOAPPS_MNGR_REPAIR_MS ->
       List.filter is_repair_event evs = [] /\ r = aoresult_ok /\
       aoapps_mngr_lastrepair m2 = aoapps_mngr_lastrepair m) /\
    (AOAPPS_MNGR_REPAIR_MS < elapsed -> rc <> aoresult_ok ->
       List.filter is_repair_event evs = [EvClrError 0] /\ r = rc /\
       aoapps_mngr_lastrepair m2 = aoapps_mngr_lastrepair m) /\
    (AOAPPS_MNGR_REPAIR_MS < elapsed -> rc = aoresult_ok ->
       List.filter is_repair_event evs = [EvClrError 0; EvGoActive 0] /\ r = ra /\
       (ra <> aoresult_ok -> aoapps_mngr_lastrepair m2 = aoapps_mngr_lastrepair m) /\
       (ra = aoresult_ok -> aoapps_mngr_lastrepair m2 = u32 (fst (millis w4)))).
Proof.
  intros Hmillis elapsed rc w4 ra. subst elapsed rc w4 ra.
  unfold aoapps_mngr_repair, call_millis, bind, gets, ret.
  unfold call at 1. rewrite Hmillis. msimpl.
  destruct (Z.ltb_spec AOAPPS_MNGR_REPAIR_MS (u32 (u32 t - aoapps_mngr_lastrepair m)))
    as [Hlt | Hle].
  - unfold call at 1. msimpl.
    destruct (aoosp_send_clrerror 0 w2) as [rc w3]. msimpl.
    destruct (Z.eqb_spec rc aoresult_ok) as [Hrc | Hrc]; cbn [negb].
    + unfold call at 1. msimpl.
      destruct (aoosp_send_goactive 0 w3) as [ra w4]. msimpl.
      destruct (Z.eqb_spec ra aoresult_ok) as [Hra | Hra]; cbn [negb].
      * unfold call, modify. msimpl. destruct (millis w4) as [t' w5].
        eexists _, _, _. split; [reflexivity |]. msimpl.
        split; [reflexivity |]. split; [reflexivity |].
        split; [rewrite <- !app_assoc; reflexivity |].
        split; [intros H; exfalso; revert H; apply Z.lt_nge, Hlt |].
        split; [intros _ H; contradiction |].
        intros _ _. split; [reflexivity |]. split; [symmetry; exact Hra |].
        split; [intros H; contradiction | intros _; reflexivity].
      * eexists _, _, _. split; [reflexivity |]. msimpl.
        split; [reflexivity |]. split; [reflexivity |].
        split; [rewrite <- !app_assoc; reflexivity |].
        split; [intros H; exfalso; revert H; apply Z.lt_nge, Hlt |].
        split; [intros _ H; contradiction |].
        intros _ _. split; [reflexivity |]. split; [reflexivity |].
        split; [intros _; reflexivity | intros H; contradiction].
    + eexists _, _, _. split; [reflexivity |]. msimpl.
      split; [reflexivity |]. split; [reflexivity |].
      split; [rewrite <- !app_assoc; reflexivity |].
      split; [intros H; exfalso; revert H; apply Z.lt_nge, Hlt |].
      split; [intros _ _; split; [reflexivity | split; reflexivity] |].
      intros _ H. contradiction.
  - eexists _, _, _. split; [reflexivity |]. msimpl.
    split; [reflexivity |]. split; [reflexivity |].
    split; [reflexivity |].
    split; [intros _; split; [reflexivity | split; reflexivity] |].
    split; intros H; exfalso; revert H; apply Z.le_ngt, Hle.
Qed.

(** ** A step of a running app without a latched error *)

Lemma step_running m a r m1 :
  aoapps_mngr_moderun m <> 0 ->
  aoapps_mngr_result m = aoresult_ok ->
  current_is m a ->
  app_level_step a m = Ok (r, m1) ->
  aoapps_mngr_step m =
  ((if r =? aoresult_ok then
      if has_flag (flags a) AOAPPS_MNGR_FLAGS_WITHREPAIR then
        let* r' := aoapps_mngr_repair in modify (with_result r')
      else ret tt
    else ret tt) >> aoapps_mngr_showstatus) (with_result r m1).
Proof.
  intros Hrun Hok Hcur Happ.
  assert (Hcur1 : current_is (with_result r m1) a).
  { destruct (app_level_step_frame a m r m1 Happ) as (_ & Happs & Hix & _).
    apply (current_is_frame m); assumption. }
  unfold aoapps_mngr_step.
  unfold bind at 1, gets at 1. unfold bind at 1, AORESULT_ASSERT.
  apply Z.eqb_neq in Hrun. rewrite Hrun. cbn [negb].
  unfold bind at 1, gets at 1. rewrite Hok. cbn [Z.eqb aoresult_ok negb].
  unfold bind at 1. rewrite (current_app_ok m a Hcur).
  unfold bind at 1.
  assert (Hbranch :
    (if has_flag (flags a) AOAPPS_MNGR_FLAGS_WITHTOPO
     then let* r0 := aoapps_mngr_stepwithtopo in modify (with_result r0)
     else let* ix := gets aoapps_mngr_appix in
          let* a0 := current_app in
          let* r0 := call_ptr (EvAppStep ix) (step a0) in modify (with_result r0)) m
    = Ok (tt, with_result r m1)).
  { unfold app_level_step in Happ.
    destruct (has_flag (flags a) AOAPPS_MNGR_FLAGS_WITHTOPO).
    - unfold bind. rewrite Happ. reflexivity.
    - unfold bind, gets in Happ |- *.
      rewrite (current_app_ok m a Hcur) in Happ |- *.
      rewrite Happ. reflexivity. }
  rewrite Hbranch.
  unfold bind at 1, gets at 1. msimpl.
  unfold bind at 2.
  destruct (r =? aoresult_ok); [| reflexivity].
  unfold bind at 1. rewrite (current_app_ok _ a Hcur1).
  reflexivity.
Qed.

(** C7, as the code has it: in a step whose app-level operation (the app's
    step, direct or through the "with topo" state machine) returns ok, for
    an app with the WITHREPAIR flag: when more than 250 ms have passed since
    the last repair, the clear-error broadcast is sent; when that one
    returns ok the activate broadcast is sent after it; the first of the two
    that does not return ok is not followed by the other and its result is
    the latched result of the step; when both return ok the latched result
    stays ok and the clock, read after them, is recorded as the time of
    the last repair.  When a broadcast fails, and when 250 ms or less have
    passed, where nothing is broadcast and the result stays ok, the time
    of the last repair stays as it is.  The broadcasts are sent at most
    once per step, and after the app-level operation, which sends none and
    leaves the time of the last repair alone. *)
Theorem step_repair m a m1 t w2 :
  aoapps_mngr_moderun m <> 0 ->
  aoapps_mngr_result m = aoresult_ok ->
  current_is m a ->
  has_flag (flags a) AOAPPS_MNGR_FLAGS_WITHREPAIR = true ->
  app_level_step a m = Ok (aoresult_ok, m1) ->
  millis (world m1) = (t, w2) ->
  let elapsed := u32 (u32 t - aoapps_mngr_lastrepair m1) in
  let rc := fst (aoosp_send_clrerror 0 w2) in
  let w4 := snd (aoosp_send_goactive 0 (snd (aoosp_send_clrerror 0 w2))) in
  let ra := fst (aoosp_send_goactive 0 (snd (aoosp_send_clrerror 0 w2))) in
  exists m' evs0 evs,
    aoapps_mngr_step m = Ok (tt, m') /\
    trace m1 = trace m ++ evs0 /\
    List.filter is_repair_event evs0 = [] /\
    trace m' = trace m1 ++ evs /\
    (elapsed <= AOAPPS_MNGR_REPAIR_MS ->
       List.filter is_repair_event evs = [] /\
       aoapps_mngr_result m' = aoresult_ok) /\
    (AOAPPS_MNGR_REPAIR_MS < elapsed -> rc <> aoresult_ok ->
       List.filter is_repair_event evs = [EvClrError 0] /\
       aoapps_mngr_result m' = rc) /\
    (AOAPPS_MNGR_REPAIR_MS < elapsed -> rc = aoresult_ok ->
       List.filter is_repair_event evs = [EvClrError 0; EvGoActive 0] /\
       aoapps_mngr_result m' = ra) /\
    aoapps_mngr_lastrepair m1 = aoapps_mngr_lastrepair m /\
    (AOAPPS_MNGR_REPAIR_MS < elapsed -> rc = aoresult_ok -> ra = aoresult_ok ->
       aoapps_mngr_lastrepair m' = u32 (fst (millis w4))) /\
    (elapsed <= AOAPPS_MNGR_REPAIR_MS \/ rc <> aoresult_ok \/ ra <> aoresult_ok ->
       aoapps_mngr_lastrepair m' = aoapps_mngr_lastrepair m).
Proof.
  intros Hrun Hok Hcur Hflag Happ Hmillis elapsed rc w4 ra.
  destruct (app_level_step_frame a m _ m1 Happ)
    as (_ & Happs & Hix & _ & _ & _ & Hlr1 & _ & evs0 & Htr0 & Hf0).
  rewrite (step_running m a aoresult_ok m1 Hrun Hok Hcur Happ), Hflag.
  cbn [Z.eqb aoresult_ok].
  destruct (repair_spec (with_result aoresult_ok m1) t w2 Hmillis)
    as (r & m2 & evs2 & Hrep & Hix2 & Happs2 & Htr2 & Hle & Hclr & Hact).
  msimpl in Hix2. msimpl in Happs2. msimpl in Htr2.
  assert (Hcur2 : current_is (with_result r m2) a).
  { apply (current_is_frame m); msimpl; [congruence | congruence | exact Hcur]. }
  destruct (showstatus_spec _ a Hcur2)
    as (m' & Hshow & _ & _ & _ & _ & Hres & Hlr & _ & _ & evs3 & Htr3 & Hf3).
  msimpl in Hres. msimpl in Htr3. msimpl in Hlr.
  exists m', evs0, (evs2 ++ evs3).
  split. { unfold bind, modify. rewrite Hrep. exact Hshow. }
  split; [exact Htr0 |]. split; [exact Hf0 |].
  split. { rewrite Htr3, Htr2, app_assoc. reflexivity. }
  rewrite List.filter_app, (status_no_repair evs3 Hf3), app_nil_r, Hres, Hlr.
  msimpl in Hle. msimpl in Hclr. msimpl in Hact.
  fold elapsed rc ra w4 in Hle, Hclr, Hact.
  split; [intros H; destruct (Hle H) as (H1 & H2 & _); split; assumption |].
  split; [intros H H'; destruct (Hclr H H') as (H1 & H2 & _); split; assumption |].
  split; [intros H H'; destruct (Hact H H') as (H1 & H2 & _); split; assumption |].
  split; [exact Hlr1 |].
  split.
  - intros H H' H''. destruct (Hact H H') as (_ & _ & _ & H3). exact (H3 H'').
  - intros Hcase. rewrite <- Hlr1.
    destruct (Z.le_gt_cases elapsed AOAPPS_MNGR_REPAIR_MS) as [Hel | Hel];
      [destruct (Hle Hel) as (_ & _ & H3); exact H3 |].
    destruct (Z.eq_dec rc aoresult_ok) as [Hrc | Hrc];
      [| destruct (Hclr Hel Hrc) as (_ & _ & H3); exact H3].
    destruct (Hact Hel Hrc) as (_ & _ & H3 & _). apply H3.
    destruct Hcase as [Hc | [Hc | Hc]]; [lia | contradiction | exact Hc].
Qed.

(** ** Starting and switching *)

Lemma wp_showstatus a (Q : unit -> machine W -> Prop) m :
  current_is m a ->
  (forall m', status_update m m' -> Q tt m') ->
  wp aoapps_mngr_showstatus Q m.
Proof.
  intros Hcur HQ. destruct (showstatus_spec m a Hcur) as (m' & Heq & Hupd).
  exists tt, m'. split; [exact Heq | apply HQ, Hupd].
Qed.

Lemma wf_app m i :
  wf m -> 0 <= i < aoapps_mngr_count m ->
  exists a, aoapps_mngr_apps m !! Z.to_nat i = Some a /\ valid_app a = true.
Proof.
  intros (Hcount & _ & Hlen & Hall) Hi.
  unfold AOAPPS_MNGR_REGISTRATION_SLOTS in *.
  destruct (lookup_lt_is_Some_2 (aoapps_mngr_apps m) (Z.to_nat i)) as [a Ha];
    [rewrite Hlen; lia |].
  exists a. split; [exact Ha |].
  rewrite forallb_forall in Hall. apply Hall.
  apply list_elem_of_In, (list_elem_of_lookup_2 _ (Z.to_nat i)).
  rewrite lookup_take_lt by lia. exact Ha.
Qed.

Lemma start_spec m ix a :
  0 < aoapps_mngr_count m <= AOAPPS_MNGR_REGISTRATION_SLOTS ->
  aoapps_mngr_moderun m = 0 ->
  0 <= ix < aoapps_mngr_count m ->
  aoapps_mngr_apps m !! Z.to_nat ix = Some a ->
  valid_app a = true ->
  wp (aoapps_mngr_start ix) (fun _ m' => started m (world m) ix a [] m') m.
Proof.
  intros Hcount Hrun Hix Ha Hvalid.
  assert (Hstart : exists f, start a = Some f).
  { unfold valid_app in Hvalid. rewrite !andb_true_iff in Hvalid.
    destruct Hvalid as [[[_ Hs] _] _]. destruct (start a) as [f |]; [| discriminate].
    exists f. reflexivity. }
  destruct Hstart as [f Hf].
  assert (Hcur : forall m0, aoapps_mngr_appix m0 = ix ->
                            aoapps_mngr_apps m0 = aoapps_mngr_apps m ->
                            current_is m0 a).
  { intros m0 E1 E2. unfold current_is. rewrite E1, E2.
    unfold AOAPPS_MNGR_REGISTRATION_SLOTS in *. split; [lia | exact Ha]. }
  unfold aoapps_mngr_start. wp_auto.
  apply wp_assert; [apply Z.ltb_lt; lia |]. wp_auto.
  apply wp_assert; [rewrite Hrun; reflexivity |]. wp_auto.
  apply wp_assert; [apply andb_true_iff; split; [apply Z.leb_le | apply Z.ltb_lt]; lia |].
  wp_auto.
  apply (wp_current_app a); [apply Hcur; reflexivity |]. wp_auto.
  apply (wp_current_app a); [apply Hcur; reflexivity |]. wp_auto.
  destruct (has_flag (flags a) AOAPPS_MNGR_FLAGS_WITHTOPO) eqn:Htopo.
  - unfold aoapps_mngr_startwithtopo. wp_auto.
    apply (wp_showstatus a); [apply Hcur; reflexivity |].
    intros m' (E1 & E2 & E3 & E4 & E5 & _ & E7 & _ & evs & Etr & Hev).
    msimpl in E1. msimpl in E2. msimpl in E3. msimpl in E4. msimpl in E5.
    msimpl in E7. msimpl in Etr.
    unfold started. repeat (split; [assumption |]).
    split.
    { eexists. rewrite Etr, <- !app_assoc. cbn [app]. reflexivity. }
    split; [intros _ | intros H; congruence].
    split; [assumption |]. split; [assumption |].
    exists evs. split; [| exact Hev].
    rewrite Etr, <- !app_assoc. reflexivity.
  - wp_auto.
    apply (wp_current_app a); [apply Hcur; reflexivity |]. wp_auto.
    rewrite Hf. unfold call_ptr. wp_auto.
    apply (wp_showstatus a); [apply Hcur; reflexivity |].
    intros m' (E1 & E2 & E3 & E4 & E5 & _ & _ & _ & evs & Etr & Hev).
    msimpl in E1. msimpl in E2. msimpl in E3. msimpl in E4. msimpl in E5.
    msimpl in Etr.
    unfold started. repeat (split; [assumption |]).
    split.
    { eexists. rewrite Etr, <- !app_assoc. cbn [app]. reflexivity. }
    split; [intros H; congruence |].
    intros _. exists f. split; [exact Hf |]. split; [exact E5 |].
    exists evs. split; [| exact Hev].
    rewrite Etr, <- !app_assoc. reflexivity.
Qed.

Lemma valid_app_stop a : valid_app a = true -> exists f, stop a = Some f.
Proof.
  unfold valid_app. rewrite !andb_true_iff. intros [_ Hs].
  destruct (stop a) as [f |]; [exists f; reflexivity | discriminate].
Qed.


Lemma switch_spec m ix :
  wf m -> aoapps_mngr_moderun m <> 0 -> 0 <= ix < aoapps_mngr_count m ->
  exists a0 f0 a,
    current_is m a0 /\ stop a0 = Some f0 /\
    aoapps_mngr_apps m !! Z.to_nat ix = Some a /\ valid_app a = true /\
    wp (aoapps_mngr_switch ix)
       (fun _ m' =>
          started m (f0 (world m)) ix a [EvAppStop (aoapps_mngr_appix m)] m') m.
Proof.
  intros Hwf Hrun Hix.
  pose proof Hwf as (Hcount & Hcur & _).
  destruct (wf_app m _ Hwf Hcur) as (a0 & Ha0 & Hv0).
  destruct (wf_app m _ Hwf Hix) as (a & Ha & Hv).
  destruct (valid_app_stop a0 Hv0) as [f0 Hf0].
  assert (Hcur0 : current_is m a0).
  { split; [unfold AOAPPS_MNGR_REGISTRATION_SLOTS in *; lia | exact Ha0]. }
  exists a0, f0, a. split; [exact Hcur0 |]. split; [exact Hf0 |].
  split; [exact Ha |]. split; [exact Hv |].
  unfold aoapps_mngr_switch. apply wp_bind.
  eexists tt, _. split; [apply (stop_eq m a0 f0 Hrun Hcur0 Hf0) |].
  eapply wp_mono; [| apply (start_spec _ ix a); msimpl;
                     [lia | reflexivity | exact Hix | exact Ha | exact Hv]].
  intros _ m' (E1 & E2 & E3 & E4 & (evs & Etr) & E5 & E6).
  msimpl in E3. msimpl in E4. msimpl in Etr.
  unfold started. repeat (split; [assumption |]).
  split; [exists evs; rewrite Etr, <- !app_assoc; reflexivity |].
  split.
  - intros Htopo. destruct (E5 Htopo) as (Hres & Hstate & evs1 & Etr1 & Hev1).
    msimpl in Etr1.
    split; [exact Hres |]. split; [exact Hstate |].
    exists evs1. split; [rewrite Etr1, <- !app_assoc; reflexivity | exact Hev1].
  - intros Htopo. destruct (E6 Htopo) as (f & Hf & Hres & evs1 & Etr1 & Hev1).
    msimpl in Etr1.
    exists f. split; [exact Hf |]. split; [exact Hres |].
    exists evs1. split; [rewrite Etr1, <- !app_assoc; reflexivity | exact Hev1].
Qed.


(** The registry is put in order by [aoapps_mngr_init()], and stays in
    order through registrations and switches. *)
Lemma wf_init m :
  length (aoapps_mngr_apps m) = Z.to_nat AOAPPS_MNGR_REGISTRATION_SLOTS ->
  exists m',
    aoapps_mngr_init m = Ok (tt, m') /\ wf m' /\
    aoapps_mngr_count m' = 1 /\ aoapps_mngr_moderun m' = 0 /\
    aoapps_mngr_result m' = aoresult_ok.
Proof.
  intros Hlen.
  destruct (aoapps_mngr_apps m) as [| a0 apps] eqn:Happs; [discriminate Hlen |].
  unfold aoapps_mngr_init, bind, modify, aoapps_mngr_voidapp_register.
  pose (v := App (Some "voidapp"%string) (Some "USB command"%string)
                 (Some "--"%string) (Some "--"%string) 0
                 (Some aoapps_mngr_voidapp_start) (Some aoapps_mngr_voidapp_step)
                 (Some aoapps_mngr_voidapp_stop) None None : aoapps_mngr_app_t W).
  change (aoapps_mngr_register _ _ _ _ _ _ _ _ _ _) with (register_app v).
  rewrite register_app_eq. msimpl.
  change (register_checks 0 _) with true. cbn iota.
  unfold store_app. msimpl. rewrite Happs.
  cbn [Z.leb Z.ltb Z.compare AOAPPS_MNGR_REGISTRATION_SLOTS andb Z.to_nat length
       Nat.ltb Nat.leb].
  change (Z.to_nat 0) with 0%nat. cbn [Nat.leb].
  unfold call_millis, bind, call, ret. msimpl.
  destruct (millis (world m)) as [t1 w1]. msimpl.
  destruct (millis w1) as [t2 w2]. msimpl.
  destruct (millis w2) as [t3 w3].
  eexists. split; [reflexivity |]. msimpl.
  split; [| repeat split].
  unfold wf. msimpl. cbn in Hlen |- *.
  repeat split; try lia; congruence.
Qed.

Lemma wf_register m m' a :
  wf m -> register_app a m = Ok (tt, m') -> wf m'.
Proof.
  intros (Hcount & Hix & Hlen & Hall).
  rewrite register_app_eq.
  destruct (register_checks (aoapps_mngr_count m) a) eqn:Hchk; [| discriminate].
  unfold register_checks in Hchk. rewrite !andb_true_iff in Hchk.
  destruct Hchk as [[[[Hcap Hvalid] _] _] _]. apply Z.ltb_lt in Hcap.
  unfold store_app. msimpl.
  destruct ((0 <=? aoapps_mngr_count m)
            && (aoapps_mngr_count m <? AOAPPS_MNGR_REGISTRATION_SLOTS)
            && (Z.to_nat (aoapps_mngr_count m) <? length (aoapps_mngr_apps m))%nat)
    eqn:Hin; [| discriminate].
  intros [= <-]. unfold wf. msimpl.
  unfold AOAPPS_MNGR_REGISTRATION_SLOTS in *.
  assert (Hlt : (Z.to_nat (aoapps_mngr_count m) < length (aoapps_mngr_apps m))%nat)
    by (rewrite Hlen; lia).
  split; [lia |]. split; [lia |].
  split; [rewrite length_insert; exact Hlen |].
  replace (Z.to_nat (aoapps_mngr_count m + 1))
    with (S (Z.to_nat (aoapps_mngr_count m))) by lia.
  rewrite (take_S_r _ _ a) by (apply list_lookup_insert_eq; exact Hlt).
  rewrite take_insert_ge by lia.
  rewrite forallb_app, Hall. cbn. rewrite Hvalid. reflexivity.
Qed.

Lemma wf_started m w0 ix a evs0 m' :
  wf m -> 0 <= ix < aoapps_mngr_count m -> started m w0 ix a evs0 m' -> wf m'.
Proof.
  intros (Hcount & _ & Hlen & Hall) Hix (E1 & _ & E3 & E4 & _).
  unfold wf. rewrite E1, E3, E4. repeat split; try assumption; lia.
Qed.


(** ** A latched error with NEXTONERR *)


(** ** Rules for code that may not return *)

Lemma wlp_ret {A} (x : A) (Q : A -> machine W -> Prop) m :
  Q x m -> wlp (ret x) Q m.
Proof. intros HQ y m' [= <- <-]. exact HQ. Qed.

Lemma wlp_bind {A B} (c : M A) (k : A -> M B) (Q : B -> machine W -> Prop) m :
  wlp c (fun x m1 => wlp (k x) Q m1) m -> wlp (bind c k) Q m.
Proof.
  intros H y m'. unfold bind.
  destruct (c m) as [[x m1] | |] eqn:Ec; try discriminate.
  apply (H x m1 Ec).
Qed.

Lemma wlp_gets {A} (f : machine W -> A) (Q : A -> machine W -> Prop) m :
  Q (f m) m -> wlp (gets f) Q m.
Proof. intros HQ y m' [= <- <-]. exact HQ. Qed.

Lemma wlp_modify (f : machine W -> machine W) (Q : unit -> machine W -> Prop) m :
  Q tt (f m) -> wlp (modify f) Q m.
Proof. intros HQ [] m' [= <-]. exact HQ. Qed.

Lemma wlp_assert (b : bool) (Q : unit -> machine W -> Prop) m :
  (b = true -> Q tt m) -> wlp (AORESULT_ASSERT b) Q m.
Proof.
  intros HQ [] m'. unfold AORESULT_ASSERT.
  destruct b; [| discriminate]. intros [= <-]. apply HQ. reflexivity.
Qed.

Lemma wlp_undefined {A} u (Q : A -> machine W -> Prop) m :
  wlp (undefined_behaviour u) Q m.
Proof. intros y m'. discriminate. Qed.

Lemma wlp_call {A} e (f : W -> A * W) (Q : A -> machine W -> Prop) m :
  Q (fst (f (world m))) (with_call e (snd (f (world m))) m) -> wlp (call e f) Q m.
Proof.
  intros HQ y m'. unfold call. destruct (f (world m)) as [x w].
  intros [= <- <-]. exact HQ.
Qed.

Lemma wlp_call_void e (f : W -> W) (Q : unit -> machine W -> Prop) m :
  Q tt (with_call e (f (world m)) m) -> wlp (call_void e f) Q m.
Proof. intros HQ [] m' [= <-]. exact HQ. Qed.

Lemma wlp_call_millis (Q : Z -> machine W -> Prop) m :
  Q (u32 (fst (millis (world m)))) (with_call EvMillis (snd (millis (world m))) m) ->
  wlp call_millis Q m.
Proof.
  intros HQ. unfold call_millis. apply wlp_bind, wlp_call, wlp_ret. exact HQ.
Qed.

Lemma wlp_call_ptr {A} e (p : option (W -> A * W)) (Q : A -> machine W -> Prop) m :
  (forall f, p = Some f -> wlp (call e f) Q m) -> wlp (call_ptr e p) Q m.
Proof.
  intros H. destruct p as [f |]; [apply H; reflexivity | apply wlp_undefined].
Qed.

Lemma wlp_call_ptr_void e (p : option (W -> W)) (Q : unit -> machine W -> Prop) m :
  (forall f, p = Some f -> wlp (call_void e f) Q m) -> wlp (call_ptr_void e p) Q m.
Proof.
  intros H. destruct p as [f |]; [apply H; reflexivity | apply wlp_undefined].
Qed.

Lemma wlp_current_app (Q : aoapps_mngr_app_t W -> machine W -> Prop) m :
  (forall a, current_is m a -> Q a m) -> wlp current_app Q m.
Proof.
  intros H a m'. unfold current_app, bind, gets, app_at.
  destruct ((0 <=? aoapps_mngr_appix m)
            && (aoapps_mngr_appix m <? AOAPPS_MNGR_REGISTRATION_SLOTS)) eqn:Hr;
    [| discriminate].
  destruct (aoapps_mngr_apps m !! Z.to_nat (aoapps_mngr_appix m)) as [a0 |] eqn:Hl;
    [| discriminate].
  intros [= <- <-]. apply H. split; [| exact Hl].
  apply andb_true_iff in Hr. destruct Hr as [H1 H2].
  apply Z.leb_le in H1. apply Z.ltb_lt in H2. split; assumption.
Qed.

Lemma wlp_mono {A} (c : M A) (Q Q' : A -> machine W -> Prop) m :
  (forall x m', Q x m' -> Q' x m') -> wlp c Q m -> wlp c Q' m.
Proof. intros HQQ H x m' Hc. apply HQQ, H, Hc. Qed.

Lemma wp_wlp {A} (c : M A) (Q Q' : A -> machine W -> Prop) m :
  wp c Q m -> wlp c Q' m -> wp c (fun x m' => Q x m' /\ Q' x m') m.
Proof.
  intros (x & m' & Hc & HQ) H. exists x, m'.
  split; [exact Hc |]. split; [exact HQ | apply H, Hc].
Qed.

Ltac wlp_step :=
  lazymatch goal with
  | |- wlp (bind _ _) _ _ => apply wlp_bind
  | |- wlp (ret _) _ _ => apply wlp_ret
  | |- wlp (gets _) _ _ => apply wlp_gets
  | |- wlp (modify _) _ _ => apply wlp_modify
  | |- wlp (call _ _) _ _ => apply wlp_call
  | |- wlp (call_void _ _) _ _ => apply wlp_call_void
  | |- wlp call_millis _ _ => apply wlp_call_millis
  | |- wlp (AORESULT_ASSERT _) _ _ => apply wlp_assert; intros ?
  | |- wlp current_app _ _ => apply wlp_current_app; intros ? ?
  | |- wlp (call_ptr _ _) _ _ => apply wlp_call_ptr; intros ? ?
  | |- wlp (call_ptr_void _ _) _ _ => apply wlp_call_ptr_void; intros ? ?
  | |- wlp (undefined_behaviour _) _ _ => apply wlp_undefined
  | |- @wlp _ _ (if ?b then _ else _) _ _ => destruct b eqn:?
  | |- @wlp _ _ (match ?x with _ => _ end) _ _ => destruct x eqn:?
  end; msimpl.

Ltac wlp_auto := repeat wlp_step.

Ltac msimpl_all :=
  cbn [aoapps_mngr_count aoapps_mngr_apps aoapps_mngr_appix aoapps_mngr_moderun
       aoapps_mngr_result aoapps_mngr_lastgrn aoapps_mngr_lastrepair
       aoapps_mngr_lasterror aoapps_mngr_state aoapps_mngr_error world trace
       with_count with_apps with_appix with_moderun with_result with_lastgrn
       with_lastrepair with_lasterror with_state with_error with_call fst snd] in *.

(** Closes a goal on the kept statics from the hypotheses on them. *)
Ltac same_tac :=
  unfold same_current in *; msimpl_all;
  repeat match goal with H : _ /\ _ |- _ => destruct H end;
  repeat split; congruence.

(** ** What the operations keep of the supervisor's statics *)

Lemma same_current_refl m : same_current m m.
Proof. repeat split. Qed.

Lemma wlp_showstatus (Q : unit -> machine W -> Prop) m :
  (forall m', same_current m m' -> aoapps_mngr_result m' = aoapps_mngr_result m ->
              Q tt m') ->
  wlp aoapps_mngr_showstatus Q m.
Proof.
  intros HQ. unfold aoapps_mngr_showstatus.
  wlp_auto; apply HQ; first [exact (same_current_refl m) | reflexivity].
Qed.

Lemma wlp_repair (Q : aoresult_t -> machine W -> Prop) m :
  (forall r m', same_current m m' -> Q r m') ->
  wlp aoapps_mngr_repair Q m.
Proof.
  intros HQ. unfold aoapps_mngr_repair.
  wlp_auto; apply HQ; exact (same_current_refl m).
Qed.

Lemma wlp_error_to_state (Q : unit -> machine W -> Prop) m :
  (forall m', same_current m m' -> Q tt m') -> wlp error_to_state Q m.
Proof.
  intros HQ. unfold error_to_state.
  wlp_auto; apply HQ; exact (same_current_refl m).
Qed.

Lemma wlp_stepwithtopo (Q : aoresult_t -> machine W -> Prop) m :
  (forall r m', same_current m m' -> Q r m') ->
  wlp aoapps_mngr_stepwithtopo Q m.
Proof.
  intros HQ. unfold aoapps_mngr_stepwithtopo.
  repeat first [wlp_step | apply wlp_error_to_state; intros ? ?].
  all: apply HQ; same_tac.
Qed.

Lemma wlp_startwithtopo (Q : aoresult_t -> machine W -> Prop) m :
  (forall r m', same_current m m' -> Q r m') ->
  wlp aoapps_mngr_startwithtopo Q m.
Proof.
  intros HQ. unfold aoapps_mngr_startwithtopo.
  wlp_auto. apply HQ. exact (same_current_refl m).
Qed.

Ltac range_tac :=
  repeat match goal with
         | H : (_ && _) = true |- _ => apply andb_true_iff in H; destruct H
         | H : (_ <=? _) = true |- _ => apply Z.leb_le in H
         | H : (_ <? _) = true |- _ => apply Z.ltb_lt in H
         | H : negb _ = true |- _ => apply negb_true_iff in H
         | H : (_ =? _) = false |- _ => apply Z.eqb_neq in H
         | H : (_ =? _) = true |- _ => apply Z.eqb_eq in H
         end.

Lemma wlp_start ix (Q : unit -> machine W -> Prop) m :
  (forall m',
     aoapps_mngr_count m' = aoapps_mngr_count m ->
     aoapps_mngr_apps m' = aoapps_mngr_apps m ->
     aoapps_mngr_appix m' = ix ->
     0 <= ix < aoapps_mngr_count m ->
     aoapps_mngr_moderun m' = 1 ->
     Q tt m') ->
  wlp (aoapps_mngr_start ix) Q m.
Proof.
  intros HQ. unfold aoapps_mngr_start.
  repeat first
    [ wlp_step
    | apply wlp_startwithtopo; intros ? ? ?
    | apply wlp_showstatus; intros ? ? ? ].
  all: range_tac; apply HQ; first [lia | same_tac].
Qed.

Lemma wlp_stop (Q : unit -> machine W -> Prop) m :
  (forall m',
     aoapps_mngr_count m' = aoapps_mngr_count m ->
     aoapps_mngr_apps m' = aoapps_mngr_apps m ->
     aoapps_mngr_appix m' = aoapps_mngr_appix m ->
     aoapps_mngr_moderun m <> 0 ->
     aoapps_mngr_moderun m' = 0 ->
     Q tt m') ->
  wlp aoapps_mngr_stop Q m.
Proof.
  intros HQ. unfold aoapps_mngr_stop. wlp_auto.
  range_tac. apply HQ; first [assumption | reflexivity].
Qed.

Lemma wlp_switch ix (Q : unit -> machine W -> Prop) m :
  (forall m',
     aoapps_mngr_count m' = aoapps_mngr_count m ->
     aoapps_mngr_apps m' = aoapps_mngr_apps m ->
     aoapps_mngr_appix m' = ix ->
     0 <= ix < aoapps_mngr_count m ->
     aoapps_mngr_moderun m' = 1 ->
     Q tt m') ->
  wlp (aoapps_mngr_switch ix) Q m.
Proof.
  intros HQ. unfold aoapps_mngr_switch.
  apply wlp_bind, wlp_stop. intros m1 E1 E2 _ _ _.
  apply wlp_start. intros m' F1 F2 F3 F4 F5.
  apply HQ; congruence.
Qed.

Lemma wlp_switchnext (Q : unit -> machine W -> Prop) m :
  (forall m',
     aoapps_mngr_count m' = aoapps_mngr_count m ->
     aoapps_mngr_apps m' = aoapps_mngr_apps m ->
     0 <= aoapps_mngr_appix m' < aoapps_mngr_count m ->
     aoapps_mngr_moderun m' = 1 ->
     Q tt m') ->
  wlp aoapps_mngr_switchnext Q m.
Proof.
  intros HQ. unfold aoapps_mngr_switchnext, c_rem. wlp_auto.
  apply wlp_switch. intros m' F1 F2 F3 F4 F5.
  apply HQ; congruence.
Qed.

Lemma wlp_step (Q : unit -> machine W -> Prop) m :
  (forall m',
     aoapps_mngr_count m' = aoapps_mngr_count m ->
     aoapps_mngr_apps m' = aoapps_mngr_apps m ->
     aoapps_mngr_appix m' = aoapps_mngr_appix m \/
       0 <= aoapps_mngr_appix m' < aoapps_mngr_count m ->
     aoapps_mngr_moderun m <> 0 ->
     aoapps_mngr_moderun m' <> 0 ->
     Q tt m') ->
  wlp aoapps_mngr_step Q m.
Proof.
  intros HQ. unfold aoapps_mngr_step.
  repeat first
    [ wlp_step
    | apply wlp_switchnext; intros ? ? ? ? ?
    | apply wlp_stepwithtopo; intros ? ? ?
    | apply wlp_repair; intros ? ? ?
    | apply wlp_showstatus; intros ? ? ? ].
  all: range_tac; apply HQ;
    first [ assumption
          | right; assumption
          | left; same_tac
          | same_tac
          | unfold same_current in *; msimpl_all;
            repeat match goal with H : _ /\ _ |- _ => destruct H end; congruence ].
Qed.

Lemma registry_extends_same m m' :
  aoapps_mngr_count m' = aoapps_mngr_count m ->
  aoapps_mngr_apps m' = aoapps_mngr_apps m ->
  registry_extends m m'.
Proof. intros Hc Ha. unfold registry_extends. rewrite Hc, Ha. split; [lia | trivial]. Qed.

Lemma registry_extends_trans m1 m2 m3 :
  registry_extends m1 m2 -> registry_extends m2 m3 -> registry_extends m1 m3.
Proof.
  intros [Hc Ha] [Hc' Ha']. split; [lia |].
  intros i Hi. rewrite Ha' by lia. apply Ha, Hi.
Qed.

Lemma wf_same m m' :
  wf m ->
  aoapps_mngr_count m' = aoapps_mngr_count m ->
  aoapps_mngr_apps m' = aoapps_mngr_apps m ->
  0 <= aoapps_mngr_appix m' < aoapps_mngr_count m ->
  wf m'.
Proof.
  intros (Hcount & _ & Hlen & Hall) Hc Ha Hix.
  unfold wf. rewrite Hc, Ha. repeat split; try assumption; lia.
Qed.

Lemma register_extends m m' a :
  wf m -> register_app a m = Ok (tt, m') -> registry_extends m m'.
Proof.
  intros (Hcount & _ & Hlen & _).
  rewrite register_app_eq.
  destruct (register_checks (aoapps_mngr_count m) a); [| discriminate].
  unfold store_app. msimpl.
  destruct ((0 <=? aoapps_mngr_count m)
            && (aoapps_mngr_count m <? AOAPPS_MNGR_REGISTRATION_SLOTS)
            && (Z.to_nat (aoapps_mngr_count m) <? length (aoapps_mngr_apps m))%nat);
    [| discriminate].
  intros [= <-]. split; msimpl; [lia |].
  intros i Hi. apply list_lookup_insert_ne. lia.
Qed.

Lemma run_op_keeps m o m' :
  wf m -> run_op o m = Ok (tt, m') -> wf m' /\ registry_extends m m'.
Proof.
  intros Hwf Hrun. pose proof Hwf as (_ & Hix & _).
  destruct o as [a | ix | | | ix |]; cbn [run_op] in Hrun.
  - split; [apply (wf_register m m' a Hwf Hrun) | apply (register_extends m m' a Hwf Hrun)].
  - revert Hrun. apply (wlp_start ix (fun _ m' => wf m' /\ registry_extends m m')).
    intros m1 E1 E2 E3 E4 _.
    split; [apply (wf_same m); congruence | apply registry_extends_same; assumption].
  - revert Hrun. apply (wlp_step (fun _ m' => wf m' /\ registry_extends m m')).
    intros m1 E1 E2 E3 _ _.
    split; [| apply registry_extends_same; assumption].
    apply (wf_same m); try assumption. destruct E3 as [-> | E3]; assumption.
  - revert Hrun. apply (wlp_stop (fun _ m' => wf m' /\ registry_extends m m')).
    intros m1 E1 E2 E3 _ _.
    split; [apply (wf_same m); congruence | apply registry_extends_same; assumption].
  - revert Hrun. apply (wlp_switch ix (fun _ m' => wf m' /\ registry_extends m m')).
    intros m1 E1 E2 E3 E4 _.
    split; [apply (wf_same m); congruence | apply registry_extends_same; assumption].
  - revert Hrun. apply (wlp_switchnext (fun _ m' => wf m' /\ registry_extends m m')).
    intros m1 E1 E2 E3 _.
    split; [apply (wf_same m); congruence | apply registry_extends_same; assumption].
Qed.

(** X1: whatever sequence of registrations, starts, steps, stops and
    switches a sketch runs after init, if the calls return, the registry is
    still in order (1 to 8 apps with their mandatory handlers, the current
    index naming a registered app), no app was unregistered and no
    registered descriptor was changed. *)
Theorem operations_keep_registry (os : list operation) m m' :
  wf m -> run_ops os m = Ok (tt, m') -> wf m' /\ registry_extends m m'.
Proof.
  revert m. induction os as [| o os IH]; intros m Hwf.
  - intros [= <-]. split; [exact Hwf | apply registry_extends_same; reflexivity].
  - cbn [run_ops]. unfold bind.
    destruct (run_op o m) as [[[] m1] | |] eqn:Ho; try discriminate.
    intros Hrest.
    destruct (run_op_keeps m o m1 Hwf Ho) as [Hwf1 Hext1].
    destruct (IH m1 Hwf1 Hrest) as [Hwf' Hext'].
    split; [exact Hwf' | apply (registry_extends_trans m m1 m'); assumption].
Qed.

(** ** Initialisation *)

(** X2: [aoapps_mngr_init()] on an array of 8 slots returns, after reading
    the clock three times, with the registry in order: one app, the void
    app in slot 0 (no flags, no configuration), current and not running,
    no error latched; the other slots are untouched. *)
Theorem init_puts_registry_in_order m :
  length (aoapps_mngr_apps m) = Z.to_nat AOAPPS_MNGR_REGISTRATION_SLOTS ->
  exists m' v,
    aoapps_mngr_init m = Ok (tt, m') /\
    wf m' /\
    aoapps_mngr_app_count m' = 1 /\
    aoapps_mngr_app_appix m' = 0 /\
    aoapps_mngr_app_running m' = 0 /\
    aoapps_mngr_result m' = aoresult_ok /\
    aoapps_mngr_apps m' !! 0%nat = Some v /\
    name v = Some "voidapp"%string /\
    flags v = AOAPPS_MNGR_FLAGS_NONE /\
    cmd v = None /\
    (forall i, i <> 0%nat -> aoapps_mngr_apps m' !! i = aoapps_mngr_apps m !! i) /\
    trace m' = trace m ++ [EvMillis; EvMillis; EvMillis].
Proof.
  intros Hlen.
  destruct (aoapps_mngr_apps m) as [| a0 apps] eqn:Happs; [discriminate Hlen |].
  unfold aoapps_mngr_init, bind, modify, aoapps_mngr_voidapp_register.
  pose (v := App (Some "voidapp"%string) (Some "USB command"%string)
                 (Some "--"%string) (Some "--"%string) 0
                 (Some aoapps_mngr_voidapp_start) (Some aoapps_mngr_voidapp_step)
                 (Some aoapps_mngr_voidapp_stop) None None : aoapps_mngr_app_t W).
  change (aoapps_mngr_register _ _ _ _ _ _ _ _ _ _) with (register_app v).
  rewrite register_app_eq. msimpl.
  change (register_checks 0 _) with true. cbn iota.
  unfold store_app. msimpl. rewrite Happs.
  cbn [Z.leb Z.ltb Z.compare AOAPPS_MNGR_REGISTRATION_SLOTS andb Z.to_nat length
       Nat.ltb Nat.leb].
  change (Z.to_nat 0) with 0%nat. cbn [Nat.leb].
  unfold call_millis, bind, call, ret. msimpl.
  destruct (millis (world m)) as [t1 w1]. msimpl.
  destruct (millis w1) as [t2 w2]. msimpl.
  destruct (millis w2) as [t3 w3].
  eexists _, v.
  split; [reflexivity |].
  unfold aoapps_mngr_app_count, aoapps_mngr_app_appix, aoapps_mngr_app_running.
  msimpl.
  split. { unfold wf. msimpl. cbn in Hlen |- *. repeat split; try lia; congruence. }
  do 8 (split; [reflexivity |]).
  split; [| rewrite <- !app_assoc; reflexivity].
  intros [| i] Hi; [contradiction Hi; reflexivity | reflexivity].
Qed.

(** ** Calls out of state *)

(** X3: [aoapps_mngr_start(appix)] ends in a failed assertion when an app
    is already running or when [appix] is not the index of a registered
    app (negative, or not below the count). *)
Theorem start_out_of_state ix m :
  aoapps_mngr_moderun m <> 0 \/ ix < 0 \/ aoapps_mngr_count m <= ix ->
  aoapps_mngr_start ix m = AssertFailed.
Proof.
  intros H. unfold aoapps_mngr_start, bind, gets, AORESULT_ASSERT.
  destruct (Z.ltb_spec 0 (aoapps_mngr_count m)) as [Hc | Hc]; [| reflexivity].
  destruct (Z.eqb_spec (aoapps_mngr_moderun m) 0) as [Hr | Hr]; [| reflexivity].
  destruct (Z.leb_spec 0 ix) as [H0 | H0]; [| reflexivity].
  destruct (Z.ltb_spec ix (aoapps_mngr_count m)) as [H1 | H1]; [| reflexivity].
  exfalso. destruct H as [H | [H | H]]; [contradiction | lia | lia].
Qed.

(** X4: with no app running, stepping, stopping and switching end in a
    failed assertion (switching to the next app too, unless the void app is
    the only one, where the division by zero comes first). *)
Theorem stopped_rejects_step_stop_switch ix m :
  aoapps_mngr_moderun m = 0 ->
  aoapps_mngr_step m = AssertFailed /\
  aoapps_mngr_stop m = AssertFailed /\
  aoapps_mngr_switch ix m = AssertFailed /\
  (aoapps_mngr_count m <> 1 -> aoapps_mngr_switchnext m = AssertFailed).
Proof.
  intros Hrun.
  assert (Hstop : aoapps_mngr_stop m = AssertFailed).
  { unfold aoapps_mngr_stop, bind, gets, AORESULT_ASSERT. rewrite Hrun. reflexivity. }
  assert (Hswitch : forall j, aoapps_mngr_switch j m = AssertFailed).
  { intros j. unfold aoapps_mngr_switch, bind. rewrite Hstop. reflexivity. }
  split. { unfold aoapps_mngr_step, bind, gets, AORESULT_ASSERT. rewrite Hrun. reflexivity. }
  split; [exact Hstop |]. split; [apply Hswitch |].
  intros Hc. unfold aoapps_mngr_switchnext, bind, gets, c_rem.
  destruct (Z.eqb_spec (aoapps_mngr_count m - 1) 0) as [H0 | _]; [lia |].
  unfold ret. apply Hswitch.
Qed.

(** ** Starting and switching, seen from outside *)

Lemma status_no_app_start (evs : list event) :
  forallb is_status_event evs = true -> List.filter is_app_start evs = [].
Proof.
  induction evs as [| e evs IH]; [reflexivity |].
  cbn [forallb List.filter]. intros [He Hevs]%andb_true_iff.
  destruct e; try discriminate He; cbn; exact (IH Hevs).
Qed.

Lemma start_calls m ix a :
  0 < aoapps_mngr_count m <= AOAPPS_MNGR_REGISTRATION_SLOTS ->
  aoapps_mngr_moderun m = 0 ->
  0 <= ix < aoapps_mngr_count m ->
  aoapps_mngr_apps m !! Z.to_nat ix = Some a ->
  valid_app a = true ->
  wp (aoapps_mngr_start ix)
     (fun _ m' =>
        exists evs,
          trace m' =
            trace m ++
            [EvOledState (oled a) (xlbl a) (ylbl a);
             EvLedOff (Z.lor AOUI32_LED_GRN AOUI32_LED_RED);
             EvLedOn AOUI32_LED_GRN; EvMillis;
             if has_flag (flags a) AOAPPS_MNGR_FLAGS_WITHTOPO
             then EvTopoBuildStart else EvAppStart ix] ++ evs /\
          forallb is_status_event evs = true) m.
Proof.
  intros Hcount Hrun Hix Ha Hvalid.
  assert (Hstart : exists f, start a = Some f).
  { unfold valid_app in Hvalid. rewrite !andb_true_iff in Hvalid.
    destruct Hvalid as [[[_ Hs] _] _]. destruct (start a) as [f |]; [| discriminate].
    exists f. reflexivity. }
  destruct Hstart as [f Hf].
  assert (Hcur : forall m0, aoapps_mngr_appix m0 = ix ->
                            aoapps_mngr_apps m0 = aoapps_mngr_apps m ->
                            current_is m0 a).
  { intros m0 E1 E2. unfold current_is. rewrite E1, E2.
    unfold AOAPPS_MNGR_REGISTRATION_SLOTS in *. split; [lia | exact Ha]. }
  unfold aoapps_mngr_start. wp_auto.
  apply wp_assert; [apply Z.ltb_lt; lia |]. wp_auto.
  apply wp_assert; [rewrite Hrun; reflexivity |]. wp_auto.
  apply wp_assert; [apply andb_true_iff; split; [apply Z.leb_le | apply Z.ltb_lt]; lia |].
  wp_auto.
  apply (wp_current_app a); [apply Hcur; reflexivity |]. wp_auto.
  apply (wp_current_app a); [apply Hcur; reflexivity |]. wp_auto.
  destruct (has_flag (flags a) AOAPPS_MNGR_FLAGS_WITHTOPO) eqn:Htopo.
  - unfold aoapps_mngr_startwithtopo. wp_auto.
    apply (wp_showstatus a); [apply Hcur; reflexivity |].
    intros m' (_ & _ & _ & _ & _ & _ & _ & _ & evs & Etr & Hev).
    msimpl in Etr. exists evs. split; [| exact Hev].
    rewrite Etr, <- !app_assoc. reflexivity.
  - wp_auto.
    apply (wp_current_app a); [apply Hcur; reflexivity |]. wp_auto.
    rewrite Hf. unfold call_ptr. wp_auto.
    apply (wp_showstatus a); [apply Hcur; reflexivity |].
    intros m' (_ & _ & _ & _ & _ & _ & _ & _ & evs & Etr & Hev).
    msimpl in Etr. exists evs. split; [| exact Hev].
    rewrite Etr, <- !app_assoc. reflexivity.
Qed.

(** X5: with the registry in order and no app running, starting a
    registered app returns with that app current and running and the
    registry as before.  The start() of an app without topo build is
    called exactly once, in the world that the start prelude (display,
    LEDs, clock) left, and what that call returned is the latched result;
    for an app with topo build it is not called at all, the topology build
    is started instead and the latched result is ok. *)
Theorem start_makes_current m ix :
  wf m -> aoapps_mngr_moderun m = 0 -> 0 <= ix < aoapps_mngr_count m ->
  exists a m' evs,
    aoapps_mngr_apps m !! Z.to_nat ix = Some a /\
    aoapps_mngr_start ix m = Ok (tt, m') /\
    started m (world m) ix a [] m' /\
    trace m' = trace m ++ evs /\
    List.filter is_app_start evs =
      (if has_flag (flags a) AOAPPS_MNGR_FLAGS_WITHTOPO then [] else [EvAppStart ix]) /\
    (has_flag (flags a) AOAPPS_MNGR_FLAGS_WITHTOPO = true -> In EvTopoBuildStart evs).
Proof.
  intros Hwf Hrun Hix.
  pose proof Hwf as (Hcount & _).
  destruct (wf_app m ix Hwf Hix) as (a & Ha & Hv).
  assert (Hc : 0 < aoapps_mngr_count m <= AOAPPS_MNGR_REGISTRATION_SLOTS) by lia.
  destruct (start_spec m ix a Hc Hrun Hix Ha Hv) as ([] & m' & Heq & Hstarted).
  destruct (start_calls m ix a Hc Hrun Hix Ha Hv) as ([] & m'' & Heq' & evs & Htr & Hev).
  rewrite Heq in Heq'. injection Heq' as <-.
  exists a, m'. eexists. split; [exact Ha |]. split; [exact Heq |].
  split; [exact Hstarted |]. split; [exact Htr |].
  rewrite List.filter_app, (status_no_app_start evs Hev), app_nil_r.
  destruct (has_flag (flags a) AOAPPS_MNGR_FLAGS_WITHTOPO); cbn.
  - split; [reflexivity |]. intros _. do 4 right. left. reflexivity.
  - split; [reflexivity |]. intros H. discriminate H.
Qed.

(** X6: with the registry in order and an app running, switching to a
    registered app returns; the stop() of the outgoing app is the first
    call made, before the display shows the incoming app, which is then
    started as [aoapps_mngr_start] does, in the world that stop() left,
    and is current and running. *)
Theorem switch_stops_then_starts m ix :
  wf m -> aoapps_mngr_moderun m <> 0 -> 0 <= ix < aoapps_mngr_count m ->
  exists a0 f0 a m',
    current_is m a0 /\ stop a0 = Some f0 /\
    aoapps_mngr_apps m !! Z.to_nat ix = Some a /\
    aoapps_mngr_switch ix m = Ok (tt, m') /\
    started m (f0 (world m)) ix a [EvAppStop (aoapps_mngr_appix m)] m' /\
    wf m'.
Proof.
  intros Hwf Hrun Hix.
  destruct (switch_spec m ix Hwf Hrun Hix)
    as (a0 & f0 & a & Hcur0 & Hf0 & Ha & _ & [] & m' & Heq & Hs).
  exists a0, f0, a, m'. split; [exact Hcur0 |]. split; [exact Hf0 |].
  split; [exact Ha |]. split; [exact Heq |]. split; [exact Hs |].
  apply (wf_started m _ ix a _ m' Hwf Hix Hs).
Qed.

(** ** The "with topo" state machine, after the build *)

Lemma stepwithtopo_in_error m :
  aoapps_mngr_state m = AOAPPS_MNGR_STATE_ERROR ->
  aoapps_mngr_stepwithtopo m = Ok (aoapps_mngr_error m, m).
Proof.
  intros Hst. unfold aoapps_mngr_stepwithtopo, bind, gets. rewrite Hst. reflexivity.
Qed.

Lemma topo_steps_in_error m (n : nat) :
  aoapps_mngr_state m = AOAPPS_MNGR_STATE_ERROR ->
  topo_steps n m = Ok (aoapps_mngr_error m, m).
Proof.
  intros Hst. induction n as [| n IH]; [reflexivity |].
  cbn [topo_steps]. unfold bind. rewrite (stepwithtopo_in_error m Hst). exact IH.
Qed.

(** X7: ERROR is a final state of the "with topo" state machine: every
    step taken there returns the recorded error and changes nothing, for
    any number of steps: no handler of the app and no collaborator is
    called. *)
Theorem stepwithtopo_error_is_final m (n : nat) :
  aoapps_mngr_state m = AOAPPS_MNGR_STATE_ERROR ->
  aoapps_mngr_stepwithtopo m = Ok (aoapps_mngr_error m, m) /\
  topo_steps n m = Ok (aoapps_mngr_error m, m).
Proof.
  intros Hst. split; [apply stepwithtopo_in_error, Hst | apply topo_steps_in_error, Hst].
Qed.

(** X8: in APPANIM a step of the state machine calls the step() of the app
    once and returns its result.  An ok result keeps the machine in
    APPANIM; any other result is recorded and moves it to ERROR, from where
    all following steps return that result. *)
Theorem stepwithtopo_appanim m a (f : aoapps_mngr_step_t) r w1 :
  aoapps_mngr_state m = AOAPPS_MNGR_STATE_APPANIM ->
  current_is m a ->
  step a = Some f ->
  f (world m) = (r, w1) ->
  exists m',
    aoapps_mngr_stepwithtopo m = Ok (r, m') /\
    trace m' = trace m ++ [EvAppStep (aoapps_mngr_appix m)] /\
    world m' = w1 /\
    aoapps_mngr_error m' = r /\
    (r = aoresult_ok -> aoapps_mngr_state m' = AOAPPS_MNGR_STATE_APPANIM) /\
    (r <> aoresult_ok ->
       aoapps_mngr_state m' = AOAPPS_MNGR_STATE_ERROR /\
       forall n : nat, topo_steps n m' = Ok (r, m')).
Proof.
  intros Hst Hcur Hstep Hf.
  assert (Heq : aoapps_mngr_stepwithtopo m =
                Ok (r, (if r =? aoresult_ok then fun m => m
                        else with_state AOAPPS_MNGR_STATE_ERROR)
                         (with_error r
                            (with_call (EvAppStep (aoapps_mngr_appix m)) w1 m)))).
  { unfold aoapps_mngr_stepwithtopo, bind, gets. rewrite Hst.
    rewrite (current_app_ok m a Hcur), Hstep.
    unfold call_ptr, call. rewrite Hf.
    unfold modify, error_to_state, bind, gets. msimpl.
    destruct (r =? aoresult_ok); reflexivity. }
  eexists. split; [exact Heq |].
  destruct (Z.eqb_spec r aoresult_ok) as [-> | Hne]; msimpl.
  - split; [reflexivity |]. split; [reflexivity |]. split; [reflexivity |].
    split; [intros _; exact Hst | intros H; contradiction H; reflexivity].
  - split; [reflexivity |]. split; [reflexivity |]. split; [reflexivity |].
    split; [intros H; contradiction |].
    intros _. split; [reflexivity |].
    intros n.
    exact (topo_steps_in_error
             (with_state AOAPPS_MNGR_STATE_ERROR
                (with_error r (with_call (EvAppStep (aoapps_mngr_appix m)) w1 m)))
             n eq_refl).
Qed.

Lemma starts_since_trans k1 k2 m1 m2 m3 :
  starts_since k1 m1 m2 -> starts_since k2 m2 m3 -> starts_since (k1 + k2) m1 m3.
Proof.
  intros (evs & Ht & Hl) (evs' & Ht' & Hl'). exists (evs ++ evs'). split.
  - rewrite Ht', Ht, app_assoc. reflexivity.
  - rewrite List.filter_app, length_app. lia.
Qed.

Ltac starts_tac :=
  unfold starts_since; msimpl; eexists; split;
  [ rewrite <- ?app_assoc; first [reflexivity | symmetry; apply app_nil_r]
  | cbn; lia ].

Lemma stepwithtopo_after_build m :
  aoapps_mngr_state m <> AOAPPS_MNGR_STATE_TOPOBUILD ->
  wlp aoapps_mngr_stepwithtopo
      (fun _ m' => aoapps_mngr_state m' <> AOAPPS_MNGR_STATE_TOPOBUILD /\
                   starts_since 0 m m') m.
Proof.
  intros Hst. unfold aoapps_mngr_stepwithtopo, error_to_state.
  wlp_auto; try congruence.
  all: split; [first [discriminate | congruence] | starts_tac].
Qed.

Lemma stepwithtopo_during_build m :
  wlp aoapps_mngr_stepwithtopo
      (fun _ m' => (aoapps_mngr_state m' = AOAPPS_MNGR_STATE_TOPOBUILD /\
                    starts_since 0 m m') \/
                   (aoapps_mngr_state m' <> AOAPPS_MNGR_STATE_TOPOBUILD /\
                    starts_since 1 m m')) m.
Proof.
  unfold aoapps_mngr_stepwithtopo, error_to_state.
  wlp_auto.
  all: first
    [ left; split; [assumption | starts_tac]
    | right; split; [first [discriminate | congruence] | starts_tac] ].
Qed.

Lemma topo_steps_no_start (n : nat) m :
  aoapps_mngr_state m <> AOAPPS_MNGR_STATE_TOPOBUILD ->
  wlp (topo_steps n) (fun _ m' => starts_since 0 m m') m.
Proof.
  revert m. induction n as [| n IH]; intros m Hst; cbn [topo_steps].
  - apply wlp_gets. exists []. split; [symmetry; apply app_nil_r | cbn; lia].
  - apply wlp_bind.
    eapply wlp_mono; [| apply (stepwithtopo_after_build m Hst)].
    intros r1 m1 [Hst1 Hs1]. cbv beta.
    eapply wlp_mono; [| apply (IH m1 Hst1)].
    intros r2 m2 Hs2. apply (starts_since_trans 0 0 m m1 m2); assumption.
Qed.

(** X9: however many steps the "with topo" state machine takes, in
    whatever state it begins, the start() of the wrapped app is called at
    most once in all of them, and not at all once the machine has left
    TOPOBUILD. *)
Theorem topo_steps_start_at_most_once (n : nat) m r m' :
  topo_steps n m = Ok (r, m') ->
  starts_since 1 m m' /\
  (aoapps_mngr_state m <> AOAPPS_MNGR_STATE_TOPOBUILD -> starts_since 0 m m').
Proof.
  intros Hrun. split.
  - revert m r m' Hrun. induction n as [| n IH]; intros m r m'; cbn [topo_steps].
    + intros [= _ <-]. exists []. split; [symmetry; apply app_nil_r | cbn; lia].
    + unfold bind.
      destruct (aoapps_mngr_stepwithtopo m) as [[r1 m1] | |] eqn:E1; try discriminate.
      intros Hrest.
      destruct (stepwithtopo_during_build m r1 m1 E1) as [[Hst Hs] | [Hst Hs]].
      * apply (starts_since_trans 0 1 m m1 m'); [exact Hs | apply (IH m1 r m' Hrest)].
      * apply (starts_since_trans 1 0 m m1 m'); [exact Hs |].
        apply (topo_steps_no_start n m1 Hst r m' Hrest).
  - intros Hst. apply (topo_steps_no_start n m Hst r m' Hrun).
Qed.

(** ** A step that latches an error, a step that does not repair *)

(** X10: when the app-level operation of a step returns a result that is
    not ok, the step latches it: the result is stored, the time is recorded
    as the time of the error, the green LED is switched off and the red one
    on, and the error is reported on the serial port and on the OLED.  No
    repair telegram is sent, whatever the flags of the app. *)
Theorem step_latches_error m a r m1 t w2 :
  aoapps_mngr_moderun m <> 0 ->
  aoapps_mngr_result m = aoresult_ok ->
  current_is m a ->
  app_level_step a m = Ok (r, m1) ->
  r <> aoresult_ok ->
  millis (world m1) = (t, w2) ->
  exists m',
    aoapps_mngr_step m = Ok (tt, m') /\
    aoapps_mngr_result m' = r /\
    aoapps_mngr_lasterror m' = u32 t /\
    trace m' = trace m1 ++
      [EvMillis; EvLedOff AOUI32_LED_GRN; EvLedOn AOUI32_LED_RED;
       EvSerial (MsgErrorInApp (name a) r); EvOledMsg r] /\
    aoapps_mngr_appix m' = aoapps_mngr_appix m /\
    aoapps_mngr_moderun m' = aoapps_mngr_moderun m /\
    aoapps_mngr_lastrepair m' = aoapps_mngr_lastrepair m.
Proof.
  intros Hrun Hok Hcur Happ Hne Hmillis.
  destruct (app_level_step_frame a m r m1 Happ)
    as (_ & Happs & Hix & Hmode & _ & _ & Hrep & _).
  assert (Hcur1 : forall m0, aoapps_mngr_appix m0 = aoapps_mngr_appix m1 ->
                             aoapps_mngr_apps m0 = aoapps_mngr_apps m1 ->
                             current_is m0 a).
  { intros m0 E1 E2. apply (current_is_frame m); [congruence | congruence | exact Hcur]. }
  rewrite (step_running m a r m1 Hrun Hok Hcur Happ).
  pose proof Hne as Hne'. apply Z.eqb_neq in Hne'. rewrite Hne'.
  unfold bind at 1, ret at 1.
  unfold aoapps_mngr_showstatus, bind, gets. msimpl. rewrite Hne'. cbn [negb].
  unfold call_millis, bind, call, ret. msimpl. rewrite Hmillis.
  unfold modify, call_void. msimpl.
  rewrite (current_app_ok _ a) by (apply Hcur1; reflexivity). msimpl.
  eexists. split; [reflexivity |]. msimpl.
  split; [reflexivity |]. split; [reflexivity |].
  split; [rewrite <- !app_assoc; reflexivity |].
  split; [exact Hix |]. split; [exact Hmode | exact Hrep].
Qed.

(** X11: for an app without the WITHREPAIR flag, a step whose app-level
    operation returns ok sends no repair telegram: after the app-level
    operation it only shows the status (clock, heartbeat LED); the latch
    stays ok and the time of the last repair is not touched. *)
Theorem step_without_repair m a m1 :
  aoapps_mngr_moderun m <> 0 ->
  aoapps_mngr_result m = aoresult_ok ->
  current_is m a ->
  has_flag (flags a) AOAPPS_MNGR_FLAGS_WITHREPAIR = false ->
  app_level_step a m = Ok (aoresult_ok, m1) ->
  exists m' evs,
    aoapps_mngr_step m = Ok (tt, m') /\
    trace m' = trace m1 ++ evs /\
    forallb is_status_event evs = true /\
    aoapps_mngr_result m' = aoresult_ok /\
    aoapps_mngr_lastrepair m' = aoapps_mngr_lastrepair m /\
    aoapps_mngr_appix m' = aoapps_mngr_appix m.
Proof.
  intros Hrun Hok Hcur Hflag Happ.
  destruct (app_level_step_frame a m _ m1 Happ)
    as (_ & Happs & Hix & _ & _ & _ & Hrep & _).
  rewrite (step_running m a aoresult_ok m1 Hrun Hok Hcur Happ), Hflag.
  cbn [Z.eqb aoresult_ok]. unfold bind at 1, ret at 1.
  assert (Hcur1 : current_is (with_result 0 m1) a).
  { apply (current_is_frame m); [exact Hix | exact Happs | exact Hcur]. }
  destruct (showstatus_spec _ a Hcur1)
    as (m' & Hshow & _ & _ & Hix' & _ & Hres & Hrep' & _ & _ & evs & Htr & Hev).
  msimpl in Hix'. msimpl in Hres. msimpl in Hrep'. msimpl in Htr.
  exists m', evs. split; [exact Hshow |]. split; [exact Htr |].
  split; [exact Hev |]. split; [exact Hres |]. split; congruence.
Qed.

(** ** The "apps" command *)

Context `{C : CommandInterpreter W}.

Lemma wlp_app_at ix (Q : aoapps_mngr_app_t W -> machine W -> Prop) m :
  (forall a, 0 <= ix < AOAPPS_MNGR_REGISTRATION_SLOTS ->
             aoapps_mngr_apps m !! Z.to_nat ix = Some a -> Q a m) ->
  wlp (app_at ix) Q m.
Proof.
  intros H a m'. unfold app_at.
  destruct ((0 <=? ix) && (ix <? AOAPPS_MNGR_REGISTRATION_SLOTS)) eqn:Hr; [| discriminate].
  destruct (aoapps_mngr_apps m !! Z.to_nat ix) as [a0 |] eqn:Hl; [| discriminate].
  intros [= <- <-]. apply H; [| reflexivity].
  apply andb_true_iff in Hr. destruct Hr as [H1 H2].
  apply Z.leb_le in H1. apply Z.ltb_lt in H2. split; assumption.
Qed.

Lemma same_current_trans m1 m2 m3 :
  same_current m1 m2 -> same_current m2 m3 -> same_current m1 m3.
Proof. unfold same_current. intuition congruence. Qed.

Lemma same_current_world w m : same_current m (with_world w m).
Proof. repeat split. Qed.

Ltac cmd_step :=
  first
    [ wlp_step
    | lazymatch goal with
      | |- wlp (app_at _) _ _ => apply wlp_app_at; intros ? ? ?
      | |- wlp (print _) _ _ => unfold print
      | |- wlp (argv_at _ _) _ _ => unfold argv_at
      | |- wlp (name_matches _ _) _ _ => unfold name_matches
      | |- wlp (aoapps_mngr_app_name _) _ _ => unfold aoapps_mngr_app_name
      | |- wlp (aoapps_mngr_app_oled _) _ _ => unfold aoapps_mngr_app_oled
      end ].

Lemma wlp_listone ix (Q : unit -> machine W -> Prop) m :
  (forall m', same_current m m' -> Q tt m') ->
  wlp (aoapps_mngr_cmd_listone ix) Q m.
Proof.
  intros HQ. unfold aoapps_mngr_cmd_listone.
  repeat cmd_step. apply HQ, same_current_world.
Qed.

Lemma wlp_listall_loop (n : nat) ix (Q : unit -> machine W -> Prop) m :
  (forall m', same_current m m' -> Q tt m') ->
  wlp (listall_loop n ix) Q m.
Proof.
  revert ix m Q. induction n as [| n IH]; intros ix m Q HQ; cbn [listall_loop].
  - apply wlp_ret, HQ, same_current_refl.
  - apply wlp_bind, wlp_listone. intros m1 H1.
    apply IH. intros m2 H2. apply HQ, (same_current_trans m m1 m2); assumption.
Qed.

Lemma wlp_config_list_loop (n : nat) ix cnt (Q : Z -> machine W -> Prop) m :
  (forall r m', same_current m m' -> Q r m') ->
  wlp (config_list_loop n ix cnt) Q m.
Proof.
  revert ix cnt m Q. induction n as [| n IH]; intros ix cnt m Q HQ;
    cbn [config_list_loop].
  - apply wlp_ret, HQ, same_current_refl.
  - repeat cmd_step.
    all: apply IH; intros r' m' Hs'; apply HQ;
      refine (same_current_trans m _ m' _ Hs'); repeat split.
Qed.

Lemma wlp_config_app_loop argv arg (n : nat) ix cnt
    (Q : option Z -> machine W -> Prop) m :
  (forall r m', same_current m m' -> Q r m') ->
  wlp (config_app_loop argv arg n ix cnt) Q m.
Proof.
  revert ix cnt m Q. induction n as [| n IH]; intros ix cnt m Q HQ;
    cbn [config_app_loop].
  - apply wlp_ret, HQ, same_current_refl.
  - repeat cmd_step.
    all: first
      [ apply IH; intros r' m' Hs'; apply HQ;
        refine (same_current_trans m _ m' _ Hs'); repeat split
      | apply HQ; repeat split ].
Qed.

Lemma wlp_find_by_name arg (n : nat) ix (Q : Z -> machine W -> Prop) m :
  (forall r, (r = -1 \/ ix <= r < ix + Z.of_nat n) -> Q r m) ->
  wlp (find_by_name arg n ix) Q m.
Proof.
  revert ix Q. induction n as [| n IH]; intros ix Q HQ; cbn [find_by_name].
  - apply wlp_ret, HQ. left. reflexivity.
  - repeat cmd_step.
    + apply HQ. right. lia.
    + apply IH. intros r Hr. apply HQ. lia.
Qed.

Lemma wlp_cmd argv (Q : unit -> machine W -> Prop) m :
  (forall m',
     aoapps_mngr_count m' = aoapps_mngr_count m ->
     aoapps_mngr_apps m' = aoapps_mngr_apps m ->
     aoapps_mngr_appix m' = aoapps_mngr_appix m \/
       0 <= aoapps_mngr_appix m' < aoapps_mngr_count m ->
     Q tt m') ->
  wlp (aoapps_mngr_cmd argv) Q m.
Proof.
  intros HQ.
  assert (Hsame : forall m', same_current m m' -> Q tt m').
  { intros m' (E1 & E2 & E3 & _). apply HQ; [exact E1 | exact E2 | left; exact E3]. }
  assert (Hswitch : forall ix, wlp (switch_and_list argv ix) Q m).
  { intros ix. unfold switch_and_list.
    apply wlp_bind, wlp_switch. intros m1 E1 E2 E3 E4 _.
    repeat first [apply wlp_listone; intros m2 (F1 & F2 & F3 & _) | cmd_step].
    all: apply HQ; first [congruence | right; congruence | right; lia]. }
  unfold aoapps_mngr_cmd, aoapps_mngr_cmd_listall, aoapps_mngr_cmd_config.
  repeat first
    [ apply Hswitch
    | apply wlp_listone; intros ? ?
    | apply wlp_listall_loop; intros ? ?
    | apply wlp_config_list_loop; intros ? ? ?
    | apply wlp_config_app_loop; intros ? ? ?
    | apply wlp_find_by_name; intros ? ?
    | cmd_step ].
  all: apply Hsame; unfold with_world in *; same_tac.
Qed.

(** X12: whatever words the "apps" command is given, if its handler
    returns, the registry is still in order: no app was registered or
    unregistered, no descriptor was changed, and the current index names a
    registered app. *)
Theorem cmd_keeps_registry (argv : list string) m m' :
  wf m ->
  aoapps_mngr_cmd argv m = Ok (tt, m') ->
  wf m' /\
  aoapps_mngr_app_count m' = aoapps_mngr_app_count m /\
  aoapps_mngr_apps m' = aoapps_mngr_apps m.
Proof.
  intros Hwf. pose proof Hwf as (_ & Hix & _).
  apply (wlp_cmd argv (fun _ m' => wf m' /\
          aoapps_mngr_count m' = aoapps_mngr_count m /\
          aoapps_mngr_apps m' = aoapps_mngr_apps m)).
  intros m1 E1 E2 E3. split; [| split; assumption].
  apply (wf_same m); try assumption. destruct E3 as [-> | E3]; assumption.
Qed.

Lemma listone_ok ix a m :
  0 <= ix < AOAPPS_MNGR_REGISTRATION_SLOTS ->
  aoapps_mngr_apps m !! Z.to_nat ix = Some a ->
  exists w', aoapps_mngr_cmd_listone ix m = Ok (tt, with_world w' m).
Proof.
  intros Hix Ha.
  unfold aoapps_mngr_cmd_listone, aoapps_mngr_app_name, aoapps_mngr_app_oled,
    bind, gets, ret, print, modify.
  rewrite !(app_at_ok ix m a Hix Ha). eexists. reflexivity.
Qed.

Lemma switch_and_list_ok argv0 rest n m :
  wf m -> aoapps_mngr_moderun m <> 0 -> 0 <= n < aoapps_mngr_count m ->
  exists m1 m',
    aoapps_mngr_switch n m = Ok (tt, m1) /\
    switch_and_list (argv0 :: rest) n m = Ok (tt, m') /\
    same_current m1 m' /\ trace m' = trace m1 /\
    aoapps_mngr_appix m' = n /\ aoapps_mngr_moderun m' = 1.
Proof.
  intros Hwf Hrun Hn. pose proof Hwf as (Hcount & _).
  destruct (switch_spec m n Hwf Hrun Hn)
    as (a0 & f0 & a & _ & _ & Ha & _ & [] & m1 & Hsw & E1 & E2 & E3 & E4 & _).
  assert (Ha1 : aoapps_mngr_apps m1 !! Z.to_nat n = Some a) by (rewrite E4; exact Ha).
  assert (Hn8 : 0 <= n < AOAPPS_MNGR_REGISTRATION_SLOTS)
    by (unfold AOAPPS_MNGR_REGISTRATION_SLOTS in *; lia).
  destruct (listone_ok n a m1 Hn8 Ha1) as [w' Hlist].
  unfold switch_and_list, bind. rewrite Hsw.
  unfold argv_at. cbn [lookup list_lookup ret].
  destruct (not_silent argv0).
  - exists m1, (with_world w' m1). split; [reflexivity |]. split; [exact Hlist |].
    split; [apply same_current_world |]. split; [reflexivity |]. split; assumption.
  - exists m1, m1. split; [reflexivity |]. split; [reflexivity |].
    split; [apply same_current_refl |]. split; [reflexivity |]. split; assumption.
Qed.

(** X13: "apps switch <index>".  An index below 0 or not below the count
    is answered with an error text and nothing else happens: no assertion,
    no app stopped or started.  An index of a registered app, with an app
    running, is handed to [aoapps_mngr_switch]; the handler then only
    prints. *)
Theorem cmd_switch_by_index (argv0 argv1 argv2 : string) (n : Z) m :
  aocmd_cint_isprefix "list" argv1 = false ->
  aocmd_cint_isprefix "switch" argv1 = true ->
  aocmd_cint_parse_dec argv2 = Some n ->
  (n < 0 \/ aoapps_mngr_count m <= n ->
     aoapps_mngr_cmd [argv0; argv1; argv2] m =
     Ok (tt, with_world (Serial_printf_apps (AppsOutOfBounds n) (world m)) m)) /\
  (wf m -> aoapps_mngr_moderun m <> 0 -> 0 <= n < aoapps_mngr_count m ->
     exists m1 m',
       aoapps_mngr_switch n m = Ok (tt, m1) /\
       aoapps_mngr_cmd [argv0; argv1; argv2] m = Ok (tt, m') /\
       same_current m1 m' /\ trace m' = trace m1 /\
       aoapps_mngr_appix m' = n /\ aoapps_mngr_moderun m' = 1).
Proof.
  intros Hlist Hswitch Hparse.
  assert (Hcmd : aoapps_mngr_cmd [argv0; argv1; argv2] m =
                 if (n <? 0) || (aoapps_mngr_count m <=? n)
                 then print (AppsOutOfBounds n) m
                 else switch_and_list [argv0; argv1; argv2] n m).
  { unfold aoapps_mngr_cmd. cbn [length Nat.eqb negb].
    unfold bind at 1, argv_at at 1. cbn [lookup list_lookup ret].
    rewrite Hlist, Hswitch.
    unfold bind at 1, argv_at at 1. cbn [lookup list_lookup ret].
    rewrite Hparse. unfold bind at 1, gets, aoapps_mngr_app_count.
    destruct ((n <? 0) || (aoapps_mngr_count m <=? n)); reflexivity. }
  rewrite Hcmd. split.
  - intros Hout.
    replace ((n <? 0) || (aoapps_mngr_count m <=? n)) with true; [reflexivity |].
    symmetry. apply orb_true_iff.
    destruct Hout; [left; apply Z.ltb_lt | right; apply Z.leb_le]; assumption.
  - intros Hwf Hrun Hn.
    replace ((n <? 0) || (aoapps_mngr_count m <=? n)) with false.
    + apply (switch_and_list_ok argv0 [argv1; argv2] n m Hwf Hrun Hn).
    + symmetry. apply orb_false_iff.
      split; [apply Z.ltb_ge | apply Z.leb_gt]; lia.
Qed.

Lemma name_matches_ok arg j m :
  wf m -> 0 <= j < aoapps_mngr_count m ->
  exists b, name_matches j arg m = Ok (b, m) /\ (b = true <-> matches_at m arg j).
Proof.
  intros Hwf Hj. pose proof Hwf as (Hcount & _).
  destruct (wf_app m j Hwf Hj) as (a & Ha & Hv).
  unfold valid_app in Hv. rewrite !andb_true_iff in Hv.
  destruct Hv as [[[[[[Hn _] _] _] _] _] _].
  destruct (name a) as [nm |] eqn:Hname; [| discriminate].
  exists (aocmd_cint_isprefix nm arg). split.
  - unfold name_matches, aoapps_mngr_app_name, bind.
    rewrite (app_at_ok j m a);
      [| unfold AOAPPS_MNGR_REGISTRATION_SLOTS in *; lia | exact Ha].
    unfold ret. rewrite Hname. reflexivity.
  - split.
    + intros Hb. exists a, nm. repeat split; assumption.
    + intros (a' & nm' & Ha' & Hn' & Hb). congruence.
Qed.

Lemma find_by_name_none arg m :
  wf m ->
  forall (n : nat) ix,
    0 <= ix -> ix + Z.of_nat n <= aoapps_mngr_count m ->
    (forall j, ix <= j < ix + Z.of_nat n -> ~ matches_at m arg j) ->
    find_by_name arg n ix m = Ok (-1, m).
Proof.
  intros Hwf. induction n as [| n IH]; intros ix Hix Hn Hnone; [reflexivity |].
  cbn [find_by_name]. unfold bind.
  destruct (name_matches_ok arg ix m Hwf) as (b & Hb & Hiff); [lia |].
  rewrite Hb. destruct b.
  - exfalso. apply (Hnone ix); [lia | apply Hiff; reflexivity].
  - apply IH; [lia | lia |]. intros j Hj. apply Hnone. lia.
Qed.

Lemma find_by_name_first arg m :
  wf m ->
  forall (n : nat) ix k,
    0 <= ix -> ix <= k < ix + Z.of_nat n -> ix + Z.of_nat n <= aoapps_mngr_count m ->
    matches_at m arg k ->
    (forall j, ix <= j < k -> ~ matches_at m arg j) ->
    find_by_name arg n ix m = Ok (k, m).
Proof.
  intros Hwf. induction n as [| n IH]; intros ix k Hix Hk Hn Hmatch Hfirst; [lia |].
  cbn [find_by_name]. unfold bind.
  destruct (name_matches_ok arg ix m Hwf) as (b & Hb & Hiff); [lia |].
  rewrite Hb. destruct b.
  - destruct (Z.eq_dec ix k) as [-> | Hne]; [reflexivity |].
    exfalso. apply (Hfirst ix); [lia | apply Hiff; reflexivity].
  - assert (ix <> k).
    { intros ->. apply Hiff in Hmatch. discriminate. }
    apply IH; [lia | lia | lia | exact Hmatch |]. intros j Hj. apply Hfirst. lia.
Qed.

(** X14: "apps switch <name>", the word not being a number.  With the
    registry in order, the first app, in registration order, whose name the
    word matches (as [aocmd_cint_isprefix] decides) is handed to
    [aoapps_mngr_switch]; the handler then only prints: the calls made are
    those of that switch.  When no registered name matches, it prints an
    error text and nothing else happens. *)
Theorem cmd_switch_by_name (argv0 argv1 argv2 : string) m :
  aocmd_cint_isprefix "list" argv1 = false ->
  aocmd_cint_isprefix "switch" argv1 = true ->
  aocmd_cint_parse_dec argv2 = None ->
  wf m ->
  ((forall j, 0 <= j < aoapps_mngr_count m -> ~ matches_at m argv2 j) ->
     aoapps_mngr_cmd [argv0; argv1; argv2] m =
     Ok (tt, with_world (Serial_printf_apps (AppsNoAppWithName argv2) (world m)) m)) /\
  (forall k,
     0 <= k < aoapps_mngr_count m ->
     matches_at m argv2 k ->
     (forall j, 0 <= j < k -> ~ matches_at m argv2 j) ->
     aoapps_mngr_moderun m <> 0 ->
     exists m1 m',
       aoapps_mngr_switch k m = Ok (tt, m1) /\
       aoapps_mngr_cmd [argv0; argv1; argv2] m = Ok (tt, m') /\
       same_current m1 m' /\ trace m' = trace m1 /\
       aoapps_mngr_appix m' = k /\ aoapps_mngr_moderun m' = 1).
Proof.
  intros Hlist Hswitch Hparse Hwf. pose proof Hwf as (Hcount & _).
  assert (Hcmd : aoapps_mngr_cmd [argv0; argv1; argv2] m =
                 (let* appix := find_by_name argv2 (Z.to_nat (aoapps_mngr_count m)) 0 in
                  if appix =? -1 then print (AppsNoAppWithName argv2)
                  else switch_and_list [argv0; argv1; argv2] appix) m).
  { unfold aoapps_mngr_cmd. cbn [length Nat.eqb negb].
    unfold bind at 1, argv_at at 1. cbn [lookup list_lookup ret].
    rewrite Hlist, Hswitch.
    unfold bind at 1, argv_at at 1. cbn [lookup list_lookup ret].
    rewrite Hparse. unfold bind at 1, gets, aoapps_mngr_app_count. reflexivity. }
  rewrite Hcmd. unfold bind. split.
  - intros Hnone.
    rewrite (find_by_name_none argv2 m Hwf); [reflexivity | lia | lia |].
    intros j Hj. apply Hnone. lia.
  - intros k Hk Hmatch Hfirst Hrun.
    rewrite (find_by_name_first argv2 m Hwf _ 0 k); [| lia | lia | lia | exact Hmatch |].
    + replace (k =? -1) with false by (symmetry; apply Z.eqb_neq; lia).
      apply (switch_and_list_ok argv0 [argv1; argv2] k m Hwf Hrun Hk).
    + intros j Hj. apply Hfirst. lia.
Qed.

End Properties.

(** * Properties of the stock apps *)

Section ProgRules.
Context {W S : Type}.

Lemma returns_ret {A} (x : A) (Q : A -> S -> W -> Prop) s w :
  Q x s w -> returns (pret x) Q s w.
Proof. intros HQ. exists x, s, w. split; [reflexivity | exact HQ]. Qed.

Lemma returns_bind {A B} (c : @prog W S A) (k : A -> @prog W S B)
    (Q : B -> S -> W -> Prop) s w :
  returns c (fun x s1 w1 => returns (k x) Q s1 w1) s w -> returns (pbind c k) Q s w.
Proof.
  intros (x & s1 & w1 & Hc & y & s2 & w2 & Hk & HQ).
  exists y, s2, w2. split; [| exact HQ]. unfold pbind. rewrite Hc. exact Hk.
Qed.

Lemma returns_static {A} (f : S -> A) (Q : A -> S -> W -> Prop) s w :
  Q (f s) s w -> returns (static f) Q s w.
Proof. intros HQ. exists (f s), s, w. split; [reflexivity | exact HQ]. Qed.

Lemma returns_assign (f : S -> S) (Q : unit -> S -> W -> Prop) s w :
  Q tt (f s) w -> returns (assign f) Q s w.
Proof. intros HQ. exists tt, (f s), w. split; [reflexivity | exact HQ]. Qed.

Lemma returns_ext {A} (f : W -> A * W) (Q : A -> S -> W -> Prop) s w :
  Q (fst (f w)) s (snd (f w)) -> returns (ext f) Q s w.
Proof.
  intros HQ. unfold returns, ext. cbn [fst snd].
  destruct (f w) as [x w1]. exists x, s, w1. split; [reflexivity | exact HQ].
Qed.

Lemma returns_ext_void (f : W -> W) (Q : unit -> S -> W -> Prop) s w :
  Q tt s (f w) -> returns (ext_void f) Q s w.
Proof. intros HQ. exists tt, s, (f w). split; [reflexivity | exact HQ]. Qed.

Lemma returns_passert (b : bool) (Q : unit -> S -> W -> Prop) s w :
  b = true -> Q tt s w -> returns (passert b) Q s w.
Proof. intros -> HQ. exists tt, s, w. split; [reflexivity | exact HQ]. Qed.

Lemma returns_mono {A} (c : @prog W S A) (Q Q' : A -> S -> W -> Prop) s w :
  (forall x s' w', Q x s' w' -> Q' x s' w') -> returns c Q s w -> returns c Q' s w.
Proof.
  intros HQQ (x & s' & w' & Hc & HQ). exists x, s', w'. split; [exact Hc | auto].
Qed.

End ProgRules.

Ltac prog_step :=
  lazymatch goal with
  | |- returns (pbind _ _) _ _ _ => apply returns_bind
  | |- returns (pret _) _ _ _ => apply returns_ret
  | |- returns (static _) _ _ _ => apply returns_static
  | |- returns (assign _) _ _ _ => apply returns_assign
  | |- returns (ext _) _ _ _ => apply returns_ext
  | |- returns (ext_void _) _ _ _ => apply returns_ext_void
  | |- @returns _ _ _ (if ?b then _ else _) _ _ _ => destruct b eqn:?
  end; cbv beta.

Ltac prog_auto := repeat prog_step.

(** ** runled *)

Section RunledProperties.
Import Runled.
Context {W : Type} `{X : Collaborators W} `{Y : Middleware W}.
Implicit Types (s : statics) (w : W).

Ltac rsimpl :=
  cbn [aoapps_runled_anim_tix aoapps_runled_anim_colorix aoapps_runled_anim_dir
       aoapps_runled_anim_ms aoapps_runled_buttons_ms aoapps_runled_dimdft
       set_tix set_colorix set_dir set_anim_ms set_buttons_ms set_dimdft fst snd] in *.

Ltac zbool :=
  repeat match goal with
         | H : (_ && _) = true |- _ => apply andb_true_iff in H; destruct H
         | H : (_ <=? _) = true |- _ => apply Z.leb_le in H
         | H : (_ <=? _) = false |- _ => apply Z.leb_gt in H
         | H : (_ <? _) = true |- _ => apply Z.ltb_lt in H
         | H : (_ <? _) = false |- _ => apply Z.ltb_ge in H
         | H : negb _ = true |- _ => apply negb_true_iff in H
         | H : negb _ = false |- _ => apply negb_false_iff in H
         | H : (_ =? _) = false |- _ => apply Z.eqb_neq in H
         | H : (_ =? _) = true |- _ => apply Z.eqb_eq in H
         end.

Lemma rgbs_at_ok ix :
  0 <= ix < AOAPPS_RUNLED_RGBS_SIZE ->
  exists c, rgbs_at (W := W) ix = pret c.
Proof.
  change AOAPPS_RUNLED_RGBS_SIZE with 5. intros Hix.
  assert (Hcases : ix = 0 \/ ix = 1 \/ ix = 2 \/ ix = 3 \/ ix = 4) by lia.
  destruct Hcases as [-> | [-> | [-> | [-> | ->]]]]; eexists; reflexivity.
Qed.

Lemma runled_anim_keeps s w :
  anim_ok s ->
  returns aoapps_runled_anim
    (fun _ s' _ =>
       anim_ok s' /\
       aoapps_runled_dimdft s' = aoapps_runled_dimdft s /\
       aoapps_runled_buttons_ms s' = aoapps_runled_buttons_ms s) s w.
Proof.
  intros (Htix & Hcol & Hdir).
  unfold aoapps_runled_anim, now. prog_auto; rsimpl.
  - split; [exact (conj Htix (conj Hcol Hdir)) | split; reflexivity].
  - destruct (rgbs_at_ok (aoapps_runled_anim_colorix s) Hcol) as [c ->].
    prog_auto; rsimpl; zbool; change AOAPPS_RUNLED_RGBS_SIZE with 5 in *.
    all: unfold anim_ok; rsimpl; change AOAPPS_RUNLED_RGBS_SIZE with 5;
      repeat split; try reflexivity; lia.
Qed.

Lemma runled_buttons_keeps s w :
  returns aoapps_runled_buttons_check
    (fun r s' _ =>
       r = aoresult_ok /\
       aoapps_runled_anim_tix s' = aoapps_runled_anim_tix s /\
       aoapps_runled_anim_colorix s' = aoapps_runled_anim_colorix s /\
       aoapps_runled_anim_dir s' = aoapps_runled_anim_dir s /\
       aoapps_runled_anim_ms s' = aoapps_runled_anim_ms s /\
       aoapps_runled_dimdft s' = aoapps_runled_dimdft s) s w.
Proof.
  unfold aoapps_runled_buttons_check, now. prog_auto; rsimpl.
  all: repeat split; reflexivity.
Qed.

Lemma runled_step_keeps s w :
  anim_ok s ->
  returns aoapps_runled_step
    (fun _ s' _ => anim_ok s' /\ aoapps_runled_dimdft s' = aoapps_runled_dimdft s) s w.
Proof.
  intros Hok. unfold aoapps_runled_step.
  apply returns_bind.
  eapply returns_mono; [| apply runled_buttons_keeps].
  intros r s1 w1 (-> & E1 & E2 & E3 & _ & E5). cbn [Z.eqb aoresult_ok negb].
  assert (Hok1 : anim_ok s1).
  { unfold anim_ok in *. rewrite E1, E2, E3. exact Hok. }
  apply returns_bind.
  eapply returns_mono; [| apply (runled_anim_keeps s1 w1 Hok1)].
  intros r s2 w2 (Hok2 & E6 & _). cbv beta.
  destruct (negb (r =? aoresult_ok)); apply returns_ret; split;
    first [exact Hok2 | congruence].
Qed.

Lemma runled_steps_keep (n : nat) s w :
  anim_ok s ->
  returns (runled_steps n)
    (fun _ s' _ => anim_ok s' /\ aoapps_runled_dimdft s' = aoapps_runled_dimdft s) s w.
Proof.
  revert s w. induction n as [| n IH]; intros s w Hok; cbn [runled_steps].
  - apply returns_ret. split; [exact Hok | reflexivity].
  - apply returns_bind.
    eapply returns_mono; [| apply (runled_step_keeps s w Hok)].
    intros r s1 w1 (Hok1 & E1). cbv beta.
    destruct (negb (r =? aoresult_ok)).
    + apply returns_ret. split; assumption.
    + eapply returns_mono; [| apply (IH s1 w1 Hok1)].
      intros r2 s2 w2 (Hok2 & E2). split; [exact Hok2 | congruence].
Qed.

(** X15: from statics in order (cursor not negative, color index within
    the palette of five, direction +1 or -1), any number of steps of the
    runled app return (until one reports an error) with the statics in
    order again.  In particular the palette is never indexed out of its
    bounds, and the dim level saved at the start is not touched. *)
Theorem runled_steps_keep_order (n : nat) s w :
  anim_ok s ->
  returns (runled_steps n)
    (fun _ s' _ => anim_ok s' /\ aoapps_runled_dimdft s' = aoapps_runled_dimdft s) s w.
Proof. apply runled_steps_keep. Qed.

(** X16: a run of the runled app, from start through any number of steps
    to stop, ends with the global dim level set back to the level that
    start read, whatever the buttons did to it in between. *)
Theorem runled_stop_restores_dim (n : nat) s w :
  let dim0 := fst (aomw_topo_dim_get (snd (millis (snd (millis w))))) in
  returns (aoapps_runled_start >>> runled_steps n >>> aoapps_runled_stop)
    (fun _ _ w' => exists w1, w' = aomw_topo_dim_set dim0 w1) s w.
Proof.
  intros dim0. unfold aoapps_runled_start, now. prog_auto. rsimpl.
  match goal with
  | |- returns _ _ ?s1 ?w1 =>
      assert (Hok : anim_ok s1)
        by (unfold anim_ok; rsimpl; change AOAPPS_RUNLED_RGBS_SIZE with 5;
            repeat split; try lia; left; reflexivity);
      eapply returns_mono; [| apply (runled_steps_keep n s1 w1 Hok)]
  end.
  intros r s2 w2 (_ & Edim). rsimpl. cbv beta.
  unfold aoapps_runled_stop. prog_auto.
  exists w2. rewrite Edim. reflexivity.
Qed.

(** X17: one frame of the runled animation.  Less than 25 ms after the
    last frame nothing is painted.  Otherwise the triplet under the cursor
    is painted in the current color; if that fails the error is returned
    and the cursor stays.  Then the cursor moves one triplet in its
    direction if that is on the chain; at either end it stays, the
    direction is reversed and the next color is taken, the first one after
    the last. *)
Theorem runled_anim_frame s w t1 w1 t2 w2 c r w3 n w4 :
  millis w = (t1, w1) ->
  millis w1 = (t2, w2) ->
  0 <= aoapps_runled_anim_colorix s < AOAPPS_RUNLED_RGBS_SIZE ->
  aoapps_runled_anim_rgbs !! Z.to_nat (aoapps_runled_anim_colorix s) = Some c ->
  aomw_topo_settriplet (aoapps_runled_anim_tix s) c w2 = (r, w3) ->
  aomw_topo_numtriplets w3 = (n, w4) ->
  let elapsed := u32 (u32 t1 - aoapps_runled_anim_ms s) in
  let new_tix := aoapps_runled_anim_tix s + aoapps_runled_anim_dir s in
  let s2 := set_anim_ms (u32 t2) s in
  let turned :=
    set_colorix ((aoapps_runled_anim_colorix s + 1) mod AOAPPS_RUNLED_RGBS_SIZE)
      (set_dir (- aoapps_runled_anim_dir s) s2) in
  (elapsed < AOAPPS_RUNLED_ANIM_MS ->
     aoapps_runled_anim (s, w) = Ok (aoresult_ok, (s, w1))) /\
  (AOAPPS_RUNLED_ANIM_MS <= elapsed -> r <> aoresult_ok ->
     aoapps_runled_anim (s, w) = Ok (r, (s2, w3))) /\
  (AOAPPS_RUNLED_ANIM_MS <= elapsed -> r = aoresult_ok -> 0 <= new_tix < n ->
     aoapps_runled_anim (s, w) = Ok (aoresult_ok, (set_tix new_tix s2, w4))) /\
  (AOAPPS_RUNLED_ANIM_MS <= elapsed -> r = aoresult_ok -> new_tix < 0 ->
     aoapps_runled_anim (s, w) = Ok (aoresult_ok, (turned, w3))) /\
  (AOAPPS_RUNLED_ANIM_MS <= elapsed -> r = aoresult_ok -> n <= new_tix -> 0 <= new_tix ->
     aoapps_runled_anim (s, w) = Ok (aoresult_ok, (turned, w4))).
Proof.
  intros Hm1 Hm2 Hcol Hc Hset Hn elapsed new_tix s2 turned.
  assert (Hrgb : rgbs_at (W := W) (aoapps_runled_anim_colorix s) = pret c).
  { unfold rgbs_at. destruct Hcol as [H0 H1].
    apply Z.leb_le in H0. apply Z.ltb_lt in H1. rewrite H0, H1, Hc. reflexivity. }
  assert (Hturn : forall w',
    (let+ dir := static aoapps_runled_anim_dir in
     assign (set_dir (- dir)) >>>
     let+ colorix := static aoapps_runled_anim_colorix in
     assign (set_colorix (colorix + 1)) >>>
     let+ colorix := static aoapps_runled_anim_colorix in
     if colorix =? AOAPPS_RUNLED_RGBS_SIZE then assign (set_colorix 0)
     else pret tt) (s2, w') = Ok (tt, (turned, w'))).
  { intros w'. subst turned s2. unfold pbind, static, assign, pret. rsimpl.
    change AOAPPS_RUNLED_RGBS_SIZE with 5 in *.
    destruct (Z.eqb_spec (aoapps_runled_anim_colorix s + 1) 5) as [E | E].
    - rewrite E. reflexivity.
    - rewrite Z.mod_small by lia. reflexivity. }
  assert (Hhead : aoapps_runled_anim (s, w) =
    if elapsed <? AOAPPS_RUNLED_ANIM_MS then Ok (aoresult_ok, (s, w1))
    else if negb (r =? aoresult_ok) then Ok (r, (s2, w3))
    else
      (let+ inside :=
         (if 0 <=? new_tix then
            let+ n := ext aomw_topo_numtriplets in pret (new_tix <? n)
          else pret false) in
       (if inside then assign (set_tix new_tix)
        else
          let+ dir := static aoapps_runled_anim_dir in
          assign (set_dir (- dir)) >>>
          let+ colorix := static aoapps_runled_anim_colorix in
          assign (set_colorix (colorix + 1)) >>>
          let+ colorix := static aoapps_runled_anim_colorix in
          if colorix =? AOAPPS_RUNLED_RGBS_SIZE then assign (set_colorix 0)
          else pret tt) >>>
       pret aoresult_ok) (s2, w3)).
  { unfold aoapps_runled_anim, now.
    unfold pbind at 1. unfold pbind at 1, ext at 1. cbn [fst snd]. rewrite Hm1.
    unfold pret at 1. unfold pbind at 1, static at 1. cbn [fst snd]. fold elapsed.
    destruct (elapsed <? AOAPPS_RUNLED_ANIM_MS); [reflexivity |].
    unfold pbind at 1. unfold pbind at 1, ext at 1. cbn [fst snd]. rewrite Hm2.
    unfold pret at 1. unfold pbind at 1, assign at 1. cbn [fst snd]. fold s2.
    unfold pbind at 1, static at 1. unfold pbind at 1, static at 1.
    subst s2. rsimpl. rewrite Hrgb.
    unfold pbind at 1, pret at 1. unfold pbind at 1, ext at 1. cbn [fst snd].
    rewrite Hset.
    destruct (negb (r =? aoresult_ok)); [reflexivity |].
    unfold pbind at 1, static at 1. unfold pbind at 1, static at 1. rsimpl.
    reflexivity. }
  rewrite Hhead.
  split; [intros H; apply Z.ltb_lt in H; rewrite H; reflexivity |].
  split.
  { intros H Hr. apply Z.ltb_ge in H. rewrite H.
    apply Z.eqb_neq in Hr. rewrite Hr. reflexivity. }
  split.
  { intros H -> [Hlo Hhi]. apply Z.ltb_ge in H. rewrite H. cbn [Z.eqb aoresult_ok negb].
    apply Z.leb_le in Hlo. apply Z.ltb_lt in Hhi.
    unfold pbind at 1. rewrite Hlo.
    unfold pbind at 1, ext at 1. cbn [fst snd]. rewrite Hn.
    unfold pret at 1. rewrite Hhi.
    unfold pbind, assign, pret. reflexivity. }
  split.
  { intros H -> Hneg. apply Z.ltb_ge in H. rewrite H. cbn [Z.eqb aoresult_ok negb].
    apply Z.leb_gt in Hneg.
    unfold pbind at 1. rewrite Hneg. unfold pret at 1.
    unfold pbind at 1. rewrite Hturn. reflexivity. }
  intros H -> Hout Hpos. apply Z.ltb_ge in H. rewrite H. cbn [Z.eqb aoresult_ok negb].
  apply Z.leb_le in Hpos. apply Z.ltb_ge in Hout.
  unfold pbind at 1. rewrite Hpos.
  unfold pbind at 1, ext at 1. cbn [fst snd]. rewrite Hn.
  unfold pret at 1. rewrite Hout.
  unfold pbind at 1. rewrite Hturn. reflexivity.
Qed.

(** X18: holding the X or Y button of the UI board, more than 200 ms after
    the last dim step: the runled app reads the global dim level and calls
    [aomw_topo_dim_set] with a level one step lower (X down) or higher (Y
    alone); the step is a quarter of the level read (rounded down) plus 1,
    so never 0: the level asked for is never the level read.  (What
    [aomw_topo_dim_set] makes of it is its own: the source says it clips.)
    The level read is not negative and its product with 256 fits an
    [int], as for every level up to 2^23 - 1. *)
Theorem runled_buttons_dim_step s w w1 w2 t w3 t' w4 dim w5 (x : bool) w6 :
  aoui32_but_wentdown (Z.lor AOUI32_BUT_X AOUI32_BUT_Y) w = (false, w1) ->
  aoui32_but_isdown (Z.lor AOUI32_BUT_X AOUI32_BUT_Y) w1 = (true, w2) ->
  millis w2 = (t, w3) ->
  AOAPPS_RUNLED_BUTTONS_MS < u32 (u32 t - aoapps_runled_buttons_ms s) ->
  millis w3 = (t', w4) ->
  aomw_topo_dim_get w4 = (dim, w5) ->
  0 <= dim ->
  dim * AOAPPS_RUNLED_BUTTONS_PERKIBI <= INT_MAX ->
  aoui32_but_isdown AOUI32_BUT_X w5 = (x, w6) ->
  let step := dim / 4 + 1 in
  let dim' := if x then dim - step else dim + step in
  1 <= step /\ dim' <> dim /\
  aoapps_runled_buttons_check (s, w) =
  Ok (aoresult_ok, (set_buttons_ms (u32 t') s, aomw_topo_dim_set dim' w6)).
Proof.
  intros Hwent Hdown Hm1 Hdue Hm2 Hdim Hpos _ Hx step dim'.
  assert (Hstep : Z.quot (dim * AOAPPS_RUNLED_BUTTONS_PERKIBI) 1024 + 1 = step).
  { subst step. unfold AOAPPS_RUNLED_BUTTONS_PERKIBI.
    rewrite Z.quot_div_nonneg by lia.
    change 1024 with (4 * 256).
    rewrite Z.div_mul_cancel_r by lia. reflexivity. }
  assert (Hstep1 : 1 <= step).
  { subst step. pose proof (Z.div_pos dim 4). lia. }
  split; [exact Hstep1 |]. split; [subst dim'; destruct x; lia |].
  unfold aoapps_runled_buttons_check, now.
  unfold pbind at 1, ext at 1. cbn [fst snd]. rewrite Hwent.
  unfold pbind at 1, pret at 1.
  unfold pbind at 1, ext at 1. cbn [fst snd]. rewrite Hdown.
  unfold pbind at 1. unfold pbind at 1. unfold pbind at 1, ext at 1. cbn [fst snd].
  rewrite Hm1. unfold pret at 1. unfold pbind at 1, static at 1. cbn [fst snd].
  apply Z.ltb_lt in Hdue. rewrite Hdue. unfold pret at 1.
  unfold pbind at 1. unfold pbind at 1. unfold pbind at 1, ext at 1. cbn [fst snd].
  rewrite Hm2. unfold pret at 1. unfold pbind at 1, assign at 1. cbn [fst snd].
  unfold pbind at 1, ext at 1. cbn [fst snd]. rewrite Hdim.
  unfold pbind at 1, ext at 1. cbn [fst snd]. rewrite Hx.
  rewrite Hstep. unfold ext_void, pbind, pret. cbn [fst snd]. reflexivity.
Qed.

End RunledProperties.

(** ** aniscript *)

Section AniscriptProperties.
Import Aniscript.
Context {W : Type} `{X : Collaborators W} `{Y : Middleware W}.
Implicit Types (s : statics) (w : W).

Ltac asimpl :=
  cbn [aoapps_aniscript_anim_frame_ms aoapps_aniscript_anim_ms
       aoapps_aniscript_buttons_ms set_frame_ms set_anim_ms set_buttons_ms
       fst snd] in *.

Ltac zbool :=
  repeat match goal with
         | H : (_ <=? _) = true |- _ => apply Z.leb_le in H
         | H : (_ <=? _) = false |- _ => apply Z.leb_gt in H
         | H : (_ <? _) = true |- _ => apply Z.ltb_lt in H
         | H : (_ <? _) = false |- _ => apply Z.ltb_ge in H
         | H : (_ =? _) = false |- _ => apply Z.eqb_neq in H
         | H : (_ =? _) = true |- _ => apply Z.eqb_eq in H
         end.

Lemma frame_step_pos (f : Z) :
  0 <= f -> 1 <= Z.quot (f * AOAPPS_ANISCRIPT_BUTTONS_PERKIBI) 1024 + 1.
Proof.
  intros Hf. unfold AOAPPS_ANISCRIPT_BUTTONS_PERKIBI.
  rewrite Z.quot_div_nonneg by lia.
  pose proof (Z.div_pos (f * 100) 1024). lia.
Qed.

(** X19: one pass of the aniscript button handling returns ok and leaves
    the frame time either as it is, or one step shorter but not below 1 ms,
    or one step longer but not above 2000 ms, the step being a tenth of the
    frame time, roughly (100/1024, rounded down), plus 1; the time of the
    last frame is not touched. *)
Theorem aniscript_buttons_frame_time s w :
  frame_ok s ->
  let f := aoapps_aniscript_anim_frame_ms s in
  let step := f * 100 / 1024 + 1 in
  returns aoapps_aniscript_buttons_check
    (fun r s' _ =>
       r = aoresult_ok /\
       frame_ok s' /\
       aoapps_aniscript_anim_ms s' = aoapps_aniscript_anim_ms s /\
       (aoapps_aniscript_anim_frame_ms s' = f \/
        aoapps_aniscript_anim_frame_ms s' = Z.max 1 (f - step) \/
        aoapps_aniscript_anim_frame_ms s' = Z.min 2000 (f + step))) s w.
Proof.
  intros Hok f step. subst f step. unfold frame_ok in Hok.
  assert (Hstep : Z.quot (aoapps_aniscript_anim_frame_ms s
                          * AOAPPS_ANISCRIPT_BUTTONS_PERKIBI) 1024 + 1 =
                  aoapps_aniscript_anim_frame_ms s * 100 / 1024 + 1).
  { unfold AOAPPS_ANISCRIPT_BUTTONS_PERKIBI.
    rewrite Z.quot_div_nonneg by lia. reflexivity. }
  pose proof (frame_step_pos (aoapps_aniscript_anim_frame_ms s)) as Hpos.
  rewrite Hstep in Hpos.
  unfold aoapps_aniscript_buttons_check, now. prog_auto; asimpl; zbool.
  all: rewrite ?Hstep in *; unfold frame_ok; asimpl.
  all: split; [reflexivity |]; split; [lia |]; split; [reflexivity |].
  all: first [left; reflexivity | right; left; lia | right; right; lia].
Qed.

Lemma aniscript_buttons_keep s w :
  frame_ok s ->
  returns aoapps_aniscript_buttons_check
    (fun r s' _ => r = aoresult_ok /\ frame_ok s') s w.
Proof.
  intros Hok. unfold frame_ok in Hok.
  pose proof (frame_step_pos (aoapps_aniscript_anim_frame_ms s)) as Hpos.
  unfold aoapps_aniscript_buttons_check, now. prog_auto; asimpl; zbool.
  all: unfold frame_ok; asimpl; split; [reflexivity | lia].
Qed.

Lemma aniscript_anim_keep s w :
  frame_ok s ->
  returns aoapps_aniscript_anim (fun _ s' _ => frame_ok s') s w.
Proof.
  intros Hok. unfold aoapps_aniscript_anim, now. prog_auto; asimpl; exact Hok.
Qed.

Lemma aniscript_step_keep s w :
  frame_ok s ->
  returns aoapps_aniscript_step (fun _ s' _ => frame_ok s') s w.
Proof.
  intros Hok. unfold aoapps_aniscript_step.
  apply returns_bind.
  eapply returns_mono; [| apply (aniscript_buttons_keep s w Hok)].
  intros r s1 w1 (-> & Hok1). cbn [Z.eqb aoresult_ok negb].
  apply returns_bind.
  eapply returns_mono; [| apply (aniscript_anim_keep s1 w1 Hok1)].
  intros r s2 w2 Hok2. cbv beta.
  destruct (negb (r =? aoresult_ok)); apply returns_ret; exact Hok2.
Qed.

(** X20: with a frame time between 1 ms and 2000 ms (start sets 100 ms),
    any number of steps of the aniscript app return (until one reports an
    error) with the frame time between 1 ms and 2000 ms: the buttons
    cannot stop the animation nor make the frame time negative. *)
Theorem aniscript_steps_keep_frame_time (n : nat) s w :
  frame_ok s ->
  returns (aniscript_steps n) (fun _ s' _ => frame_ok s') s w.
Proof.
  revert s w. induction n as [| n IH]; intros s w Hok; cbn [aniscript_steps].
  - apply returns_ret. exact Hok.
  - apply returns_bind.
    eapply returns_mono; [| apply (aniscript_step_keep s w Hok)].
    intros r s1 w1 Hok1. cbv beta.
    destruct (negb (r =? aoresult_ok)); [apply returns_ret; exact Hok1 |].
    apply (IH s1 w1 Hok1).
Qed.

(** X21: the EEPROM search of aniscript.  The result is ok exactly when
    the search for a stick is ok, or that search finds no device and the
    search for a built-in EEPROM is ok; the device address is then the one
    of the stick in the first case and of the built-in EEPROM in the
    second, with the node address that search gave.  The second search is
    made only when the first one finds no device; any other result of a
    search ends the function with that result, and the device address is
    then left at 0xFF. *)
Theorem aniscript_find_scheme s w r1 a1 w1 r2 a2 w2 :
  aoresult_dev_noi2cdev <> aoresult_ok ->
  aomw_topo_i2cfind AOMW_EEPROM_DADDR7_STICK 65535 w = ((r1, a1), w1) ->
  aomw_topo_i2cfind AOMW_EEPROM_DADDR7_SAIDBASIC a1 w1 = ((r2, a2), w2) ->
  exists res addr daddr7 w',
    aoapps_aniscript_find (s, w) = Ok ((res, addr, daddr7), (s, w')) /\
    (res = aoresult_ok <->
       r1 = aoresult_ok \/ (r1 = aoresult_dev_noi2cdev /\ r2 = aoresult_ok)) /\
    (r1 = aoresult_ok ->
       addr = a1 /\ daddr7 = AOMW_EEPROM_DADDR7_STICK /\ w' = w1) /\
    (r1 = aoresult_dev_noi2cdev -> r2 = aoresult_ok ->
       addr = a2 /\ daddr7 = AOMW_EEPROM_DADDR7_SAIDBASIC /\ w' = w2) /\
    (r1 <> aoresult_ok -> r1 <> aoresult_dev_noi2cdev ->
       res = r1 /\ daddr7 = 255 /\ w' = w1) /\
    (r1 = aoresult_dev_noi2cdev -> r2 <> aoresult_ok ->
       res = r2 /\ daddr7 = 255 /\ w' = w2).
Proof.
  intros Hne H1 H2.
  unfold aoapps_aniscript_find.
  unfold pbind at 1, ext at 1. cbn [fst snd]. rewrite H1. cbn [fst snd].
  destruct (Z.eqb_spec r1 aoresult_ok) as [E1 | E1].
  { eexists _, _, _, _. split; [reflexivity |].
    split; [split; [intros _; left; exact E1 | reflexivity] |].
    split; [intros _; repeat split |].
    split; [intros E; congruence |].
    split; [intros E; contradiction | intros E; congruence]. }
  destruct (Z.eqb_spec r1 aoresult_dev_noi2cdev) as [E1' | E1']; cbn [negb].
  2: { eexists _, _, _, _. split; [reflexivity |].
       split; [split; [intros E; contradiction | intros [E | [E _]]; contradiction] |].
       split; [intros E; contradiction |].
       split; [intros E; contradiction |].
       split; [intros _ _; repeat split | intros E; contradiction]. }
  unfold pbind at 1, ext at 1. cbn [fst snd]. rewrite H2. cbn [fst snd].
  destruct (Z.eqb_spec r2 aoresult_ok) as [E2 | E2].
  { eexists _, _, _, _. split; [reflexivity |].
    split; [split; [intros _; right; split; assumption | reflexivity] |].
    split; [intros E; contradiction |].
    split; [intros _ _; repeat split |].
    split; [intros _ E; contradiction | intros _ E; contradiction]. }
  destruct (Z.eqb_spec r2 aoresult_dev_noi2cdev) as [E2' | E2']; cbn [negb].
  - eexists _, _, _, _. split; [reflexivity |].
    split; [split; [intros E; congruence | intros [E | [_ E]]; contradiction] |].
    split; [intros E; contradiction |].
    split; [intros _ E; contradiction |].
    split; [intros _ E; contradiction |].
    intros _ _. split; [symmetry; exact E2' | split; reflexivity].
  - eexists _, _, _, _. split; [reflexivity |].
    split; [split; [intros E; contradiction | intros [E | [_ E]]; contradiction] |].
    split; [intros E; contradiction |].
    split; [intros _ E; contradiction |].
    split; [intros _ E; contradiction |].
    intros _ _. repeat split.
Qed.

End AniscriptProperties.

(** ** swflag *)

Section SwflagProperties.
Import Swflag.
Context {W : Type} `{X : Collaborators W} `{Y : Middleware W}
        `{C : CommandInterpreter W} `{F : FlagMiddleware W}.
Implicit Types (s : statics) (w : W).

Ltac ssimpl :=
  cbn [aomw_swflag_anim_pix aoapps_swflag_anim_ioxpresent aoapps_swflag_anim_flagix
       aoapps_swflag_anim_lastms aoapps_swflag_buttons_ms aoapps_swflag_dimdft
       set_pix set_ioxpresent set_flagix set_lastms set_buttons_ms set_dimdft
       fst snd] in *.

Ltac zbool :=
  repeat match goal with
         | H : (_ && _) = true |- _ => apply andb_true_iff in H; destruct H
         | H : (_ <=? _) = true |- _ => apply Z.leb_le in H
         | H : (_ <=? _) = false |- _ => apply Z.leb_gt in H
         | H : (_ <? _) = true |- _ => apply Z.ltb_lt in H
         | H : (_ <? _) = false |- _ => apply Z.ltb_ge in H
         | H : negb _ = true |- _ => apply negb_true_iff in H
         | H : negb _ = false |- _ => apply negb_false_iff in H
         | H : (_ =? _) = false |- _ => apply Z.eqb_neq in H
         | H : (_ =? _) = true |- _ => apply Z.eqb_eq in H
         end.

(** *** Looking up a flag by name *)

Lemma find_loop_range flag (n : nat) pix :
  find_loop flag n pix = -1 \/
  (pix <= find_loop flag n pix < pix + Z.of_nat n /\
   aocmd_cint_isprefix (aomw_flag_name (find_loop flag n pix)) flag = true /\
   forall q, pix <= q < find_loop flag n pix ->
             aocmd_cint_isprefix (aomw_flag_name q) flag = false).
Proof.
  revert pix. induction n as [| n IH]; intros pix; cbn [find_loop]; [left; reflexivity |].
  destruct (aocmd_cint_isprefix (aomw_flag_name pix) flag) eqn:Hp.
  - right. split; [lia |]. split; [exact Hp |]. intros q Hq. lia.
  - destruct (IH (pix + 1)) as [Hn | (Hr & Hm & Hfirst)]; [left; exact Hn |].
    right. split; [lia |]. split; [exact Hm |].
    intros q Hq. destruct (Z.eq_dec q pix) as [-> | Hne]; [exact Hp |].
    apply Hfirst. lia.
Qed.

Lemma find_loop_none flag (n : nat) pix :
  (forall q, pix <= q < pix + Z.of_nat n ->
             aocmd_cint_isprefix (aomw_flag_name q) flag = false) ->
  find_loop flag n pix = -1.
Proof.
  revert pix. induction n as [| n IH]; intros pix Hnone; cbn [find_loop]; [reflexivity |].
  rewrite (Hnone pix) by lia. apply IH. intros q Hq. apply Hnone. lia.
Qed.

Lemma find_loop_first flag (n : nat) pix p :
  pix <= p < pix + Z.of_nat n ->
  aocmd_cint_isprefix (aomw_flag_name p) flag = true ->
  (forall q, pix <= q < p -> aocmd_cint_isprefix (aomw_flag_name q) flag = false) ->
  find_loop flag n pix = p.
Proof.
  revert pix. induction n as [| n IH]; intros pix Hp Hm Hfirst; cbn [find_loop]; [lia |].
  destruct (Z.eq_dec pix p) as [-> | Hne].
  - rewrite Hm. reflexivity.
  - rewrite (Hfirst pix) by lia. apply IH; [lia | exact Hm |].
    intros q Hq. apply Hfirst. lia.
Qed.

Lemma find_loop_none_inv flag (n : nat) pix :
  0 <= pix ->
  find_loop flag n pix = -1 ->
  forall q, pix <= q < pix + Z.of_nat n ->
            aocmd_cint_isprefix (aomw_flag_name q) flag = false.
Proof.
  revert pix. induction n as [| n IH]; intros pix Hpix; cbn [find_loop]; [intros _ q Hq; lia |].
  destruct (aocmd_cint_isprefix (aomw_flag_name pix) flag) eqn:Hp; [lia |].
  intros Hnone q Hq. destruct (Z.eq_dec q pix) as [-> | Hne]; [exact Hp |].
  apply (IH (pix + 1)); [lia | exact Hnone | lia].
Qed.

(** X22: looking up a flag by name gives the index of the first flag of
    the list whose name the word matches, and -1 exactly when the word
    matches no name of the list; the result is never an index outside of
    the list. *)
Theorem swflag_cmd_find_first (flag : string) :
  0 <= aomw_flag_count ->
  (aoapps_swflag_cmd_find flag = -1 <->
     forall q, 0 <= q < aomw_flag_count ->
               aocmd_cint_isprefix (aomw_flag_name q) flag = false) /\
  (aoapps_swflag_cmd_find flag <> -1 -> names_flag flag (aoapps_swflag_cmd_find flag)) /\
  (forall p, names_flag flag p -> aoapps_swflag_cmd_find flag = p).
Proof.
  intros Hcount. unfold aoapps_swflag_cmd_find.
  pose proof (find_loop_range flag (Z.to_nat aomw_flag_count) 0) as Hr.
  rewrite Z2Nat.id in Hr by exact Hcount.
  split; [split |].
  - intros Hnone q Hq.
    apply (find_loop_none_inv flag (Z.to_nat aomw_flag_count) 0); [lia | exact Hnone | lia].
  - intros Hnone. apply find_loop_none. intros q Hq. apply Hnone. lia.
  - split.
    + intros Hne. destruct Hr as [Hr | (Hrange & Hm & Hfirst)]; [contradiction |].
      split; [lia |]. split; [exact Hm |]. intros q Hq. apply Hfirst. lia.
    + intros p (Hp & Hm & Hfirst). apply find_loop_first; [lia | exact Hm |].
      intros q Hq. apply Hfirst. lia.
Qed.

Lemma cmd_find_cases (flag : string) :
  0 <= aomw_flag_count ->
  aoapps_swflag_cmd_find flag = -1 \/
  0 <= aoapps_swflag_cmd_find flag < aomw_flag_count.
Proof.
  intros Hcount. unfold aoapps_swflag_cmd_find.
  destruct (find_loop_range flag (Z.to_nat aomw_flag_count) 0) as [Hr | (Hr & _)];
    [left; exact Hr | right].
  rewrite Z2Nat.id in Hr by exact Hcount. lia.
Qed.

Lemma names_flag_find (flag : string) p :
  names_flag flag p -> aoapps_swflag_cmd_find flag = p.
Proof.
  intros (Hp & Hm & Hfirst). unfold aoapps_swflag_cmd_find.
  apply find_loop_first; [lia | exact Hm |]. intros q Hq. apply Hfirst. lia.
Qed.

(** *** The configured flags *)

Lemma pix_at_ok ix s w :
  pix_ok s -> 0 <= ix < AOAPPS_SWFLAG_ANIM_NUMFLAGS ->
  exists p, pix_at ix (s, w) = Ok (p, (s, w)) /\ 0 <= p < aomw_flag_count /\
            aomw_swflag_anim_pix s !! Z.to_nat ix = Some p.
Proof.
  intros [Hlen Hall] Hix. unfold AOAPPS_SWFLAG_ANIM_NUMFLAGS in *.
  destruct (lookup_lt_is_Some_2 (aomw_swflag_anim_pix s) (Z.to_nat ix)) as [p Hp];
    [rewrite Hlen; lia |].
  exists p. split; [| split; [| exact Hp]].
  - unfold pix_at, pbind, static, pret. cbn [fst snd].
    destruct Hix as [H0 H1]. apply Z.leb_le in H0. apply Z.ltb_lt in H1.
    unfold AOAPPS_SWFLAG_ANIM_NUMFLAGS. rewrite H0, H1, Hp. reflexivity.
  - rewrite Forall_forall in Hall. apply Hall, (list_elem_of_lookup_2 _ _ _ Hp).
Qed.

Lemma returns_pix_at ix (Q : Z -> statics -> W -> Prop) s w :
  pix_ok s -> 0 <= ix < AOAPPS_SWFLAG_ANIM_NUMFLAGS ->
  (forall p, 0 <= p < aomw_flag_count -> Q p s w) ->
  returns (pix_at ix) Q s w.
Proof.
  intros Hok Hix HQ. destruct (pix_at_ok ix s w Hok Hix) as (p & Heq & Hp & _).
  exists p, s, w. split; [exact Heq | apply HQ, Hp].
Qed.

Lemma returns_show_loop (n : nat) ix s w :
  pix_ok s -> 0 <= ix -> ix + Z.of_nat n <= AOAPPS_SWFLAG_ANIM_NUMFLAGS ->
  returns (show_loop n ix) (fun _ s' _ => s' = s) s w.
Proof.
  intros Hok. revert ix w. induction n as [| n IH]; intros ix w Hix Hn; cbn [show_loop].
  - apply returns_ret. reflexivity.
  - apply returns_bind, returns_pix_at; [exact Hok | lia |].
    intros p Hp. apply returns_bind. unfold print. apply returns_ext_void.
    apply IH; lia.
Qed.

Lemma returns_list_loop (n : nat) pix s w :
  returns (list_loop n pix) (fun _ s' _ => s' = s) s w.
Proof.
  revert pix w. induction n as [| n IH]; intros pix w; cbn [list_loop].
  - apply returns_ret. reflexivity.
  - apply returns_bind. unfold print. apply returns_ext_void. apply IH.
Qed.

Lemma pix_store_ok (i : nat) v s w :
  length (aomw_swflag_anim_pix s) = 4%nat -> (i < 4)%nat ->
  pix_store (Z.of_nat i) v (s, w) =
  Ok (tt, (set_pix (<[i := v]> (aomw_swflag_anim_pix s)) s, w)).
Proof.
  intros Hlen Hi. unfold pix_store, pbind, static, assign. cbn [fst snd].
  unfold AOAPPS_SWFLAG_ANIM_NUMFLAGS. rewrite Nat2Z.id, Hlen.
  replace (0 <=? Z.of_nat i) with true by (symmetry; apply Z.leb_le; lia).
  replace (Z.of_nat i <? 4) with true by (symmetry; apply Z.ltb_lt; lia).
  replace (i <? 4)%nat with true by (symmetry; apply Nat.ltb_lt; lia).
  reflexivity.
Qed.

(** X23: "apps config swflag set <flag1> <flag2> <flag3> <flag4>".  When
    each of the four words names a flag of the list, the four configured
    flags become exactly these, in the order given, and nothing else of the
    state of the app changes.  When one of the words names no flag, the
    configuration is left as it was: the words are all checked before any
    is stored. *)
Theorem swflag_cmd_set (a0 a1 a2 a3 f0 f1 f2 f3 : string) s w :
  aocmd_cint_isprefix "list" a3 = false ->
  aocmd_cint_isprefix "get" a3 = false ->
  aocmd_cint_isprefix "set" a3 = true ->
  0 <= aomw_flag_count ->
  length (aomw_swflag_anim_pix s) = 4%nat ->
  let argv := [a0; a1; a2; a3; f0; f1; f2; f3] in
  (forall p0 p1 p2 p3,
     names_flag f0 p0 -> names_flag f1 p1 -> names_flag f2 p2 -> names_flag f3 p3 ->
     returns (aoapps_swflag_cmd_main argv)
       (fun _ s' _ => s' = set_pix [p0; p1; p2; p3] s /\ pix_ok s') s w) /\
  (aoapps_swflag_cmd_find f0 = -1 \/ aoapps_swflag_cmd_find f1 = -1 \/
   aoapps_swflag_cmd_find f2 = -1 \/ aoapps_swflag_cmd_find f3 = -1 ->
     returns (aoapps_swflag_cmd_main argv) (fun _ s' _ => s' = s) s w).
Proof.
  intros Hlist Hget Hset Hcount Hlen argv.
  assert (Hmain : aoapps_swflag_cmd_main argv (s, w) =
    (let+ bad := check_loop argv 4 0 in
     match bad with
     | Some a => print (SwflagExpectsFlagName a)
     | None =>
         copy_loop argv 4 0 >>>
         let+ argv0 := arg_at argv 0 in
         if not_silent argv0 then aoapps_swflag_cmd_show else pret tt
     end) (s, w)).
  { unfold aoapps_swflag_cmd_main. subst argv. cbn [length Nat.ltb Nat.leb Nat.eqb negb].
    unfold pbind at 1, passert at 1. unfold pbind at 1, arg_at at 1.
    cbn [lookup list_lookup pret]. rewrite Hlist, Hget, Hset.
    unfold pbind at 1, passert at 1. reflexivity. }
  split.
  - intros p0 p1 p2 p3 H0 H1 H2 H3.
    pose proof (names_flag_find f0 p0 H0) as E0.
    pose proof (names_flag_find f1 p1 H1) as E1.
    pose proof (names_flag_find f2 p2 H2) as E2.
    pose proof (names_flag_find f3 p3 H3) as E3.
    assert (Hok' : pix_ok (set_pix [p0; p1; p2; p3] s)).
    { split; [reflexivity |]. ssimpl.
      repeat (apply Forall_cons; split; [first [apply H0 | apply H1 | apply H2 | apply H3] |]).
      apply Forall_nil. exact I. }
    assert (Hcopy : copy_loop argv 4 0 (s, w) = Ok (tt, (set_pix [p0; p1; p2; p3] s, w))).
    { destruct (aomw_swflag_anim_pix s) as [| q0 [| q1 [| q2 [| q3 [| q4 rest]]]]] eqn:Hpix;
        try discriminate Hlen.
      subst argv. cbn [copy_loop]. unfold arg_at. cbn [lookup list_lookup Nat.add].
      unfold pbind at 1, pret at 1. unfold pbind at 1.
      rewrite (pix_store_ok 0 _ s w) by (rewrite ?Hpix; cbn; lia).
      unfold pbind at 1, pret at 1. unfold pbind at 1.
      rewrite (pix_store_ok 1) by (ssimpl; rewrite ?length_insert, ?Hpix; cbn; lia).
      unfold pbind at 1, pret at 1. unfold pbind at 1.
      rewrite (pix_store_ok 2) by (ssimpl; rewrite ?length_insert, ?Hpix; cbn; lia).
      unfold pbind at 1, pret at 1. unfold pbind at 1.
      rewrite (pix_store_ok 3) by (ssimpl; rewrite ?length_insert, ?Hpix; cbn; lia).
      unfold pret. ssimpl. rewrite Hpix, E0, E1, E2, E3. reflexivity. }
    assert (Hcheck : check_loop argv 4 0 (s, w) = Ok (None, (s, w))).
    { subst argv. cbn [check_loop]. unfold arg_at. cbn [lookup list_lookup Nat.add].
      unfold pbind, pret. rewrite E0, E1, E2, E3.
      destruct H0 as [H0 _], H1 as [H1 _], H2 as [H2 _], H3 as [H3 _].
      replace (p0 =? -1) with false by (symmetry; apply Z.eqb_neq; lia).
      replace (p1 =? -1) with false by (symmetry; apply Z.eqb_neq; lia).
      replace (p2 =? -1) with false by (symmetry; apply Z.eqb_neq; lia).
      replace (p3 =? -1) with false by (symmetry; apply Z.eqb_neq; lia).
      reflexivity. }
    unfold returns. rewrite Hmain. unfold pbind at 1. rewrite Hcheck.
    unfold pbind at 1. rewrite Hcopy.
    unfold pbind at 1, arg_at at 1. subst argv. cbn [lookup list_lookup pret].
    destruct (not_silent a0).
    + destruct (returns_show_loop 4 0 (set_pix [p0; p1; p2; p3] s) w Hok')
        as ([] & s' & w' & Hshow & ->); [lia | unfold AOAPPS_SWFLAG_ANIM_NUMFLAGS; lia |].
      exists tt, (set_pix [p0; p1; p2; p3] s), w'.
      split; [exact Hshow | split; [reflexivity | exact Hok']].
    + exists tt, (set_pix [p0; p1; p2; p3] s), w.
      split; [reflexivity | split; [reflexivity | exact Hok']].
  - intros Hbad.
    assert (Hcheck : exists a, check_loop argv 4 0 (s, w) = Ok (Some a, (s, w))).
    { subst argv. cbn [check_loop]. unfold arg_at. cbn [lookup list_lookup Nat.add].
      unfold pbind, pret.
      destruct (aoapps_swflag_cmd_find f0 =? -1) eqn:E0; [eexists; reflexivity |].
      destruct (aoapps_swflag_cmd_find f1 =? -1) eqn:E1; [eexists; reflexivity |].
      destruct (aoapps_swflag_cmd_find f2 =? -1) eqn:E2; [eexists; reflexivity |].
      destruct (aoapps_swflag_cmd_find f3 =? -1) eqn:E3; [eexists; reflexivity |].
      zbool. exfalso. destruct Hbad as [H | [H | [H | H]]]; contradiction. }
    destruct Hcheck as [a Hcheck].
    unfold returns. rewrite Hmain. unfold pbind at 1. rewrite Hcheck.
    exists tt, s, (Serial_printf_swflag (SwflagExpectsFlagName a) w).
    split; reflexivity.
Qed.

Lemma returns_paint (Q : aoresult_t -> statics -> W -> Prop) s w :
  pix_ok s -> flagix_ok s ->
  (forall r w', Q r s w') ->
  returns paint_current Q s w.
Proof.
  intros Hpix Hix HQ. unfold paint_current.
  apply returns_bind, returns_static.
  apply returns_bind, returns_pix_at; [exact Hpix | exact Hix |].
  intros p Hp. apply returns_ext, HQ.
Qed.

Lemma selected_in_range (b0 b1 b2 b3 : bool) (f : Z) :
  0 <= f < 4 ->
  0 <= (if b3 then 3 else if b2 then 2 else if b1 then 1 else if b0 then 0 else f) < 4.
Proof. intros Hf. destruct b3, b2, b1, b0; lia. Qed.

Ltac inv_tac :=
  unfold pix_ok, flagix_ok, kept, AOAPPS_SWFLAG_ANIM_NUMFLAGS in *; ssimpl; zbool;
  repeat match goal with H : _ /\ _ |- _ => destruct H end;
  repeat split;
  first [ assumption | reflexivity | lia
        | apply selected_in_range; lia
        | match goal with
          | |- context [Z.rem ?a 4] =>
              pose proof (Z.rem_bound_pos a 4); lia
          end ].

Lemma swflag_anim_keeps s w :
  pix_ok s -> flagix_ok s ->
  returns aoapps_swflag_anim
    (fun _ s' _ => pix_ok s' /\ flagix_ok s' /\ kept s s') s w.
Proof.
  intros Hpix Hix. unfold aoapps_swflag_anim, now.
  repeat first
    [ prog_step
    | apply returns_paint; [inv_tac | inv_tac | intros ? ?]
    | progress cbv beta iota ].
  all: ssimpl; split; [| split]; inv_tac.
Qed.

Lemma swflag_buttons_keeps s w :
  pix_ok s -> flagix_ok s ->
  returns aoapps_swflag_buttons_check
    (fun _ s' _ => pix_ok s' /\ flagix_ok s' /\ kept s s') s w.
Proof.
  intros Hpix Hix. unfold aoapps_swflag_buttons_check, now.
  repeat first
    [ prog_step
    | apply returns_paint; [inv_tac | inv_tac | intros ? ?]
    | progress cbv beta iota ].
  all: ssimpl; split; [| split]; inv_tac.
Qed.

Lemma kept_trans s1 s2 s3 : kept s1 s2 -> kept s2 s3 -> kept s1 s3.
Proof. unfold kept. intuition congruence. Qed.

Lemma swflag_step_keeps s w :
  pix_ok s -> flagix_ok s ->
  returns aoapps_swflag_step
    (fun _ s' _ => pix_ok s' /\ flagix_ok s' /\ kept s s') s w.
Proof.
  intros Hpix Hix. unfold aoapps_swflag_step.
  apply returns_bind.
  eapply returns_mono; [| apply (swflag_buttons_keeps s w Hpix Hix)].
  intros r s1 w1 (Hpix1 & Hix1 & Hk1). cbv beta.
  destruct (negb (r =? aoresult_ok));
    [apply returns_ret; exact (conj Hpix1 (conj Hix1 Hk1)) |].
  apply returns_bind.
  eapply returns_mono; [| apply (swflag_anim_keeps s1 w1 Hpix1 Hix1)].
  intros r2 s2 w2 (Hpix2 & Hix2 & Hk2). cbv beta.
  destruct (negb (r2 =? aoresult_ok)); apply returns_ret;
    (split; [exact Hpix2 | split; [exact Hix2 | apply (kept_trans s s1 s2); assumption]]).
Qed.

Lemma swflag_steps_keep (n : nat) s w :
  pix_ok s -> flagix_ok s ->
  returns (swflag_steps n)
    (fun _ s' _ => pix_ok s' /\ flagix_ok s' /\ kept s s') s w.
Proof.
  revert s w. induction n as [| n IH]; intros s w Hpix Hix; cbn [swflag_steps].
  - apply returns_ret. split; [exact Hpix | split; [exact Hix | repeat split]].
  - apply returns_bind.
    eapply returns_mono; [| apply (swflag_step_keeps s w Hpix Hix)].
    intros r s1 w1 (Hpix1 & Hix1 & Hk1). cbv beta.
    destruct (negb (r =? aoresult_ok));
      [apply returns_ret; exact (conj Hpix1 (conj Hix1 Hk1)) |].
    eapply returns_mono; [| apply (IH s1 w1 Hpix1 Hix1)].
    intros r2 s2 w2 (Hpix2 & Hix2 & Hk2).
    split; [exact Hpix2 | split; [exact Hix2 | apply (kept_trans s s1 s2); assumption]].
Qed.

(** X24: with four configured flags of the list and the index of the flag
    shown between 0 and 3, any number of steps of the swflag app return
    (until one reports an error) with both still so: the array of
    configured flags is never indexed out of its bounds, the painter is
    only asked for flags of the list, and the steps change neither the
    configured flags nor the dim level saved at the start. *)
Theorem swflag_steps_keep_order (n : nat) s w :
  pix_ok s -> flagix_ok s ->
  returns (swflag_steps n)
    (fun _ s' _ => pix_ok s' /\ flagix_ok s' /\ kept s s') s w.
Proof. apply swflag_steps_keep. Qed.

(** X25: without an I/O-expander the swflag animation changes flag on
    time.  Up to 2000 ms after the last change nothing is painted and the
    statics stay as they are; after more than 2000 ms the next of the four
    configured flags (the first after the last) becomes the flag shown and
    is painted, and the result of the painter is the result of the step. *)
Theorem swflag_anim_cycles s w t w1 t' w2 p r w3 :
  aoapps_swflag_anim_ioxpresent s = 0 ->
  flagix_ok s ->
  millis w = (t, w1) ->
  millis w1 = (t', w2) ->
  let next := (aoapps_swflag_anim_flagix s + 1) mod 4 in
  aomw_swflag_anim_pix s !! Z.to_nat next = Some p ->
  aomw_flag_painter p w2 = (r, w3) ->
  let elapsed := u32 (u32 t - aoapps_swflag_anim_lastms s) in
  (elapsed <= AOAPPS_SWFLAG_ANIM_MS ->
     aoapps_swflag_anim (s, w) = Ok (aoresult_ok, (s, w1))) /\
  (AOAPPS_SWFLAG_ANIM_MS < elapsed ->
     next <> aoapps_swflag_anim_flagix s /\
     aoapps_swflag_anim (s, w) =
     Ok (r, (set_flagix next (set_lastms (u32 t') s), w3))).
Proof.
  intros Hiox Hix Hm1 Hm2 next Hp Hpaint elapsed.
  unfold flagix_ok, AOAPPS_SWFLAG_ANIM_NUMFLAGS in Hix.
  assert (Hnext : 0 <= next < 4) by (subst next; apply Z.mod_pos_bound; lia).
  assert (Hrem : Z.rem (aoapps_swflag_anim_flagix s + 1) AOAPPS_SWFLAG_ANIM_NUMFLAGS = next).
  { subst next. unfold AOAPPS_SWFLAG_ANIM_NUMFLAGS. apply Z.rem_mod_nonneg; lia. }
  assert (Hne : next <> aoapps_swflag_anim_flagix s).
  { subst next. intros E.
    assert (Hc : aoapps_swflag_anim_flagix s = 0 \/ aoapps_swflag_anim_flagix s = 1 \/
                 aoapps_swflag_anim_flagix s = 2 \/ aoapps_swflag_anim_flagix s = 3) by lia.
    destruct Hc as [H | [H | [H | H]]]; rewrite H in E; discriminate E. }
  unfold aoapps_swflag_anim, now, paint_current, pix_at.
  cbv beta iota delta [pbind static ext assign pret fst snd].
  rewrite Hiox. cbn [Z.eqb negb]. cbv beta iota delta [fst snd].
  rewrite Hm1. cbv beta iota delta [fst snd].
  fold elapsed.
  destruct (Z.ltb_spec AOAPPS_SWFLAG_ANIM_MS elapsed) as [Hlt | Hle];
    (split; [intros Hle' | intros Hlt']); try (exfalso; lia);
    cbv beta iota delta [fst snd].
  - split; [exact Hne |].
    rewrite Hm2. cbv beta iota delta [fst snd]. ssimpl. rewrite Hrem.
    replace (aoapps_swflag_anim_flagix s =? next) with false
      by (symmetry; apply Z.eqb_neq; congruence).
    cbn [negb]. cbv beta iota delta [fst snd]. ssimpl.
    unfold AOAPPS_SWFLAG_ANIM_NUMFLAGS.
    replace (0 <=? next) with true by (symmetry; apply Z.leb_le; lia).
    replace (next <? 4) with true by (symmetry; apply Z.ltb_lt; lia).
    cbn [andb]. rewrite Hp. cbv beta iota delta [fst snd]. rewrite Hpaint.
    cbv beta iota delta [fst snd].
    destruct (negb (r =? aoresult_ok)) eqn:Hr; [reflexivity |].
    ssimpl. rewrite Hiox. cbn [Z.eqb negb].
    apply negb_false_iff, Z.eqb_eq in Hr. subst r. reflexivity.
  - rewrite Z.eqb_refl. reflexivity.
Qed.

Lemma swflag_start_keeps addr0 s w :
  pix_ok s ->
  returns (aoapps_swflag_start addr0)
    (fun r s' _ =>
       aomw_swflag_anim_pix s' = aomw_swflag_anim_pix s /\
       (r = aoresult_ok -> aoapps_swflag_anim_flagix s' = 0)) s w.
Proof.
  intros Hpix. unfold aoapps_swflag_start, now, print.
  repeat first
    [ prog_step
    | apply returns_paint; [inv_tac | inv_tac | intros ? ?]
    | progress cbv beta iota ].
  all: ssimpl; (split; [reflexivity |]).
  all: try reflexivity.
  all: intros Hok; exfalso.
  all: match goal with
       | H : context [negb (_ =? aoresult_ok)] |- _ =>
           first [rewrite Hok, Z.eqb_refl in H | rewrite Z.eqb_refl in H];
           discriminate H
       end.
Qed.

(** X26: with four configured flags of the list, the start of the swflag
    app returns, whatever it finds on the chain, and when it succeeds any
    number of steps after it return too: from its start on the app never
    indexes the array of configured flags out of its bounds, it asks the
    painter only for flags of the list, and it leaves the configured flags
    as they are. *)
Theorem swflag_start_then_steps (n : nat) addr0 s w :
  pix_ok s ->
  returns
    (let+ result := aoapps_swflag_start addr0 in
     if negb (result =? aoresult_ok) then pret result else swflag_steps n)
    (fun _ s' _ => pix_ok s' /\ aomw_swflag_anim_pix s' = aomw_swflag_anim_pix s) s w.
Proof.
  intros Hpix. apply returns_bind.
  eapply returns_mono; [| apply (swflag_start_keeps addr0 s w Hpix)].
  intros r s1 w1 [Hsame Hfirst]. cbv beta.
  assert (Hpix1 : pix_ok s1) by (unfold pix_ok in *; rewrite Hsame; exact Hpix).
  destruct (negb (r =? aoresult_ok)) eqn:Hr;
    [apply returns_ret; split; [exact Hpix1 | exact Hsame] |].
  apply negb_false_iff, Z.eqb_eq in Hr.
  assert (Hix1 : flagix_ok s1)
    by (unfold flagix_ok, AOAPPS_SWFLAG_ANIM_NUMFLAGS; rewrite (Hfirst Hr); lia).
  eapply returns_mono; [| apply (swflag_steps_keep n s1 w1 Hpix1 Hix1)].
  intros r2 s2 w2 (Hpix2 & _ & Hk & _).
  split; [exact Hpix2 | congruence].
Qed.

End SwflagProperties.

(** * The manager on concrete inputs *)

Import Sim.

(** C1: an app registered with topo build whose start() returns the error
    9.  The step in TOPOBUILD that finds the build done calls start() once
    and returns 9, but the state machine ends that step in APPANIM, not in
    ERROR: the assignment of APPANIM follows the assignment of ERROR.  A
    following step of the state machine calls the step() of the app. *)
Theorem stepwithtopo_failed_start_ends_in_appanim :
  aoapps_mngr_state m_topo_start_fails = AOAPPS_MNGR_STATE_TOPOBUILD /\
  fst (aomw_topo_build_done (world m_topo_start_fails)) = true /\
  exists m' m'',
    aoapps_mngr_stepwithtopo m_topo_start_fails = Ok (9, m') /\
    List.filter is_app_start (calls_since m_topo_start_fails m') = [EvAppStart 1] /\
    aoapps_mngr_state m' = AOAPPS_MNGR_STATE_APPANIM /\
    aoapps_mngr_state m' <> AOAPPS_MNGR_STATE_ERROR /\
    aoapps_mngr_stepwithtopo m' = Ok (0, m'') /\
    calls_since m' m'' = [EvAppStep 1].
Proof.
  split; [reflexivity |]. split; [reflexivity |].
  eexists _, _. split; [vm_compute; reflexivity |].
  split; [reflexivity |]. split; [reflexivity |].
  split; [discriminate |].
  split; [vm_compute; reflexivity | reflexivity].
Qed.

(** C2 fails as stated: in TOPOBUILD with the build not done, the builder's
    step returns 9 and the step of the state machine returns 0 (ok). *)
Lemma stepwithtopo_build_result_not_forwarded :
  aoapps_mngr_state m_topo_build_fails = AOAPPS_MNGR_STATE_TOPOBUILD /\
  fst (aomw_topo_build_done (world m_topo_build_fails)) = false /\
  fst (aomw_topo_build_step (world m_topo_build_fails)) = 9 /\
  result_of (aoapps_mngr_stepwithtopo m_topo_build_fails) = Some aoresult_ok /\
  result_of (aoapps_mngr_stepwithtopo m_topo_build_fails) <> Some 9.
Proof.
  split; [reflexivity |]. split; [reflexivity |]. split; [reflexivity |].
  split; [reflexivity | vm_compute; discriminate].
Qed.

(** The builder failing with 9 while the build is pending. *)
Lemma stepwithtopo_build_pending_witness :
  exists m',
    aoapps_mngr_stepwithtopo m_topo_build_fails = Ok (aoresult_ok, m') /\
    aoapps_mngr_error m' = 9 /\
    (9 = aoresult_ok -> aoapps_mngr_state m' = AOAPPS_MNGR_STATE_TOPOBUILD) /\
    (9 <> aoresult_ok ->
       aoapps_mngr_state m' = AOAPPS_MNGR_STATE_ERROR /\
       aoapps_mngr_stepwithtopo m' = Ok (9, m')) /\
    world m' = World 0 1 9 0 0 /\
    trace m' = trace m_topo_build_fails ++ [EvTopoBuildDone; EvTopoBuildStep].
Proof.
  apply (stepwithtopo_build_pending m_topo_build_fails (World 0 2 9 0 0) 9
           (World 0 1 9 0 0)); reflexivity.
Defined.

(** C3 fails as stated: with only the void app registered (and running),
    switching to the next app is neither refused by an assertion nor
    special-cased; it divides by zero. *)
Lemma switchnext_single_app_unguarded :
  aoapps_mngr_app_count m_void_only = 1 /\
  aoapps_mngr_app_running m_void_only = 1 /\
  aoapps_mngr_switchnext m_void_only = Undefined DivisionByZero /\
  aoapps_mngr_switchnext m_void_only <> AssertFailed /\
  (forall m', aoapps_mngr_switchnext m_void_only <> Ok (tt, m')).
Proof.
  split; [reflexivity |]. split; [reflexivity |]. split; [reflexivity |].
  split; [vm_compute; discriminate | intros m'; vm_compute; discriminate].
Qed.

(** The void app alone, running. *)
Lemma switchnext_single_app_undefined_witness :
  aoapps_mngr_switchnext m_void_only = Undefined DivisionByZero.
Proof.
  apply (switchnext_single_app_undefined m_void_only). reflexivity.
Defined.

(** C4 fails as stated: a registration with an empty name, everything else
    in order, is not fatal; the app is registered at index 1. *)
Lemma register_empty_name_accepted :
  name nameless = Some EmptyString /\
  register_app nameless (m_init quiet) <> AssertFailed /\
  exists m',
    register_app nameless (m_init quiet) = Ok (tt, m') /\
    aoapps_mngr_app_count m' = 2 /\
    aoapps_mngr_app_name 1 m' = Ok (Some EmptyString, m').
Proof.
  split; [reflexivity |]. split; [vm_compute; discriminate |].
  eexists. split; [vm_compute; reflexivity |]. split; reflexivity.
Qed.



(** Three steps, a minute after an app without NEXTONERR failed. *)
Lemma step_latched_noop_witness :
  steps 3 (m_latched AOAPPS_MNGR_FLAGS_NONE 60000) =
  Ok (tt, m_latched AOAPPS_MNGR_FLAGS_NONE 60000).
Proof.
  apply (step_latched_noop (m_latched AOAPPS_MNGR_FLAGS_NONE 60000)
           (app "a" AOAPPS_MNGR_FLAGS_NONE 0 7) 3).
  - vm_compute. discriminate.
  - vm_compute. discriminate.
  - split; [vm_compute; split; [discriminate | reflexivity] | reflexivity].
  - reflexivity.
Defined.

(** C7 fails as stated: exactly 250 ms after the last repair the step
    broadcasts nothing; and when the clear-error broadcast fails (with 5),
    no activate broadcast follows it. *)
Lemma step_repair_boundary_and_early_return :
  (let m := m_repair 250 0 in
   u32 (fst (millis (world m)) - aoapps_mngr_lastrepair m) = 250 /\
   exists m',
     aoapps_mngr_step m = Ok (tt, m') /\
     List.filter is_repair_event (calls_since m m') = []) /\
  (let m := m_repair 251 5 in
   exists m',
     aoapps_mngr_step m = Ok (tt, m') /\
     List.filter is_repair_event (calls_since m m') = [EvClrError 0] /\
     aoapps_mngr_result m' = 5).
Proof.
  split.
  - split; [reflexivity |].
    eexists. split; [vm_compute; reflexivity | reflexivity].
  - eexists. split; [vm_compute; reflexivity |]. split; reflexivity.
Qed.

(** 251 ms after the last repair, at time 0, both broadcasts returning ok:
    the time of the last repair becomes 251. *)
Lemma step_repair_witness :
  let m := m_repair 251 0 in
  aoapps_mngr_lastrepair m = 0 /\
  exists m' evs,
    aoapps_mngr_step m = Ok (tt, m') /\
    trace m' = trace m ++ EvAppStep 1 :: evs /\
    List.filter is_repair_event evs = [EvClrError 0; EvGoActive 0] /\
    aoapps_mngr_result m' = aoresult_ok /\
    aoapps_mngr_lastrepair m' = 251.
Proof.
  intros m. split; [reflexivity |].
  destruct (step_repair m (app "a" AOAPPS_MNGR_FLAGS_WITHREPAIR 0 0)
              (with_call (EvAppStep 1) (world m) m) 251 (world m))
    as (m' & evs0 & evs & Hstep & _ & _ & Htr & _ & _ & Hboth & _ & Hrec & _).
  - vm_compute. discriminate.
  - reflexivity.
  - split; [vm_compute; split; [discriminate | reflexivity] | reflexivity].
  - reflexivity.
  - reflexivity.
  - reflexivity.
  - destruct Hboth as [Hev Hres]; [vm_compute; reflexivity | reflexivity |].
    exists m', evs. split; [exact Hstep |].
    split; [rewrite Htr; unfold with_call; cbn [trace]; rewrite <- app_assoc;
            reflexivity |].
    split; [exact Hev |]. split; [exact Hres |].
    apply Hrec; [vm_compute; reflexivity | reflexivity | reflexivity].
Defined.


(** C9 fails as stated in its last part: the call returns no index.
    [aoapps_mngr_register] is a [void] function; a registration that
    succeeds returns the unit value, whatever the count before it (1 for
    the first registration, 2 for the second). *)
Lemma register_returns_no_index :
  let m := m_init quiet in
  let m1 := machine_of (register_app (app "a" 0 0 0) m) in
  aoapps_mngr_app_count m = 1 /\
  result_of (register_app (app "a" 0 0 0) m) = Some tt /\
  aoapps_mngr_app_count m1 = 2 /\
  result_of (register_app (app "b" 0 0 0) m1) = Some tt.
Proof.
  split; [reflexivity |]. split; [reflexivity |]. split; reflexivity.
Qed.

(** The first registration after the void app. *)
Lemma register_monotonic_witness :
  let m := m_init quiet in
  let m' := machine_of (register_app (app "a" 0 0 0) m) in
  aoapps_mngr_app_count m' = aoapps_mngr_app_count m + 1 /\
  aoapps_mngr_app_count m' <= AOAPPS_MNGR_REGISTRATION_SLOTS /\
  aoapps_mngr_apps m' !! Z.to_nat (aoapps_mngr_app_count m) = Some (app "a" 0 0 0).
Proof.
  intros m m'.
  destruct (register_monotonic m m' (app "a" 0 0 0)) as (H1 & H2 & H3 & _);
    [reflexivity |].
  split; [exact H1 |]. split; [exact H2 | exact H3].
Defined.

(** Stopping app 1 of two. *)
Lemma stop_frame_witness :
  let m := m_started quiet (app "a" 0 0 0) (app "b" 0 0 0) 1 in
  exists m',
    aoapps_mngr_stop m = Ok (tt, m') /\
    aoapps_mngr_moderun m' = 0 /\
    aoapps_mngr_appix m' = aoapps_mngr_appix m /\
    trace m' = trace m ++ [EvAppStop 1].
Proof.
  intros m.
  destruct (stop_frame m (app "a" 0 0 0) (fun w => w))
    as (m' & Heq & Hrun & Hix & _ & _ & _ & _ & _ & _ & _ & _ & _ & Htr).
  - vm_compute. discriminate.
  - split; [vm_compute; split; [discriminate | reflexivity] | reflexivity].
  - reflexivity.
  - exists m'. split; [exact Heq |]. split; [exact Hrun |].
    split; [exact Hix | exact Htr].
Defined.

(** ** The further properties on concrete inputs *)

Import Bench.

(** The registry of a concrete machine is in order. *)
Ltac wf_concrete := unfold wf; vm_compute; repeat split; discriminate.

(** The app of a concrete machine is its current app. *)
Ltac current_concrete :=
  split; [vm_compute; split; [discriminate | reflexivity] | reflexivity].

(** A sketch that starts app 1, steps, goes to the next app, registers a
    third app, steps and stops. *)
Lemma operations_keep_registry_witness :
  let m := m_two quiet (app "a" 0 0 0) (app "b" 0 0 0) in
  let os := [OpStart 1; OpStep; OpSwitchNext; OpRegister (app "c" 0 0 0); OpStep; OpStop] in
  let m' := machine_of (run_ops os m) in
  wf m' /\ registry_extends m m'.
Proof.
  intros m os m'.
  apply (operations_keep_registry os m m').
  - wf_concrete.
  - vm_compute. reflexivity.
Defined.

(** The manager of a program that has just booted. *)
Lemma init_puts_registry_in_order_witness :
  exists m',
    aoapps_mngr_init (boot quiet) = Ok (tt, m') /\
    wf m' /\
    aoapps_mngr_app_count m' = 1 /\
    aoapps_mngr_app_running m' = 0.
Proof.
  destruct (init_puts_registry_in_order (boot quiet))
    as (m' & v & Hinit & Hwf & Hcount & _ & Hrun & _); [reflexivity |].
  exists m'. split; [exact Hinit |]. split; [exact Hwf |].
  split; [exact Hcount | exact Hrun].
Defined.

(** Starting app 3 when only the void app and two apps are registered. *)
Lemma start_out_of_state_witness :
  aoapps_mngr_start 3 (m_two quiet (app "a" 0 0 0) (app "b" 0 0 0)) = AssertFailed.
Proof.
  apply (start_out_of_state 3 (m_two quiet (app "a" 0 0 0) (app "b" 0 0 0))).
  right. right. vm_compute. discriminate.
Defined.

(** Two apps registered, none started. *)
Lemma stopped_rejects_step_stop_switch_witness :
  let m := m_two quiet (app "a" 0 0 0) (app "b" 0 0 0) in
  aoapps_mngr_step m = AssertFailed /\
  aoapps_mngr_stop m = AssertFailed /\
  aoapps_mngr_switch 1 m = AssertFailed.
Proof.
  intros m.
  destruct (stopped_rejects_step_stop_switch 1 m) as (H1 & H2 & H3 & _);
    [reflexivity |].
  split; [exact H1 |]. split; [exact H2 | exact H3].
Defined.

(** Starting app 2 of two, an app whose start() fails with 9: start() is
    called once and the latch holds 9. *)
Lemma start_makes_current_witness :
  let m := m_two quiet (app "a" 0 0 0) (app "b" 0 9 0) in
  exists m' evs,
    aoapps_mngr_start 2 m = Ok (tt, m') /\
    aoapps_mngr_appix m' = 2 /\
    aoapps_mngr_moderun m' = 1 /\
    trace m' = trace m ++ evs /\
    List.filter is_app_start evs = [EvAppStart 2] /\
    aoapps_mngr_result m' = 9.
Proof.
  intros m.
  destruct (start_makes_current m 2)
    as (a & m' & evs & Ha & Hstart & (Hix & Hrun & _ & _ & _ & _ & Hdirect)
        & Htr & Hcalls & _).
  - wf_concrete.
  - reflexivity.
  - vm_compute. split; [discriminate | reflexivity].
  - assert (Ea : Some a = Some (app "b" 0 9 0)) by (rewrite <- Ha; reflexivity).
    injection Ea as ->.
    destruct Hdirect as (f & Hf & Hres & _); [reflexivity |].
    assert (Ef : Some f = Some (fun w : world_t => (9, w)))
      by (rewrite <- Hf; reflexivity).
    injection Ef as ->.
    exists m', evs. split; [exact Hstart |]. split; [exact Hix |].
    split; [exact Hrun |]. split; [exact Htr |].
    split; [exact Hcalls | exact Hres].
Defined.

(** Switching from app 1 to app 2. *)
Lemma switch_stops_then_starts_witness :
  let m := m_started quiet (app "a" 0 0 0) (app "b" 0 0 0) 1 in
  exists m',
    aoapps_mngr_switch 2 m = Ok (tt, m') /\
    aoapps_mngr_appix m' = 2 /\
    aoapps_mngr_moderun m' = 1 /\
    wf m'.
Proof.
  intros m.
  destruct (switch_stops_then_starts m 2)
    as (a0 & f0 & a & m' & _ & _ & _ & Hswitch & (Hix & Hrun & _) & Hwf).
  - wf_concrete.
  - vm_compute. discriminate.
  - vm_compute. split; [discriminate | reflexivity].
  - exists m'. split; [exact Hswitch |]. split; [exact Hix |].
    split; [exact Hrun | exact Hwf].
Defined.

(** The state machine after the builder failed with 9. *)
Lemma stepwithtopo_error_is_final_witness :
  let m := machine_of (aoapps_mngr_stepwithtopo m_topo_build_fails) in
  aoapps_mngr_stepwithtopo m = Ok (9, m) /\ topo_steps 5 m = Ok (9, m).
Proof.
  intros m.
  apply (stepwithtopo_error_is_final m 5). reflexivity.
Defined.

(** An app with topo build whose step() fails with 7, the build done and
    the app started by the first step of the state machine. *)
Lemma stepwithtopo_appanim_witness :
  let a := app "a" AOAPPS_MNGR_FLAGS_WITHTOPO 0 7 in
  let m := machine_of (aoapps_mngr_stepwithtopo (m_started quiet a (app "b" 0 0 0) 1)) in
  exists m',
    aoapps_mngr_stepwithtopo m = Ok (7, m') /\
    trace m' = trace m ++ [EvAppStep 1] /\
    aoapps_mngr_state m' = AOAPPS_MNGR_STATE_ERROR /\
    topo_steps 4 m' = Ok (7, m').
Proof.
  intros a m.
  destruct (stepwithtopo_appanim m a (fun w => (7, w)) 7 quiet)
    as (m' & Hstep & Htr & _ & _ & _ & Herr).
  - reflexivity.
  - current_concrete.
  - reflexivity.
  - reflexivity.
  - destruct Herr as [Hstate Hsteps]; [discriminate |].
    exists m'. split; [exact Hstep |]. split; [exact Htr |].
    split; [exact Hstate | apply Hsteps].
Defined.

(** Three steps of the state machine from the start of an app with topo
    build, the builder needing two more steps. *)
Lemma topo_steps_start_at_most_once_witness :
  let m := m_started (World 0 2 0 0 0) (app "a" AOAPPS_MNGR_FLAGS_WITHTOPO 0 0)
                     (app "b" 0 0 0) 1 in
  let m' := machine_of (topo_steps 3 m) in
  starts_since 1 m m'.
Proof.
  intros m m'.
  destruct (topo_steps_start_at_most_once 3 m aoresult_ok m') as [H _];
    [vm_compute; reflexivity | exact H].
Defined.

(** The step() of app 1 fails with 7, at time 0. *)
Lemma step_latches_error_witness :
  let a := app "a" 0 0 7 in
  let m := m_started quiet a (app "b" 0 0 0) 1 in
  exists m',
    aoapps_mngr_step m = Ok (tt, m') /\
    aoapps_mngr_result m' = 7 /\
    aoapps_mngr_lasterror m' = 0 /\
    aoapps_mngr_appix m' = 1.
Proof.
  intros a m.
  destruct (step_latches_error m a 7 (with_call (EvAppStep 1) (world m) m) 0 quiet)
    as (m' & Hstep & Hres & Hlast & _ & Hix & _).
  - vm_compute. discriminate.
  - reflexivity.
  - current_concrete.
  - reflexivity.
  - discriminate.
  - reflexivity.
  - exists m'. split; [exact Hstep |]. split; [exact Hres |].
    split; [exact Hlast | exact Hix].
Defined.

(** The step() of app 1, an app without repair, returns ok. *)
Lemma step_without_repair_witness :
  let a := app "a" 0 0 0 in
  let m := m_started quiet a (app "b" 0 0 0) 1 in
  exists m' evs,
    aoapps_mngr_step m = Ok (tt, m') /\
    trace m' = trace m ++ EvAppStep 1 :: evs /\
    forallb is_status_event evs = true /\
    aoapps_mngr_result m' = aoresult_ok.
Proof.
  intros a m.
  destruct (step_without_repair m a (with_call (EvAppStep 1) (world m) m))
    as (m' & evs & Hstep & Htr & Hev & Hres & _).
  - vm_compute. discriminate.
  - reflexivity.
  - current_concrete.
  - reflexivity.
  - reflexivity.
  - exists m', evs. split; [exact Hstep |].
    split; [rewrite Htr; unfold with_call; cbn [trace]; rewrite <- app_assoc; reflexivity |].
    split; [exact Hev | exact Hres].
Defined.

(** The command "apps switch b" while app 1 of two runs. *)
Lemma cmd_keeps_registry_witness :
  let m := m_started quiet (app "a" 0 0 0) (app "b" 0 0 0) 1 in
  let m' := machine_of (aoapps_mngr_cmd ["apps"; "switch"; "b"]%string m) in
  wf m' /\
  aoapps_mngr_app_count m' = 3 /\
  aoapps_mngr_apps m' = aoapps_mngr_apps m.
Proof.
  intros m m'.
  apply (cmd_keeps_registry ["apps"; "switch"; "b"]%string m m').
  - wf_concrete.
  - vm_compute. reflexivity.
Defined.

(** The commands "apps switch 2" and "apps switch 7" while app 1 of two
    runs. *)
Lemma cmd_switch_by_index_witness :
  let m := m_started quiet (app "a" 0 0 0) (app "b" 0 0 0) 1 in
  (exists m',
     aoapps_mngr_cmd ["apps"; "switch"; "2"]%string m = Ok (tt, m') /\
     aoapps_mngr_appix m' = 2 /\ aoapps_mngr_moderun m' = 1) /\
  aoapps_mngr_cmd ["apps"; "switch"; "7"]%string m =
  Ok (tt, with_world (Serial_printf_apps (AppsOutOfBounds 7) (world m)) m).
Proof.
  intros m. split.
  - destruct (cmd_switch_by_index "apps" "switch" "2" 2 m) as [_ Hin];
      [reflexivity | reflexivity | reflexivity |].
    destruct Hin as (m1 & m' & _ & Hcmd & _ & _ & Hix & Hrun).
    + wf_concrete.
    + vm_compute. discriminate.
    + vm_compute. split; [discriminate | reflexivity].
    + exists m'. split; [exact Hcmd |]. split; [exact Hix | exact Hrun].
  - destruct (cmd_switch_by_index "apps" "switch" "7" 7 m) as [Hout _];
      [reflexivity | reflexivity | reflexivity |].
    apply Hout. right. vm_compute. discriminate.
Defined.

(** The commands "apps switch b" and "apps switch z" while app 1 of two
    runs: "b" names app 2 and neither the void app nor app 1, "z" names
    none. *)
Lemma cmd_switch_by_name_witness :
  let m := m_started quiet (app "a" 0 0 0) (app "b" 0 0 0) 1 in
  (exists m',
     aoapps_mngr_cmd ["apps"; "switch"; "b"]%string m = Ok (tt, m') /\
     aoapps_mngr_appix m' = 2 /\ aoapps_mngr_moderun m' = 1 /\
     trace m' = trace (machine_of (aoapps_mngr_switch 2 m))) /\
  aoapps_mngr_cmd ["apps"; "switch"; "z"]%string m =
  Ok (tt, with_world (Serial_printf_apps (AppsNoAppWithName "z") (world m)) m).
Proof.
  intros m.
  assert (Hno : forall arg j,
                  (forall a n, aoapps_mngr_apps m !! Z.to_nat j = Some a ->
                               name a = Some n -> isprefix n arg = false) ->
                  ~ matches_at m arg j).
  { intros arg j H (a & n & Ha & Hn & Hp).
    change (isprefix n arg = true) in Hp.
    rewrite (H a n Ha Hn) in Hp. discriminate Hp. }
  split.
  - destruct (cmd_switch_by_name "apps" "switch" "b" m) as [_ Hfound];
      [reflexivity | reflexivity | reflexivity | wf_concrete |].
    destruct (Hfound 2) as (m1 & m' & Hsw & Hcmd & _ & Htr & Hix & Hrun).
    + vm_compute. split; [discriminate | reflexivity].
    + exists (app "b" 0 0 0), "b"%string.
      split; [reflexivity |]. split; reflexivity.
    + intros j Hj. apply Hno.
      assert (Ej : j = 0 \/ j = 1) by lia.
      destruct Ej as [-> | ->]; intros a n Ha Hn;
        injection Ha as <-; injection Hn as <-; reflexivity.
    + vm_compute. discriminate.
    + exists m'. split; [exact Hcmd |]. split; [exact Hix |].
      split; [exact Hrun |]. rewrite Htr, Hsw. reflexivity.
  - destruct (cmd_switch_by_name "apps" "switch" "z" m) as [Hnone _];
      [reflexivity | reflexivity | reflexivity | wf_concrete |].
    apply Hnone. intros j Hj. apply Hno.
    assert (Ej : j = 0 \/ j = 1 \/ j = 2) by (change (0 <= j < 3) in Hj; lia).
    destruct Ej as [-> | [-> | ->]]; intros a n Ha Hn;
      injection Ha as <-; injection Hn as <-; reflexivity.
Defined.

(** Four steps of runled from the last of three triplets, the clock
    advancing by 30 ms at each reading. *)
Lemma runled_steps_keep_order_witness :
  returns (Runled.runled_steps 4)
    (fun _ s' _ => Runled.anim_ok s' /\ Runled.aoapps_runled_dimdft s' = 100)
    (runled_at 2 1) (bench 0 30 0).
Proof.
  apply (runled_steps_keep_order 4 (runled_at 2 1) (bench 0 30 0)).
  unfold Runled.anim_ok. vm_compute.
  split; [discriminate |]. split; [split; [discriminate | reflexivity] |].
  left. reflexivity.
Defined.

(** The runled animation 30 ms after the last update, the cursor on the
    last of three triplets and going up: it turns and takes the next color. *)
Lemma runled_anim_frame_witness :
  Runled.aoapps_runled_anim (runled_at 2 1, bench 30 1 0) =
  Ok (aoresult_ok,
      (Runled.set_colorix 1 (Runled.set_dir (-1) (Runled.set_anim_ms 31 (runled_at 2 1))),
       bench 32 1 0)).
Proof.
  destruct (runled_anim_frame (runled_at 2 1) (bench 30 1 0) 30 (bench 31 1 0)
              31 (bench 32 1 0) aomw_topo_red aoresult_ok (bench 32 1 0)
              3 (bench 32 1 0))
    as (_ & _ & _ & _ & Hturn);
    [reflexivity | reflexivity | vm_compute; split; [discriminate | reflexivity]
    | reflexivity | reflexivity | reflexivity |].
  apply Hturn; [vm_compute; discriminate | reflexivity | vm_compute; discriminate
               | vm_compute; discriminate].
Defined.

(** The X button held down for 300 ms at dim level 100: the level goes down
    by 26. *)
Lemma runled_buttons_dim_step_witness :
  Runled.aoapps_runled_buttons_check (runled_at 0 1, bench 300 1 BUT_X) =
  Ok (aoresult_ok,
      (Runled.set_buttons_ms 301 (runled_at 0 1),
       aomw_topo_dim_set 74 (bench 302 1 BUT_X))).
Proof.
  destruct (runled_buttons_dim_step (runled_at 0 1) (bench 300 1 BUT_X)
              (bench 300 1 BUT_X) (bench 300 1 BUT_X) 300 (bench 301 1 BUT_X)
              301 (bench 302 1 BUT_X) 100 (bench 302 1 BUT_X) true
              (bench 302 1 BUT_X))
    as (_ & _ & Hcheck);
    [reflexivity | reflexivity | reflexivity | reflexivity | reflexivity
    | reflexivity | vm_compute; discriminate | vm_compute; discriminate
    | reflexivity |].
  exact Hcheck.
Defined.

(** The Y button held down for 300 ms at a frame time of 40 ms. *)
Lemma aniscript_buttons_frame_time_witness :
  returns Aniscript.aoapps_aniscript_buttons_check
    (fun r s' _ =>
       r = aoresult_ok /\
       (Aniscript.aoapps_aniscript_anim_frame_ms s' = 40 \/
        Aniscript.aoapps_aniscript_anim_frame_ms s' = 36 \/
        Aniscript.aoapps_aniscript_anim_frame_ms s' = 44))
    (aniscript_at 40) (bench 300 1 BUT_Y).
Proof.
  destruct (aniscript_buttons_frame_time (aniscript_at 40) (bench 300 1 BUT_Y))
    as (r & s' & w' & Hrun & Hr & _ & _ & Hf);
    [vm_compute; split; discriminate |].
  exists r, s', w'. split; [exact Hrun |]. split; [exact Hr | exact Hf].
Defined.

(** Fifty steps of aniscript with the Y button held down, from a frame
    time of 3 ms. *)
Lemma aniscript_steps_keep_frame_time_witness :
  returns (Aniscript.aniscript_steps 50) (fun _ s' _ => Aniscript.frame_ok s')
    (aniscript_at 3) (bench 0 150 BUT_Y).
Proof.
  apply (aniscript_steps_keep_frame_time 50 (aniscript_at 3) (bench 0 150 BUT_Y)).
  vm_compute. split; discriminate.
Defined.

(** No stick, and a built-in EEPROM at address 9. *)
Lemma aniscript_find_scheme_witness :
  exists w',
    Aniscript.aoapps_aniscript_find (aniscript_at 40, bench_no_stick aoresult_ok 9) =
    Ok ((aoresult_ok, 9, SAIDBASIC), (aniscript_at 40, w')).
Proof.
  destruct (aniscript_find_scheme (aniscript_at 40) (bench_no_stick aoresult_ok 9)
              noi2cdev 7 (bench_no_stick aoresult_ok 9)
              aoresult_ok 9 (bench_no_stick aoresult_ok 9))
    as (res & addr & daddr7 & w' & Hfind & Hres & _ & Hsaid & _);
    [discriminate | reflexivity | reflexivity |].
  destruct (Hsaid eq_refl eq_refl) as (-> & -> & ->).
  assert (Eres : res = aoresult_ok)
    by (apply Hres; right; split; reflexivity).
  subst res. eexists. exact Hfind.
Defined.

(** The word [a] names the flag [p] of the bench. *)
Ltac names_concrete :=
  split; [vm_compute; split; [discriminate | reflexivity] |];
  split; [reflexivity |];
  let q := fresh "q" in
  let Hq := fresh "Hq" in
  let Hc := fresh "Hc" in
  intros q Hq;
  assert (Hc : q = 0 \/ q = 1 \/ q = 2 \/ q = 3 \/ q = 4 \/ q = 5 \/ q = 6 \/ q = 7)
    by lia;
  repeat (destruct Hc as [-> | Hc]; [first [reflexivity | lia] |]);
  subst q; first [reflexivity | lia].

(** The word "ma" names the flag of Mali, and "x" no flag. *)
Lemma swflag_cmd_find_first_witness :
  Swflag.names_flag (W := board_t) "ma"
    (Swflag.aoapps_swflag_cmd_find (W := board_t) "ma") /\
  Swflag.aoapps_swflag_cmd_find (W := board_t) "ma" = 3 /\
  forall q, 0 <= q < 9 -> isprefix (aomw_flag_name (W := board_t) q) "x" = false.
Proof.
  split; [| split].
  - destruct (swflag_cmd_find_first (W := board_t) "ma") as (_ & Hnames & _);
      [vm_compute; discriminate |].
    apply Hnames. vm_compute. discriminate.
  - destruct (swflag_cmd_find_first (W := board_t) "ma") as (_ & _ & Hfirst);
      [vm_compute; discriminate |].
    apply Hfirst. names_concrete.
  - destruct (swflag_cmd_find_first (W := board_t) "x") as (Hnone & _);
      [vm_compute; discriminate |].
    apply Hnone. reflexivity.
Defined.

(** The command "apps config swflag set mali dutch italy japan", and the
    same with a word that names no flag. *)
Lemma swflag_cmd_set_witness :
  returns
    (Swflag.aoapps_swflag_cmd_main
       ["apps"; "config"; "swflag"; "set"; "mali"; "dutch"; "italy"; "japan"]%string)
    (fun _ s' _ => s' = Swflag.set_pix [3; 0; 4; 2] (swflag_at 0) /\ Swflag.pix_ok s')
    (swflag_at 0) (bench 0 1 0) /\
  returns
    (Swflag.aoapps_swflag_cmd_main
       ["apps"; "config"; "swflag"; "set"; "mali"; "dutch"; "x"; "japan"]%string)
    (fun _ s' _ => s' = swflag_at 0)
    (swflag_at 0) (bench 0 1 0).
Proof.
  split.
  - destruct (swflag_cmd_set "apps" "config" "swflag" "set" "mali" "dutch" "italy" "japan"
                (swflag_at 0) (bench 0 1 0)) as [Hset _];
      [reflexivity | reflexivity | reflexivity | vm_compute; discriminate
      | reflexivity |].
    apply (Hset 3 0 4 2); names_concrete.
  - destruct (swflag_cmd_set "apps" "config" "swflag" "set" "mali" "dutch" "x" "japan"
                (swflag_at 0) (bench 0 1 0)) as [_ Hbad];
      [reflexivity | reflexivity | reflexivity | vm_compute; discriminate
      | reflexivity |].
    apply Hbad. right. right. left. reflexivity.
Defined.

(** Five steps of swflag without I/O-expander, the clock advancing by
    700 ms at each reading. *)
Lemma swflag_steps_keep_order_witness :
  returns (Swflag.swflag_steps 5)
    (fun _ s' _ => Swflag.pix_ok s' /\ Swflag.flagix_ok s' /\ Swflag.kept (swflag_at 0) s')
    (swflag_at 0) (bench 0 700 0).
Proof.
  apply (swflag_steps_keep_order 5 (swflag_at 0) (bench 0 700 0)).
  - split; [reflexivity |].
    repeat (constructor; [vm_compute; split; [discriminate | reflexivity] |]).
    constructor.
  - vm_compute. split; [discriminate | reflexivity].
Defined.

(** The animation 2001 ms after the last of the four flags was painted:
    the first flag is painted. *)
Lemma swflag_anim_cycles_witness :
  Swflag.aoapps_swflag_anim (swflag_at 3, bench 2001 1 0) =
  Ok (aoresult_ok,
      (Swflag.set_flagix 0 (Swflag.set_lastms 2002 (swflag_at 3)),
       with_painted 0 (bench 2003 1 0))).
Proof.
  destruct (swflag_anim_cycles (swflag_at 3) (bench 2001 1 0) 2001 (bench 2002 1 0)
              2002 (bench 2003 1 0) 0 aoresult_ok (with_painted 0 (bench 2003 1 0)))
    as [_ Hnext];
    [reflexivity | vm_compute; split; [discriminate | reflexivity]
    | reflexivity | reflexivity | reflexivity | reflexivity |].
  destruct Hnext as [_ Hanim]; [vm_compute; reflexivity | exact Hanim].
Defined.

(** The start of swflag on a chain without I/O-expander, and five steps,
    the clock advancing by 700 ms at each reading. *)
Lemma swflag_start_then_steps_witness :
  returns
    (let+ result := Swflag.aoapps_swflag_start 0 in
     if negb (result =? aoresult_ok) then pret result else Swflag.swflag_steps 5)
    (fun _ s' _ => Swflag.pix_ok s' /\ Swflag.aomw_swflag_anim_pix s' = [0; 3; 5; 4])
    (swflag_at 2) (bench 0 700 0).
Proof.
  apply (swflag_start_then_steps 5 0 (swflag_at 2) (bench 0 700 0)).
  split; [reflexivity |].
  repeat (constructor; [vm_compute; split; [discriminate | reflexivity] |]).
  constructor.
Defined.
